(** * Hybrid RAG agent: ingestion pipeline and retrieval fusion

    A shallow embedding of the Python sources

    - [agent/ingestion/chunker.py]   (class [SemanticChunker])
    - [agent/agent/embeddings.py]    (class [EmbeddingGenerator])
    - [agent/ingestion/pipeline.py]  (class [IngestionPipeline])
    - [agent/agent/tools.py]         (the search tools and fusion helpers)
    - [agent/ingestion/pdf_processor.py] (class [PDFProcessor])

    together with the properties the specification states about them.

    Conventions.
    - A Python [str] is a [string]; its characters are the code points
      below 256, and [PyStr] gives [str.strip], [str.lower], [str.split]
      and slicing on them.
    - A Python [float] used as a score, an average or a progress
      percentage is an exact rational ([Q]); equality of floats is
      [Qeq_bool]. What is stated of them is their order and their bounds,
      which rounding keeps. Where the floats of the code answer otherwise
      than the rationals, on overflow and on products of rounded
      quotients, [Binary64] has the operation on binary64 floats, and a
      theorem that needs a difference within the range of the floats says
      so with [greatest_float].
    - The result objects that [tools.py] changes in place live in a store
      ([InPlace]): a list of results is a list of addresses, and one
      object may be listed twice.
    - Code that may raise returns an [Outcome]; [try ... except Exception]
      is [try_except].
    - A progress callback is [None] when the caller passes none, and
      otherwise a function that says, for the arguments of a call, whether
      the call returns or raises. The calls one run makes differ in their
      arguments, so such a function can answer every call on its own.
      [returning true] is a callback that always returns, [returning
      false] is no callback.
    - External collaborators (text splitter, embedding provider, stores,
      clock, uuid generator) are fields of environment records: a theorem
      holds for every behaviour of the collaborator unless a hypothesis
      restricts it. *)

From Stdlib Require Import Ascii QArith Qminmax PrimFloat.
From stdpp Require Import base list strings gmap pretty sorting.

Local Open Scope string_scope.
Local Open Scope list_scope.
Local Set Warnings "-register-all,-inexact-float".

(* ===================================================================== *)
(** * Python strings *)
(* ===================================================================== *)

Module PyStr.

(** [str.isspace] on one character (code points below 256). *)
Definition isspace (c : ascii) : bool :=
  let n := Ascii.N_of_ascii c in
  ((9 <=? n) && (n <=? 13) || (28 <=? n) && (n <=? 32)
   || (n =? 133) || (n =? 160))%N.

(** [str.lower] on one character: A-Z and the Latin-1 capitals. *)
Definition lower_char (c : ascii) : ascii :=
  let n := Ascii.N_of_ascii c in
  if ((65 <=? n) && (n <=? 90)
      || (192 <=? n) && (n <=? 222) && negb (n =? 215))%N
  then Ascii.ascii_of_N (n + 32) else c.

Fixpoint lstrip_chars (l : list ascii) : list ascii :=
  match l with
  | [] => []
  | c :: r => if isspace c then lstrip_chars r else l
  end.

Definition rstrip_chars (l : list ascii) : list ascii :=
  reverse (lstrip_chars (reverse l)).

(** [s.strip()] *)
Definition strip (s : string) : string :=
  String.string_of_list_ascii
    (rstrip_chars (lstrip_chars (String.list_ascii_of_string s))).

(** [s.lower()] *)
Definition lower (s : string) : string :=
  String.string_of_list_ascii
    (lower_char <$> String.list_ascii_of_string s).

(** [len(s)] *)
Definition len (s : string) : nat := String.length s.

(** [s[:n]] for a Python integer [n]; a negative [n] counts from the
    end. *)
Definition slice_to (s : string) (n : Z) : string :=
  let l := String.list_ascii_of_string s in
  let k := if (n <? 0)%Z then length l - Z.to_nat (- n) else Z.to_nat n in
  String.string_of_list_ascii (take k l).

(** [bool(s)]: a string is truthy when it is not empty. *)
Definition truthy (s : string) : bool :=
  match s with EmptyString => false | String _ _ => true end.

(** [s.split()]: the maximal runs of non-space characters. [cur] is the
    run being read, most recent character first. *)
Fixpoint split_chars (cur : list ascii) (l : list ascii)
  : list (list ascii) :=
  match l with
  | [] => match cur with [] => [] | _ => [reverse cur] end
  | c :: r =>
      if isspace c
      then match cur with
           | [] => split_chars [] r
           | _ => reverse cur :: split_chars [] r
           end
      else split_chars (c :: cur) r
  end.

Definition split (s : string) : list string :=
  String.string_of_list_ascii
    <$> split_chars [] (String.list_ascii_of_string s).

(** [sep.join(parts)] *)
Fixpoint join (sep : string) (parts : list string) : string :=
  match parts with
  | [] => ""
  | [p] => p
  | p :: rest => p +:+ sep +:+ join sep rest
  end.

(** [c * n] for a one-character string [c]. *)
Definition replicate_char (n : nat) (c : ascii) : string :=
  String.string_of_list_ascii (replicate n c).

End PyStr.

(* ===================================================================== *)
(** * Exceptions *)
(* ===================================================================== *)

(** The result of running Python code: a value, or an exception of class
    [Exception] carried as its [str(error)]. *)
Inductive Outcome (A : Type) : Type :=
| Returns (a : A)
| Raises (message : string).
Arguments Returns {A} a.
Arguments Raises {A} message.

#[export] Instance Outcome_ret : MRet Outcome := @Returns.
#[export] Instance Outcome_bind : MBind Outcome := fun A B f m =>
  match m with
  | Returns a => f a
  | Raises e => Raises e
  end.

(** [try: body  except Exception as error: handler(error)] *)
Definition try_except {A} (body : Outcome A) (handler : string -> Outcome A)
  : Outcome A :=
  match body with
  | Returns a => Returns a
  | Raises e => handler e
  end.

Definition raised {A} (o : Outcome A) : bool :=
  match o with Returns _ => false | Raises _ => true end.

(** ** Progress callbacks *)

(** An [Optional[Callable]] of two arguments. *)
Abbreviation Callback A B := (option (A -> B -> Outcome unit)).

(** The callbacks that return from every call: one that was passed, or
    none. *)
Definition returning {A B : Type} (passed : bool) : Callback A B :=
  if passed then Some (fun _ _ => Returns ()) else None.

(** [bool(callback)]: whether a callback was passed. *)
Definition passed {A B : Type} (callback : Callback A B) : bool :=
  match callback with Some _ => true | None => false end.

(** Every call of the callback returns. *)
Definition returns_normally {A B : Type} (callback : Callback A B) : Prop :=
  forall f a b, callback = Some f -> f a b = Returns ().

(* ===================================================================== *)
(** * Data model ([models.py]) *)
(* ===================================================================== *)

(** Values of type [Any] stored in the free-form dictionaries. A [dict]
    keeps its insertion order, so it is an association list. *)
Inductive PyVal : Type :=
| PyNone
| PyBool (b : bool)
| PyInt (z : Z)
| PyFloat (q : Q)
| PyStr (s : string)
| PyList (l : list PyVal)
| PyDict (d : list (string * PyVal)).

Abbreviation PyDictT := (list (string * PyVal)).

(** [d.get(key, default)] *)
Fixpoint dict_get (d : PyDictT) (key : string) (default : PyVal) : PyVal :=
  match d with
  | [] => default
  | (k, v) :: r => if String.eqb k key then v else dict_get r key default
  end.

(** [d[key] = v] *)
Fixpoint dict_set (d : PyDictT) (key : string) (v : PyVal) : PyDictT :=
  match d with
  | [] => [(key, v)]
  | (k, w) :: r =>
      if String.eqb k key then (k, v) :: r else (k, w) :: dict_set r key v
  end.

(** [d.update(other)] *)
Definition dict_update (d other : PyDictT) : PyDictT :=
  fold_left (fun acc kv => dict_set acc kv.1 kv.2) other d.

Definition opt_str (o : option string) : PyVal :=
  match o with Some s => PyStr s | None => PyNone end.

Definition opt_int (o : option Z) : PyVal :=
  match o with Some z => PyInt z | None => PyNone end.

Inductive DocumentStatus : Type := UPLOADED | PROCESSING | COMPLETED | FAILED.

Record DocumentMetadata : Type := {
  title : string;
  author : option string;
  created_date : option string;
  file_size : Z;
  file_type : string;
  page_count : option Z;
  language : option string;
  tags : list string;
  custom_fields : PyDictT
}.

Record DocumentChunk : Type := {
  chunk_id : string;
  chunk_document_id : string;
  chunk_content : string;
  chunk_index : nat;
  start_char : option nat;
  end_char : option nat;
  embedding : option (list Q);
  chunk_metadata : PyDictT
}.

Record Document : Type := {
  document_id : string;
  filename : string;
  original_name : string;
  file_path : string;
  status : DocumentStatus;
  metadata : DocumentMetadata;
  chunks : list DocumentChunk;
  processing_started_at : option string;
  processing_completed_at : option string;
  error_message : option string
}.

Record ChunkResult : Type := {
  cr_chunk_id : string;
  cr_document_id : string;
  content : string;
  score : Q;
  cr_metadata : PyDictT;
  document_title : option string;
  document_source : option string;
  cr_chunk_index : option Z
}.

Record GraphResult : Type := {
  entity_id : string;
  entity_name : string;
  entity_type : string;
  relationships : list PyDictT;
  properties : PyDictT;
  graph_score : option Q
}.

Record ProcessingResult : Type := {
  job_id : string;
  pr_document_id : string;
  chunks_created : nat;
  entities_extracted : nat;
  relationships_created : nat;
  processing_time_ms : Q;
  success : bool;
  pr_error_message : option string
}.

(* ===================================================================== *)
(** * Chunk segmenter ([chunker.py]) *)
(* ===================================================================== *)

Module Chunker.
Import PyStr.

Record ChunkingConfig : Type := {
  chunk_size : Z;
  chunk_overlap : Z;
  max_chunk_size : Z;
  use_semantic_chunking : bool;
  preserve_structure : bool;
  min_chunk_size : Z
}.

(** The defaults of the dataclass, with the defaults of [config.py]. *)
Definition default_config : ChunkingConfig := {|
  chunk_size := 1000;
  chunk_overlap := 200;
  max_chunk_size := 2000;
  use_semantic_chunking := true;
  preserve_structure := true;
  min_chunk_size := 100
|}.

(** What the chunker takes from outside.
    - [split_text k text]: the [k]-th call of
      [RecursiveCharacterTextSplitter.split_text] of this run;
    - [preprocess_re]: the regular-expression rewriting of
      [_preprocess_text], which ends in [strip] or, on an error, returns
      the text as it is;
    - [uuid4 k], [now_iso k]: the identifier and the timestamp of the
      [k]-th chunk created. *)
Record Env : Type := {
  split_text : nat -> string -> Outcome (list string);
  preprocess_re : string -> string;
  uuid4 : nat -> string;
  now_iso : nat -> string
}.

Record SemanticChunker : Type := {
  config : ChunkingConfig;
  env : Env
}.

Definition _preprocess_text (self : SemanticChunker) (text : string)
  : string :=
  preprocess_re (env self) text.

(** The stub returns its argument on both paths. *)
Definition _optimize_chunk_boundaries (chunks : list string)
  : list string :=
  chunks.

(** The loop of [_semantic_chunk] over [enumerate(basic_chunks)], from
    index [i] on; [n] is [len(basic_chunks)]. *)
Fixpoint semantic_loop (n i : nat) (rest : list string)
    (semantic_chunks current_batch : list string) : list string :=
  match rest with
  | [] => semantic_chunks
  | chunk :: rest' =>
      let current_batch := current_batch ++ [chunk] in
      if (5 <=? length current_batch)%nat || (i =? n - 1)%nat
      then semantic_loop n (S i) rest'
             (semantic_chunks ++ _optimize_chunk_boundaries current_batch)
             []
      else semantic_loop n (S i) rest' semantic_chunks current_batch
  end.

Definition _semantic_chunk (self : SemanticChunker) (text : string)
  : Outcome (list string) :=
  try_except
    (basic_chunks ← split_text (env self) 0 text;
     if (length basic_chunks <=? 20)%nat
     then mret basic_chunks
     else mret (semantic_loop (length basic_chunks) 0 basic_chunks [] []))
    (fun _ => split_text (env self) 1 text).

Definition _basic_chunk (self : SemanticChunker) (text : string)
  : Outcome (list string) :=
  split_text (env self) 0 text.

Definition chunk_method (self : SemanticChunker) : string :=
  if use_semantic_chunking (config self) then "semantic" else "basic".

(** The loop of [_post_process_chunks] over [enumerate(chunks)], from
    index [i] on. *)
Fixpoint post_process_loop (self : SemanticChunker) (document : Document)
    (i : nat) (chunks : list string)
    (processed_chunks : list DocumentChunk) (char_offset : nat)
  : list DocumentChunk :=
  match chunks with
  | [] => processed_chunks
  | chunk_text :: rest =>
      if (Z.of_nat (len (strip chunk_text))
            <? min_chunk_size (config self))%Z
      then post_process_loop self document (S i) rest
             processed_chunks char_offset
      else
        let chunk_text :=
          if (max_chunk_size (config self) <? Z.of_nat (len chunk_text))%Z
          then slice_to chunk_text (max_chunk_size (config self))
          else chunk_text in
        let k := length processed_chunks in
        let chunk := {|
          chunk_id := uuid4 (env self) k;
          chunk_document_id := document_id document;
          chunk_content := strip chunk_text;
          chunk_index := i;
          start_char := Some char_offset;
          end_char := Some (char_offset + len chunk_text);
          embedding := None;
          chunk_metadata :=
            [("document_title", PyStr (title (metadata document)));
             ("document_source", PyStr (original_name document));
             ("chunk_method", PyStr (chunk_method self));
             ("created_at", PyStr (now_iso (env self) k));
             ("file_type", PyStr (file_type (metadata document)));
             ("page_count", opt_int (page_count (metadata document)))]
        |} in
        post_process_loop self document (S i) rest
          (processed_chunks ++ [chunk]) (char_offset + len chunk_text)
  end.

(** A candidate passes the size test of the loop. *)
Definition kept (self : SemanticChunker) (chunk_text : string) : bool :=
  negb (Z.of_nat (len (strip chunk_text)) <? min_chunk_size (config self))%Z.

Definition _post_process_chunks (self : SemanticChunker)
    (chunks : list string) (document : Document) : list DocumentChunk :=
  post_process_loop self document 0 chunks [] 0.

(** [text_content.strip()] where [text_content] comes out of a
    [Dict[str, Any]]: only a [str] has the method. *)
Definition as_text (v : PyVal) : Outcome string :=
  match v with
  | PyStr s => Returns s
  | _ => Raises "object has no attribute 'strip'"
  end.

(** The body of the [try] of [chunk_document]. *)
Definition chunk_document_body (self : SemanticChunker)
    (document : Document) : Outcome (list DocumentChunk) :=
  text_content ← as_text
    (dict_get (custom_fields (metadata document)) "extracted_text"
       (PyStr ""));
  if negb (truthy (strip text_content))
  then mret []
  else
    let preprocessed_text := _preprocess_text self text_content in
    chunks ← (if use_semantic_chunking (config self)
              then _semantic_chunk self preprocessed_text
              else _basic_chunk self preprocessed_text);
    mret (_post_process_chunks self chunks document).

Definition chunk_document (self : SemanticChunker) (document : Document)
  : Outcome (list DocumentChunk) :=
  try_except (chunk_document_body self document) (fun _ => Returns []).

End Chunker.

(* ===================================================================== *)
(** * Embedding batcher ([embeddings.py]) *)
(* ===================================================================== *)

Module Embeddings.
Import PyStr.

Abbreviation Vector := (list Q).

(** [create batch_num input] is the call
    [client.embeddings.create(model, input, encoding_format)] made for
    batch [batch_num], reduced to the list of [item.embedding] of its
    response. *)
Record EmbeddingGenerator : Type := {
  dimensions : Z;
  batch_size : Z;
  create : Z -> list string -> Outcome (list Vector)
}.

Definition _clean_text (text : string) : string :=
  if negb (truthy text) then ""
  else
    let cleaned := join " " (split text) in
    let max_chars := 8000%Z in
    if (max_chars <? Z.of_nat (len cleaned))%Z
    then slice_to cleaned max_chars
    else cleaned.

(** [[0.0] * self.dimensions] *)
Definition zero_embedding (self : EmbeddingGenerator) : Vector :=
  replicate (Z.to_nat (dimensions self)) 0%Q.

(** [range(0, n, step)] for a step that is not zero. *)
Definition py_range (n : nat) (step : Z) : list nat :=
  if (step <=? 0)%Z then []
  else
    let s := Z.to_nat step in
    (fun k => k * s)%nat <$> seq 0 ((n + s - 1) / s)%nat.

Definition non_empty (cleaned_text : string) : bool :=
  truthy (strip cleaned_text).

(** The loop over [zip(batch, cleaned_batch)]. It appends to
    [embeddings] as it goes, so what it appended stays when
    [batch_embeddings[embedding_idx]] raises [IndexError]. *)
Fixpoint fill_embeddings (self : EmbeddingGenerator)
    (batch_embeddings : list Vector) (cleaned_batch : list string)
    (embedding_idx : nat) (embeddings : list Vector)
  : list Vector * Outcome unit :=
  match cleaned_batch with
  | [] => (embeddings, Returns ())
  | cleaned_text :: rest =>
      if non_empty cleaned_text
      then match batch_embeddings !! embedding_idx with
           | Some e =>
               fill_embeddings self batch_embeddings rest
                 (S embedding_idx) (embeddings ++ [e])
           | None => (embeddings, Raises "list index out of range")
           end
      else fill_embeddings self batch_embeddings rest embedding_idx
             (embeddings ++ [zero_embedding self])
  end.

(** The state of the batch loop: the list [embeddings] and the calls
    [(batch_num, total_batches)] made to the progress callback. *)
Abbreviation LoopState := (list Vector * list (Z * Z))%type.

(** One iteration of [for i in range(0, len(texts), self.batch_size)].
    The callback is called inside the [try] of the batch: when it raises,
    the handler of the batch adds a zero vector for every text of the
    batch to the vectors the batch has already appended. *)
Definition batch_step (self : EmbeddingGenerator) (texts : list string)
    (progress_callback : Callback Z Z) (total_batches : Z)
    (st : LoopState) (i : nat) : LoopState :=
  let '(embeddings, calls) := st in
  let batch := take (Z.to_nat (batch_size self)) (drop i texts) in
  let batch_num := (Z.of_nat i / batch_size self + 1)%Z in
  let cleaned_batch := _clean_text <$> batch in
  let non_empty_batch := List.filter non_empty cleaned_batch in
  match non_empty_batch with
  | [] =>
      (embeddings ++ replicate (length batch) (zero_embedding self), calls)
  | _ :: _ =>
      match create self batch_num non_empty_batch with
      | Returns batch_embeddings =>
          match fill_embeddings self batch_embeddings cleaned_batch 0
                  embeddings with
          | (embeddings, Returns _) =>
              match progress_callback with
              | None => (embeddings, calls)
              | Some callback =>
                  match callback batch_num total_batches with
                  | Returns _ =>
                      (embeddings, calls ++ [(batch_num, total_batches)])
                  | Raises _ =>
                      (embeddings
                         ++ replicate (length batch) (zero_embedding self),
                       calls ++ [(batch_num, total_batches)])
                  end
              end
          | (embeddings, Raises _) =>
              (embeddings
                 ++ replicate (length batch) (zero_embedding self),
               calls)
          end
      | Raises _ =>
          (embeddings ++ replicate (length batch) (zero_embedding self),
           calls)
      end
  end.

(** [generate_embeddings_batch(texts, progress_callback)]: the result and
    the calls made to the callback, those that raised among them. *)
Definition generate_embeddings_batch (self : EmbeddingGenerator)
    (texts : list string) (progress_callback : Callback Z Z)
  : Outcome (list Vector) * list (Z * Z) :=
  if (batch_size self =? 0)%Z
  then (Raises ("Failed to generate batch embeddings: "
                +:+ "integer division or modulo by zero"), [])
  else
    let total_batches :=
      ((Z.of_nat (length texts) + batch_size self - 1)
         / batch_size self)%Z in
    let '(embeddings, calls) :=
      fold_left (batch_step self texts progress_callback total_batches)
        (py_range (length texts) (batch_size self)) ([], []) in
    (Returns embeddings, calls).

(** ** The batch a text falls in

    For the text at position [p] of the input: the number of its batch,
    the batch itself, the list handed to the provider for that batch, and
    the position of the text in that list. *)

Definition batch_number (self : EmbeddingGenerator) (p : nat) : Z :=
  (Z.of_nat (p / Z.to_nat (batch_size self)) + 1)%Z.

Definition batch_of (self : EmbeddingGenerator) (texts : list string)
    (p : nat) : list string :=
  let s := Z.to_nat (batch_size self) in
  take s (drop (p / s * s) texts).

Definition provider_input (self : EmbeddingGenerator) (texts : list string)
    (p : nat) : list string :=
  List.filter non_empty (_clean_text <$> batch_of self texts p).

Definition input_rank (self : EmbeddingGenerator) (texts : list string)
    (p : nat) : nat :=
  let s := Z.to_nat (batch_size self) in
  length (List.filter non_empty
            (_clean_text <$> take (p mod s) (batch_of self texts p))).

(** What position [p] of the result holds, whatever the provider does for
    the batch of [p]. *)
Definition expected_embedding (self : EmbeddingGenerator)
    (texts : list string) (p : nat) (text : string) : Vector :=
  match create self (batch_number self p) (provider_input self texts p) with
  | Raises _ => zero_embedding self
  | Returns vs =>
      if non_empty (_clean_text text)
      then default [] (vs !! input_rank self texts p)
      else zero_embedding self
  end.

(** Position [p] of [embeddings] holds the provider's vector for [text]:
    the cleaned text is input number [input_rank] of the call made for its
    batch, the call returned, and [embeddings[p]] is vector number
    [input_rank] of the response. *)
Definition holds_provider_vector (self : EmbeddingGenerator)
    (texts : list string) (embeddings : list Vector) (p : nat)
    (text : string) : Prop :=
  exists vs v,
    provider_input self texts p !! input_rank self texts p
      = Some (_clean_text text)
    /\ create self (batch_number self p) (provider_input self texts p)
         = Returns vs
    /\ vs !! input_rank self texts p = Some v
    /\ embeddings !! p = Some v.

End Embeddings.

(* ===================================================================== *)
(** * Pipeline orchestrator ([pipeline.py]) *)
(* ===================================================================== *)

Module Pipeline.
Import PyStr.

Record PipelineStats : Type := {
  documents_processed : nat;
  stat_chunks_created : nat;
  embeddings_generated : nat;
  stat_entities_extracted : nat;
  stat_relationships_created : nat;
  total_processing_time : Q
}.

(** The collaborators of one run and what the clock shows in it:
    [start_time] at entry, [end_time] and the elapsed milliseconds when
    the run ends. *)
Record IngestionPipeline : Type := {
  process_pdf : string -> string -> string -> Outcome Document;
  chunker : Chunker.SemanticChunker;
  embedding_generator : Embeddings.EmbeddingGenerator;
  add_documents : list DocumentChunk -> Outcome bool;
  add_episode : PyVal -> string -> string -> PyDictT -> Outcome string;
  start_time : string;
  start_timestamp : Z;
  end_time : string;
  elapsed_ms : Q
}.

(** What a run has done so far: the local variable [document] once it is
    bound, the calls [(message, progress)] made to the progress callback,
    and [self.stats]. An exception leaves it as it is. *)
Record RunState : Type := {
  document : option Document;
  progress : list (string * Q);
  stats : PipelineStats
}.

Definition Run (A : Type) : Type := RunState -> RunState * Outcome A.

#[export] Instance Run_ret : MRet Run := fun A a st => (st, Returns a).
#[export] Instance Run_bind : MBind Run := fun A B f m st =>
  match m st with
  | (st', Returns a) => f a st'
  | (st', Raises e) => (st', Raises e)
  end.

Definition lift {A} (o : Outcome A) : Run A := fun st => (st, o).

Definition raise {A} (message : string) : Run A :=
  fun st => (st, Raises message).

(** One call [progress_callback(message, value)]. *)
Definition emit (st : RunState) (message : string) (value : Q) : RunState :=
  {| document := document st;
     progress := progress st ++ [(message, value)];
     stats := stats st |}.

(** [if progress_callback: progress_callback(message, value)]: the call
    is made, and it returns or raises. *)
Definition report (progress_callback : Callback string Q)
    (message : string) (value : Q) : Run unit :=
  fun st =>
    match progress_callback with
    | Some callback => (emit st message value, callback message value)
    | None => (st, Returns ())
    end.

Definition bind_document (d : Document) : Run unit :=
  fun st =>
    ({| document := Some d; progress := progress st; stats := stats st |},
     Returns ()).

Definition update_stats (f : PipelineStats -> PipelineStats) : Run unit :=
  fun st =>
    ({| document := document st; progress := progress st;
        stats := f (stats st) |},
     Returns ()).

Definition with_custom_fields (d : Document) (cf : PyDictT) : Document :=
  let m := metadata d in
  {| document_id := document_id d; filename := filename d;
     original_name := original_name d; file_path := file_path d;
     status := status d;
     metadata := {| title := title m; author := author m;
                    created_date := created_date m;
                    file_size := file_size m; file_type := file_type m;
                    page_count := page_count m; language := language m;
                    tags := tags m; custom_fields := cf |};
     chunks := chunks d;
     processing_started_at := processing_started_at d;
     processing_completed_at := processing_completed_at d;
     error_message := error_message d |}.

Definition with_started (d : Document) (t : string) : Document :=
  {| document_id := document_id d; filename := filename d;
     original_name := original_name d; file_path := file_path d;
     status := PROCESSING; metadata := metadata d; chunks := chunks d;
     processing_started_at := Some t;
     processing_completed_at := processing_completed_at d;
     error_message := error_message d |}.

Definition with_chunks (d : Document) (cs : list DocumentChunk)
  : Document :=
  {| document_id := document_id d; filename := filename d;
     original_name := original_name d; file_path := file_path d;
     status := status d; metadata := metadata d; chunks := cs;
     processing_started_at := processing_started_at d;
     processing_completed_at := processing_completed_at d;
     error_message := error_message d |}.

Definition with_completed (d : Document) (t : string) : Document :=
  {| document_id := document_id d; filename := filename d;
     original_name := original_name d; file_path := file_path d;
     status := COMPLETED; metadata := metadata d; chunks := chunks d;
     processing_started_at := processing_started_at d;
     processing_completed_at := Some t;
     error_message := error_message d |}.

Definition with_failed (d : Document) (message t : string) : Document :=
  {| document_id := document_id d; filename := filename d;
     original_name := original_name d; file_path := file_path d;
     status := FAILED; metadata := metadata d; chunks := chunks d;
     processing_started_at := processing_started_at d;
     processing_completed_at := Some t;
     error_message := Some message |}.

Definition with_embedding (c : DocumentChunk) (e : list Q)
  : DocumentChunk :=
  {| chunk_id := chunk_id c; chunk_document_id := chunk_document_id c;
     chunk_content := chunk_content c; chunk_index := chunk_index c;
     start_char := start_char c; end_char := end_char c;
     embedding := Some e; chunk_metadata := chunk_metadata c |}.

(** [for chunk, embedding in zip(chunks, embeddings):
       chunk.embedding = embedding] *)
Fixpoint assign_embeddings (chunks : list DocumentChunk)
    (embeddings : list (list Q)) : list DocumentChunk :=
  match chunks, embeddings with
  | c :: cs, e :: es => with_embedding c e :: assign_embeddings cs es
  | _, _ => chunks
  end.

(** [bool(chunk.embedding)] *)
Definition has_embedding (c : DocumentChunk) : bool :=
  match embedding c with
  | Some (_ :: _) => true
  | _ => false
  end.

(** The value [embedding_progress(current, total)] hands on. *)
Definition embedding_progress_value (current total : Z) : Q :=
  45 + (inject_Z current / inject_Z total) * 15.

Definition call_value (call : Z * Z) : Q :=
  embedding_progress_value call.1 call.2.

(** A call of the progress callback that was made and is over, entered
    into the state of the run. *)
Definition note (progress_callback : Callback string Q)
    (message : string) (value : Q) : Run unit :=
  fun st =>
    (match progress_callback with
     | Some _ => emit st message value
     | None => st
     end,
     Returns ()).

Definition embedding_progress_message (current total : Z) : string :=
  "Generating embeddings (" +:+ pretty current +:+ "/"
    +:+ pretty total +:+ ")".

(** [embedding_progress], the function handed to the embedding batcher:
    it passes the call on to the progress callback, when there is one. *)
Definition embedding_progress (progress_callback : Callback string Q)
    (current total : Z) : Outcome unit :=
  match progress_callback with
  | Some callback =>
      callback (embedding_progress_message current total)
        (embedding_progress_value current total)
  | None => Returns ()
  end.

(** The calls the batcher made to [embedding_progress], entered into the
    state of the run: each of them reached the progress callback, when
    there is one. What a call raised stayed in the batcher. *)
Fixpoint embedding_reports (progress_callback : Callback string Q)
    (calls : list (Z * Z)) : Run unit :=
  match calls with
  | [] => mret ()
  | (current, total) :: rest =>
      note progress_callback (embedding_progress_message current total)
        (embedding_progress_value current total);;
      embedding_reports progress_callback rest
  end.

Definition job_id_of (self : IngestionPipeline) : string :=
  "job_" +:+ pretty (start_timestamp self).

(** The document as it is handed to the chunker: the caller's metadata,
    when there is any, merged into [custom_fields], the status set to
    [PROCESSING] and the start time recorded. *)
Definition started_document (self : IngestionPipeline)
    (metadata_arg : option PyDictT) (document : Document) : Document :=
  let document :=
    match metadata_arg with
    | Some (kv :: more) =>
        with_custom_fields document
          (dict_update (custom_fields (metadata document)) (kv :: more))
    | _ => document
    end in
  with_started document (start_time self).

(** The body of the [try] of [process_document]. *)
Definition process_document_body (self : IngestionPipeline)
    (file_path_ filename_ original_name_ : string)
    (metadata_arg : option PyDictT)
    (progress_callback : Callback string Q)
  : Run ProcessingResult :=
  report progress_callback "Starting processing..." 0;;
  report progress_callback "Extracting text from PDF..." 10;;
  document ← lift (process_pdf self file_path_ filename_ original_name_);
  let document := started_document self metadata_arg document in
  bind_document document;;
  report progress_callback "Text extraction completed" 20;;
  report progress_callback "Creating semantic chunks..." 25;;
  chunks ← lift (Chunker.chunk_document (chunker self) document);
  match chunks with
  | [] => raise "No chunks created from document"
  | _ :: _ =>
      bind_document (with_chunks document chunks);;
      report progress_callback
        ("Created " +:+ pretty (length chunks) +:+ " chunks") 40;;
      report progress_callback "Generating embeddings..." 45;;
      let chunk_texts := chunk_content <$> chunks in
      let '(result, calls) :=
        Embeddings.generate_embeddings_batch (embedding_generator self)
          chunk_texts (Some (embedding_progress progress_callback)) in
      embedding_reports progress_callback calls;;
      embeddings ← lift result;
      let chunks := assign_embeddings chunks embeddings in
      let document := with_chunks document chunks in
      bind_document document;;
      report progress_callback "Embeddings generated" 60;;
      report progress_callback "Storing in vector database..." 65;;
      vector_success ← lift (add_documents self chunks);
      report progress_callback "Vector storage completed" 70;;
      report progress_callback "Building knowledge graph..." 75;;
      let full_text :=
        dict_get (custom_fields (metadata document)) "extracted_text"
          (PyStr "") in
      episode_id ← lift
        (add_episode self full_text (original_name document)
           (document_id document)
           [("document_title", PyStr (title (metadata document)));
            ("file_type", PyStr (file_type (metadata document)));
            ("chunk_count", PyInt (Z.of_nat (length chunks)))]);
      let entities_created := 1%nat in
      let relationships := 0%nat in
      report progress_callback "Knowledge graph completed" 90;;
      report progress_callback "Finalizing processing..." 95;;
      bind_document (with_completed document (end_time self));;
      let processing_time := elapsed_ms self in
      update_stats (fun s => {|
        documents_processed := documents_processed s + 1;
        stat_chunks_created := stat_chunks_created s + length chunks;
        embeddings_generated :=
          embeddings_generated s
            + length (List.filter has_embedding chunks);
        stat_entities_extracted :=
          stat_entities_extracted s + entities_created;
        stat_relationships_created :=
          stat_relationships_created s + relationships;
        total_processing_time :=
          total_processing_time s + processing_time |});;
      let result := {|
        job_id := job_id_of self;
        pr_document_id := document_id document;
        chunks_created := length chunks;
        entities_extracted := entities_created;
        relationships_created := relationships;
        processing_time_ms := processing_time;
        success := true;
        pr_error_message := None |} in
      report progress_callback "Processing completed successfully" 100;;
      mret result
  end.

(** The [except Exception as error] branch of [process_document]. Its
    call of the callback is not inside a [try]: what that call raises
    leaves [process_document]. *)
Definition process_document_handler (self : IngestionPipeline)
    (progress_callback : Callback string Q) (error : string)
  : Run ProcessingResult :=
  fun st =>
    let st1 := {|
      document :=
        (fun d => with_failed d error (end_time self)) <$> document st;
      progress := progress st;
      stats := stats st |} in
    let result := {|
      job_id := job_id_of self;
      pr_document_id :=
        match document st with
        | Some d => document_id d
        | None => "unknown"
        end;
      chunks_created := 0;
      entities_extracted := 0;
      relationships_created := 0;
      processing_time_ms := elapsed_ms self;
      success := false;
      pr_error_message := Some error |} in
    (report progress_callback ("Processing failed: " +:+ error) 100;;
     mret result) st1.

Definition initial_state (s : PipelineStats) : RunState :=
  {| document := None; progress := []; stats := s |}.

(** [process_document]: the state the run ends in and what the call
    returns or raises. *)
Definition process_document (self : IngestionPipeline)
    (s : PipelineStats) (file_path_ filename_ original_name_ : string)
    (metadata_arg : option PyDictT)
    (progress_callback : Callback string Q)
  : RunState * Outcome ProcessingResult :=
  match process_document_body self file_path_ filename_ original_name_
          metadata_arg progress_callback (initial_state s) with
  | (st, Returns result) => (st, Returns result)
  | (st, Raises error) =>
      process_document_handler self progress_callback error st
  end.

(** The progress values of a run, in the order the callback got them. *)
Definition progress_values (st : RunState) : list Q := (progress st).*2.

End Pipeline.

(* ===================================================================== *)
(** * Hybrid fusion helpers ([tools.py]) *)
(* ===================================================================== *)

Module Tools.
Import PyStr.

Definition Qlt_bool (x y : Q) : bool := negb (Qle_bool y x).

Definition with_score (r : ChunkResult) (s : Q) : ChunkResult :=
  {| cr_chunk_id := cr_chunk_id r; cr_document_id := cr_document_id r;
     content := content r; score := s; cr_metadata := cr_metadata r;
     document_title := document_title r;
     document_source := document_source r;
     cr_chunk_index := cr_chunk_index r |}.

(** [x or default] on an [Optional[float]]: [None] and [0.0] are both
    falsy. *)
Definition or_default (x : option Q) (default : Q) : Q :=
  match x with
  | Some q => if Qeq_bool q 0 then default else q
  | None => default
  end.

Definition newline : string := String (Ascii.ascii_of_nat 10) "".

(** The pseudo-chunk built from one graph result. [str_of] is Python's
    [str] on the values formatted into the content. *)
Definition graph_to_chunk (str_of : PyVal -> string) (graph_weight : Q)
    (graph_result : GraphResult) : ChunkResult :=
  let rels := PyList (PyDict <$> relationships graph_result) in
  let props := PyDict (properties graph_result) in
  {| cr_chunk_id := entity_id graph_result;
     cr_document_id := "knowledge_graph";
     content :=
       "Entity: " +:+ entity_name graph_result +:+ " ("
         +:+ entity_type graph_result +:+ ")" +:+ newline
         +:+ "Properties: " +:+ str_of props +:+ newline
         +:+ "Relationships: " +:+ str_of rels;
     score := or_default (graph_score graph_result) 0.5 * graph_weight;
     cr_metadata :=
       [("source", PyStr "knowledge_graph");
        ("entity_type", PyStr (entity_type graph_result));
        ("entity_name", PyStr (entity_name graph_result));
        ("relationships", rels);
        ("properties", props)];
     document_title :=
       Some ("Knowledge Graph: " +:+ entity_name graph_result);
     document_source := Some "knowledge_graph";
     cr_chunk_index := None |}.

(** [l.sort(key=key, reverse=True)]: the sort is stable, and [reverse]
    keeps the elements of equal key in their original order. An element
    goes in front of the first one whose key is not greater than its
    own. *)
Fixpoint insert_desc {A} (key : A -> Q) (x : A) (l : list A) : list A :=
  match l with
  | [] => [x]
  | y :: l' =>
      if Qlt_bool (key x) (key y)
      then y :: insert_desc key x l'
      else x :: y :: l'
  end.

Definition sort_desc {A} (key : A -> Q) (l : list A) : list A :=
  foldr (insert_desc key) [] l.

Definition _combine_search_results (str_of : PyVal -> string)
    (vector_results : list ChunkResult) (graph_results : list GraphResult)
    (vector_weight graph_weight : Q) : list ChunkResult :=
  let combined_results :=
    (fun result => with_score result (score result * vector_weight)%Q)
      <$> vector_results in
  let combined_results :=
    combined_results
      ++ (graph_to_chunk str_of graph_weight <$> graph_results) in
  sort_desc score combined_results.


(** [max(xs)] and [min(xs)] of a sequence that starts with [x]: the
    first of the greatest, the first of the least. *)
Definition py_max (x : Q) (xs : list Q) : Q :=
  fold_left (fun best y => if Qlt_bool best y then y else best) xs x.

Definition py_min (x : Q) (xs : list Q) : Q :=
  fold_left (fun best y => if Qlt_bool y best then y else best) xs x.

(** The min-max rescaling of the scores of a list of results, as values:
    what the loops of [_normalize_scores] leave in the results when every
    entry of the list is an object of its own
    ([InPlace._normalize_scores] has the loops on the objects). *)
Definition min_max_rescaled (results : list ChunkResult)
  : list ChunkResult :=
  match results with
  | [] => results
  | r :: rest =>
      let max_score := py_max (score r) (score <$> rest) in
      let min_score := py_min (score r) (score <$> rest) in
      if Qeq_bool max_score min_score
      then (fun result => with_score result 1) <$> results
      else
        let score_range := (max_score - min_score)%Q in
        (fun result =>
           with_score result ((score result - min_score) / score_range)%Q)
          <$> results
  end.

(** [result.content[:100].strip().lower()] *)
Definition content_key (result : ChunkResult) : string :=
  lower (strip (slice_to (content result) 100)).

(** The loop of [_deduplicate_results]. *)
Fixpoint dedup_loop (results deduplicated : list ChunkResult)
    (seen_content : gset string) : list ChunkResult :=
  match results with
  | [] => deduplicated
  | result :: rest =>
      let key := content_key result in
      if decide (key ∈ seen_content)
      then dedup_loop rest deduplicated seen_content
      else dedup_loop rest (deduplicated ++ [result])
             ({[key]} ∪ seen_content)
  end.

Definition _deduplicate_results (results : list ChunkResult)
  : list ChunkResult :=
  match results with
  | [] => results
  | _ :: _ => dedup_loop results [] ∅
  end.

(** ** The specification's wording of deduplication *)

(** "the first 100 characters of trimmed, lower-cased content" *)
Definition key_as_stated (result : ChunkResult) : string :=
  slice_to (lower (strip (content result))) 100.

(** Keep the first result of each key, in the original order. *)
Fixpoint first_per_key (key : ChunkResult -> string)
    (results : list ChunkResult) : list ChunkResult :=
  match results with
  | [] => []
  | r :: rest =>
      r :: List.filter (fun r' => negb (String.eqb (key r') (key r)))
             (first_per_key key rest)
  end.

End Tools.

(* ===================================================================== *)
(** * Fusion on shared objects *)
(* ===================================================================== *)

(** [_combine_search_results] assigns to [result.score] of the objects it
    is given. Here the [ChunkResult] objects live in a store and a list of
    results is a list of addresses, so that what the caller sees after the
    call, and what a second call does, can be stated. *)
Module InPlace.
Import Tools.

Abbreviation Store := (gmap nat ChunkResult).

Definition dummy : ChunkResult :=
  {| cr_chunk_id := ""; cr_document_id := ""; content := ""; score := 0;
     cr_metadata := []; document_title := None; document_source := None;
     cr_chunk_index := None |}.

Definition deref (h : Store) (a : nat) : ChunkResult :=
  default dummy (h !! a).

(** [result.score = result.score * vector_weight] *)
Definition scale_score (vector_weight : Q) (h : Store) (a : nat) : Store :=
  alter (fun result => with_score result (score result * vector_weight)%Q)
    a h.

(** The first loop: the objects are updated, their addresses appended. *)
Definition scale_all (vector_weight : Q) (h : Store)
    (vector_results : list nat) : Store :=
  fold_left (scale_score vector_weight) vector_results h.

(** The second loop: one new object for each graph result. *)
Fixpoint alloc_graph (str_of : PyVal -> string) (graph_weight : Q)
    (h : Store) (graph_results : list GraphResult) : Store * list nat :=
  match graph_results with
  | [] => (h, [])
  | g :: rest =>
      let a := fresh (dom h) in
      let '(h', addrs) :=
        alloc_graph str_of graph_weight
          (<[a := graph_to_chunk str_of graph_weight g]> h) rest in
      (h', a :: addrs)
  end.

Definition _combine_search_results (str_of : PyVal -> string) (h : Store)
    (vector_results : list nat) (graph_results : list GraphResult)
    (vector_weight graph_weight : Q) : Store * list nat :=
  let h1 := scale_all vector_weight h vector_results in
  let '(h2, graph_addrs) :=
    alloc_graph str_of graph_weight h1 graph_results in
  (h2, sort_desc (fun a => score (deref h2 a))
         (vector_results ++ graph_addrs)).

(** ** Normalization on shared objects *)

(** The greatest finite binary64 number. A difference of two scores that
    is greater is [inf] in the code, and the scores the code computes from
    it are not those of the rationals. *)
Definition greatest_float : Q := inject_Z (2 ^ 1024 - 2 ^ 971).

(** [max_score - min_score] for the scores of a list of objects. *)
Definition range_of_scores (h : Store) (results : list nat) : Q :=
  match results with
  | [] => 0
  | a :: rest =>
      (py_max (score (deref h a)) ((fun b => score (deref h b)) <$> rest)
       - py_min (score (deref h a))
           ((fun b => score (deref h b)) <$> rest))%Q
  end.

(** [result.score = 1.0] *)
Definition set_score (value : Q) (h : Store) (a : nat) : Store :=
  alter (fun result => with_score result value) a h.

(** [result.score = (result.score - min_score) / score_range] *)
Definition rescale_score (min_score score_range : Q) (h : Store) (a : nat)
  : Store :=
  alter
    (fun result =>
       with_score result ((score result - min_score) / score_range)%Q)
    a h.

(** [_normalize_scores(results)]: the greatest and the least score are
    read before the loop, the loop writes into the objects of the list,
    one after the other, and the list itself is returned. *)
Definition _normalize_scores (h : Store) (results : list nat)
  : Store * list nat :=
  match results with
  | [] => (h, results)
  | a :: rest =>
      let max_score :=
        py_max (score (deref h a)) ((fun b => score (deref h b)) <$> rest) in
      let min_score :=
        py_min (score (deref h a)) ((fun b => score (deref h b)) <$> rest) in
      if Qeq_bool max_score min_score
      then (fold_left (set_score 1) results h, results)
      else
        let score_range := (max_score - min_score)%Q in
        (fold_left (rescale_score min_score score_range) results h, results)
  end.

End InPlace.

(* ===================================================================== *)
(** * Arithmetic of Python's floats *)
(* ===================================================================== *)

(** The scores and averages above are exact rationals. Two expressions of
    the code are kept here in the binary64 arithmetic Python computes
    them in, for the inputs on which that arithmetic leaves the
    rationals. *)
Module Binary64.

(** [(result.score - min_score) / score_range] with
    [score_range = max_score - min_score] ([_normalize_scores]). *)
Definition rescaled_score (s min_score max_score : PrimFloat.float)
  : PrimFloat.float :=
  PrimFloat.div (PrimFloat.sub s min_score)
    (PrimFloat.sub max_score min_score).

(** [sum(chunk_sizes) / len(chunk_sizes)] ([get_chunking_stats]). *)
Definition average (total count : PrimFloat.float) : PrimFloat.float :=
  PrimFloat.div total count.

End Binary64.

(* ===================================================================== *)
(** * Concrete inputs used in the examples *)
(* ===================================================================== *)

Module Fixtures.
Import PyStr.
Definition text_document (text : PyVal) : Document :=
  {| document_id := "doc-1"; filename := "a.pdf"; original_name := "a.pdf";
     file_path := "/tmp/a.pdf"; status := PROCESSING;
     metadata := {| title := "A"; author := None; created_date := None;
                    file_size := 10; file_type := "pdf";
                    page_count := Some 1%Z; language := None; tags := [];
                    custom_fields := [("extracted_text", text)] |};
     chunks := []; processing_started_at := None;
     processing_completed_at := None; error_message := None |}.

Definition splitter_env (split : nat -> string -> Outcome (list string))
  : Chunker.Env :=
  {| Chunker.split_text := split;
     Chunker.preprocess_re := strip;
     Chunker.uuid4 := fun k => "chunk-" +:+ pretty k;
     Chunker.now_iso := fun _ => "2024-01-01T00:00:00" |}.

Definition three_pieces : list string :=
  [replicate_char 150 "a"; "short"; replicate_char 150 "c"].

Definition chunker_of_pieces (pieces : list string)
  : Chunker.SemanticChunker :=
  {| Chunker.config := Chunker.default_config;
     Chunker.env := splitter_env (fun _ _ => Returns pieces) |}.

(** A provider that answers every text with the one-component vector of
    its length, except for the batches listed in [failing]. *)
Definition length_provider (failing : list Z) (batch_num : Z)
    (input : list string) : Outcome (list Embeddings.Vector) :=
  if bool_decide (batch_num ∈ failing)
  then Raises "provider unavailable"
  else Returns ((fun t => [inject_Z (Z.of_nat (len t))]) <$> input).

Definition generator (failing : list Z) : Embeddings.EmbeddingGenerator :=
  {| Embeddings.dimensions := 1;
     Embeddings.batch_size := 2;
     Embeddings.create := length_provider failing |}.

Definition five_texts : list string := ["ab"; "   "; "cde"; "f"; ""].

(** A search hit with the given content and score. *)
Definition hit (text : string) (s : Q) : ChunkResult :=
  {| cr_chunk_id := "chunk"; cr_document_id := "doc-1"; content := text;
     score := s; cr_metadata := []; document_title := None;
     document_source := None; cr_chunk_index := None |}.

(** A graph entity with the given score. *)
Definition entity (name : string) (s : option Q) : GraphResult :=
  {| entity_id := "entity-" +:+ name; entity_name := name;
     entity_type := "Person"; relationships := []; properties := [];
     graph_score := s |}.

(** A rendering of values for the examples; the text of a pseudo-chunk
    plays no part in its score. *)
Definition plain_str (v : PyVal) : string :=
  match v with
  | PyStr s => s
  | PyList [] => "[]"
  | PyDict [] => "{}"
  | _ => "..."
  end.

Definition hundred_spaces : string := replicate_char 100 " ".

(** A pipeline around a chunker and an embedding generator, with an
    extraction that finds [text] and stores that accept everything. *)
Definition pipeline (c : Chunker.SemanticChunker)
    (g : Embeddings.EmbeddingGenerator) (text : PyVal)
  : Pipeline.IngestionPipeline :=
  {| Pipeline.process_pdf := fun _ _ _ => Returns (text_document text);
     Pipeline.chunker := c;
     Pipeline.embedding_generator := g;
     Pipeline.add_documents := fun _ => Returns true;
     Pipeline.add_episode := fun _ _ episode_id _ => Returns episode_id;
     Pipeline.start_time := "2024-01-01T00:00:00";
     Pipeline.start_timestamp := 1704067200;
     Pipeline.end_time := "2024-01-01T00:00:02";
     Pipeline.elapsed_ms := 2000 |}.

Definition no_stats : Pipeline.PipelineStats :=
  {| Pipeline.documents_processed := 0;
     Pipeline.stat_chunks_created := 0;
     Pipeline.embeddings_generated := 0;
     Pipeline.stat_entities_extracted := 0;
     Pipeline.stat_relationships_created := 0;
     Pipeline.total_processing_time := 0 |}.

(** A chunker whose text splitter raises on every call. *)
Definition broken_chunker : Chunker.SemanticChunker :=
  {| Chunker.config := Chunker.default_config;
     Chunker.env := splitter_env (fun _ _ => Raises "splitter failed") |}.

(** A store with one search hit of score 1 at address 0. *)
Definition one_hit_store : gmap nat ChunkResult := {[ 0 := hit "text" 1 ]}.
End Fixtures.


(* ===================================================================== *)
(** * Chunking statistics ([chunker.py]) *)
(* ===================================================================== *)

Module ChunkingStats.
Import PyStr Chunker.

(** The dictionary [get_chunking_stats] returns for a list that is not
    empty. The sizes are integers; [avg_chunk_size] is the quotient of the
    total by the count, of which the code keeps the nearest float
    ([Binary64.average]). *)
Record Stats : Type := {
  total_chunks : nat;
  avg_chunk_size : Q;
  least_chunk_size : nat;
  greatest_chunk_size : nat;
  total_characters : nat;
  chunking_method : string;
  stats_config : Z * Z * Z
}.

(** [min(xs)], [max(xs)] and [sum(xs)] on integers, for a sequence that
    starts with [x]. *)
Definition min_of (x : nat) (xs : list nat) : nat :=
  fold_left (fun best y => if (y <? best)%nat then y else best) xs x.

Definition max_of (x : nat) (xs : list nat) : nat :=
  fold_left (fun best y => if (best <? y)%nat then y else best) xs x.

Definition sum_of (xs : list nat) : nat := fold_left Nat.add xs 0%nat.

(** [get_chunking_stats(chunks)]; [None] is the empty dictionary. *)
Definition get_chunking_stats (self : SemanticChunker)
    (chunks : list DocumentChunk) : option Stats :=
  match chunks with
  | [] => None
  | c :: rest =>
      let chunk_sizes := (fun chunk => len (chunk_content chunk)) <$> chunks in
      Some {|
        total_chunks := length chunks;
        avg_chunk_size :=
          inject_Z (Z.of_nat (sum_of chunk_sizes))
            / inject_Z (Z.of_nat (length chunk_sizes));
        least_chunk_size :=
          min_of (len (chunk_content c))
            ((fun chunk => len (chunk_content chunk)) <$> rest);
        greatest_chunk_size :=
          max_of (len (chunk_content c))
            ((fun chunk => len (chunk_content chunk)) <$> rest);
        total_characters := sum_of chunk_sizes;
        chunking_method := chunk_method self;
        stats_config :=
          (chunk_size (config self), chunk_overlap (config self),
           max_chunk_size (config self))
      |}
  end.

End ChunkingStats.

(* ===================================================================== *)
(** * Character spans of the chunks *)
(* ===================================================================== *)

Module Spans.
Import PyStr.

(** The chunks of [cs] lie one after the other from offset [off] on: every
    chunk starts where the one before it ends, and its content is not
    longer than its span. *)
Fixpoint span_chain (off : nat) (cs : list DocumentChunk) : Prop :=
  match cs with
  | [] => True
  | c :: rest =>
      start_char c = Some off
      /\ exists e,
           end_char c = Some e
           /\ (off <= e)%nat
           /\ (len (chunk_content c) <= e - off)%nat
           /\ span_chain e rest
  end.

(** What a chunk says about the text: content, index and offsets. *)
Definition chunk_core (c : DocumentChunk)
  : string * nat * option nat * option nat :=
  (chunk_content c, chunk_index c, start_char c, end_char c).

(** The length of the span of a chunk, 0 when an offset is missing. *)
Definition span_length (c : DocumentChunk) : nat :=
  match start_char c, end_char c with
  | Some s, Some e => e - s
  | _, _ => 0
  end.

End Spans.

(* ===================================================================== *)
(** * Single embeddings and the validation of the service
      ([embeddings.py]) *)
(* ===================================================================== *)

Module SingleEmbedding.
Import PyStr Embeddings.

(** [not s.strip()]: the string has white space only. *)
Definition blank (s : string) : bool :=
  forallb isspace (String.list_ascii_of_string s).

(** [generate_embedding(text)]. [call input] is the request
    [client.embeddings.create(model, input, encoding_format)] for one
    string, reduced to the embeddings of [response.data]. *)
Definition generate_embedding (self : EmbeddingGenerator)
    (call : string -> Outcome (list Vector)) (text : string)
  : Outcome Vector :=
  try_except
    (let cleaned_text := _clean_text text in
     if negb (truthy (strip cleaned_text))
     then Returns (zero_embedding self)
     else
       data ← call cleaned_text;
       match data with
       | [] => Raises "list index out of range"
       | embedding :: _ => Returns embedding
       end)
    (fun error => Raises ("Failed to generate embedding: " +:+ error)).

(** [test_connection()] *)
Definition test_connection (self : EmbeddingGenerator)
    (call : string -> Outcome (list Vector)) : bool :=
  match generate_embedding self call "test" with
  | Returns test_embedding =>
      (Z.of_nat (length test_embedding) =? dimensions self)%Z
  | Raises _ => false
  end.

(** The fields of [config.embedding] that the validation reads. *)
Record EmbeddingConfig : Type := {
  provider : string;
  api_key : string;
  model : string;
  config_dimensions : Z;
  config_batch_size : Z
}.

(** The module-level [embedding_generator], built from the configuration. *)
Definition generator_of (cfg : EmbeddingConfig)
    (create : Z -> list string -> Outcome (list Vector))
  : EmbeddingGenerator :=
  {| dimensions := config_dimensions cfg;
     batch_size := config_batch_size cfg;
     Embeddings.create := create |}.

Record ValidationResult : Type := {
  config_valid : bool;
  service_available : bool;
  dimensions_correct : bool;
  error : option string
}.

(** [validate_embedding_config()]. [call1] is the request made by
    [test_embedding_service], [call2] the one made afterwards by
    [generate_embedding("test")]. *)
Definition validate_embedding_config (cfg : EmbeddingConfig)
    (create : Z -> list string -> Outcome (list Vector))
    (call1 call2 : string -> Outcome (list Vector)) : ValidationResult :=
  let self := generator_of cfg create in
  if negb (truthy (api_key cfg)) && negb (String.eqb (provider cfg) "ollama")
  then {| config_valid := false; service_available := false;
          dimensions_correct := false;
          error := Some "API key is required for most providers" |}
  else if negb (truthy (model cfg))
  then {| config_valid := false; service_available := false;
          dimensions_correct := false;
          error := Some "Model name is required" |}
  else
    let available := test_connection self call1 in
    if available
    then
      match generate_embedding self call2 "test" with
      | Returns test_embedding =>
          let expected_dims := config_dimensions cfg in
          let actual_dims := Z.of_nat (length test_embedding) in
          let correct := (actual_dims =? expected_dims)%Z in
          {| config_valid := true; service_available := true;
             dimensions_correct := correct;
             error :=
               if correct then None
               else Some ("Dimension mismatch: expected "
                            +:+ pretty expected_dims +:+ ", got "
                            +:+ pretty actual_dims) |}
      | Raises message =>
          {| config_valid := true; service_available := true;
             dimensions_correct := false; error := Some message |}
      end
    else {| config_valid := true; service_available := false;
            dimensions_correct := false;
            error := Some "Embedding service is not available" |}.

End SingleEmbedding.

(* ===================================================================== *)
(** * The calls of the batch loop *)
(* ===================================================================== *)

Module BatchCalls.
Import PyStr Embeddings.

(** Batch number [k + 1] ends with a call of the progress callback: it has
    a text that is not empty after cleaning, the provider call returns,
    and the response has a vector for every input. *)
Definition batch_reports (self : EmbeddingGenerator) (texts : list string)
    (k : nat) : bool :=
  let s := Z.to_nat (batch_size self) in
  let input :=
    List.filter non_empty (_clean_text <$> take s (drop (k * s) texts)) in
  match input with
  | [] => false
  | _ :: _ =>
      match create self (Z.of_nat k + 1) input with
      | Returns vs => (length input <=? length vs)%nat
      | Raises _ => false
      end
  end.

(** [total_batches] for a batch size of at least one. *)
Definition batch_count (self : EmbeddingGenerator) (texts : list string)
  : nat :=
  let s := Z.to_nat (batch_size self) in
  ((length texts + s - 1) / s)%nat.

End BatchCalls.

(* ===================================================================== *)
(** * Statistics and batches of the pipeline ([pipeline.py]) *)
(* ===================================================================== *)

Module PipelineStatistics.
Import PyStr Pipeline.

(** The three derived entries of [get_pipeline_stats]; the others are the
    counters themselves. *)
Record DerivedStats : Type := {
  avg_processing_time : Q;
  avg_chunks_per_document : Q;
  embedding_success_rate : Q
}.

Definition of_nat_Q (n : nat) : Q := inject_Z (Z.of_nat n).

Definition get_pipeline_stats (s : PipelineStats) : DerivedStats := {|
  avg_processing_time :=
    total_processing_time s / of_nat_Q (Nat.max 1 (documents_processed s));
  avg_chunks_per_document :=
    of_nat_Q (stat_chunks_created s)
      / of_nat_Q (Nat.max 1 (documents_processed s));
  embedding_success_rate :=
    if (0 <? stat_chunks_created s)%nat
    then of_nat_Q (embeddings_generated s)
           / of_nat_Q (Nat.max 1 (stat_chunks_created s))
    else 0
|}.

(** What the statistics update of [process_document] adds to [self.stats]
    for the result of a run: one document, the chunks, entities and
    relationships of the result and its processing time, and as
    embeddings the number of its chunks that have one. *)
Definition counted (s s' : PipelineStats) (result : ProcessingResult)
  : Prop :=
  documents_processed s' = documents_processed s + 1
  /\ stat_chunks_created s' = stat_chunks_created s + chunks_created result
  /\ embeddings_generated s <= embeddings_generated s'
  /\ embeddings_generated s'
     <= embeddings_generated s + chunks_created result
  /\ stat_entities_extracted s'
     = stat_entities_extracted s + entities_extracted result
  /\ stat_relationships_created s'
     = stat_relationships_created s + relationships_created result
  /\ total_processing_time s'
     = (total_processing_time s + processing_time_ms result)%Q.

(** [reset_stats()] *)
Definition reset_stats : PipelineStats := {|
  documents_processed := 0;
  stat_chunks_created := 0;
  embeddings_generated := 0;
  stat_entities_extracted := 0;
  stat_relationships_created := 0;
  total_processing_time := 0
|}.

(** The progress values a run with a callback reports when nothing fails,
    but for the last one: the checkpoints and, between 45 and 60, the
    values of the embedding batches of [texts]. *)
Definition checkpoints (self : IngestionPipeline) (texts : list string)
  : list Q :=
  [0; 10; 20; 25; 40; 45]%Q
    ++ (call_value <$>
          (Embeddings.generate_embeddings_batch (embedding_generator self)
             texts (returning true)).2)
    ++ [60; 65; 70; 75; 90; 95]%Q.

End PipelineStatistics.

(* ===================================================================== *)
(** * More concrete inputs *)
(* ===================================================================== *)

Module Samples.
Import PyStr.

(** A chunker that keeps pieces of at least 3 characters and cuts them
    after 5. *)
Definition small_config : Chunker.ChunkingConfig := {|
  Chunker.chunk_size := 5;
  Chunker.chunk_overlap := 0;
  Chunker.max_chunk_size := 5;
  Chunker.use_semantic_chunking := true;
  Chunker.preserve_structure := true;
  Chunker.min_chunk_size := 3
|}.

(** The same sizes with semantic chunking switched off. *)
Definition small_basic_config : Chunker.ChunkingConfig := {|
  Chunker.chunk_size := 5;
  Chunker.chunk_overlap := 0;
  Chunker.max_chunk_size := 5;
  Chunker.use_semantic_chunking := false;
  Chunker.preserve_structure := true;
  Chunker.min_chunk_size := 3
|}.

Definition small_chunker (pieces : list string) : Chunker.SemanticChunker :=
  {| Chunker.config := small_config;
     Chunker.env := Fixtures.splitter_env (fun _ _ => Returns pieces) |}.

Definition a_document : Document :=
  Fixtures.text_document (PyStr "some extracted text").

(** Twenty-two pieces, more than the twenty that [_semantic_chunk] returns
    without entering its batch loop. *)
Definition many_pieces : list string :=
  (fun k => "piece " +:+ pretty k) <$> seq 0 22.

(** A provider that returns one vector less than it is asked for. *)
Definition short_provider (batch_num : Z) (input : list string)
  : Outcome (list (list Q)) :=
  Returns ((fun t => [inject_Z (Z.of_nat (len t))])
             <$> take (length input - 1) input).

Definition short_generator : Embeddings.EmbeddingGenerator :=
  {| Embeddings.dimensions := 1;
     Embeddings.batch_size := 4;
     Embeddings.create := short_provider |}.

End Samples.

(* ===================================================================== *)
(** * The search tools ([tools.py]) *)
(* ===================================================================== *)

Module SearchTools.
Import PyStr Tools.

(** The services the tools call: the embedding of a query, the search of
    the vector store and the search of the knowledge graph. Each call
    returns or raises. *)
Record Services : Type := {
  generate_embedding : string -> Outcome (list Q);
  vector_store_search :
    list Q -> Z -> option PyDictT -> Outcome (list ChunkResult);
  knowledge_graph_search : string -> Outcome (list GraphResult);
  embedding_dim : Z;
  str_of : PyVal -> string
}.

(** [l[:n]] on a list; a negative [n] counts from the end. *)
Definition list_slice_to {A} (l : list A) (n : Z) : list A :=
  take (if (n <? 0)%Z then length l - Z.to_nat (- n) else Z.to_nat n) l.

Definition vector_search_tool (env : Services) (query : string) (limit : Z)
    (filters : option PyDictT) : Outcome (list ChunkResult) :=
  try_except
    (query_embedding ← generate_embedding env query;
     vector_store_search env query_embedding limit filters)
    (fun _ => Returns []).

Definition graph_search_tool (env : Services) (query : string)
  : Outcome (list GraphResult) :=
  try_except (knowledge_graph_search env query) (fun _ => Returns []).

Definition hybrid_search_tool (env : Services) (query : string) (limit : Z)
    (vector_weight graph_weight : Q) : Outcome (list ChunkResult) :=
  try_except
    (vector_results ← vector_search_tool env query limit None;
     graph_results ← graph_search_tool env query;
     let combined_results :=
       _combine_search_results (str_of env) vector_results graph_results
         vector_weight graph_weight in
     let final_results := list_slice_to combined_results limit in
     Returns final_results)
    (fun _ => Returns []).

(** [sorted(l, key=key)]: ascending and stable. An element goes in front
    of the first one whose key is not less than its own. *)
Fixpoint insert_asc {A} (key : A -> Z) (x : A) (l : list A) : list A :=
  match l with
  | [] => [x]
  | y :: l' =>
      if (key y <? key x)%Z
      then y :: insert_asc key x l'
      else x :: y :: l'
  end.

Definition sorted {A} (key : A -> Z) (l : list A) : list A :=
  foldr (insert_asc key) [] l.

(** [x.chunk_index or 0] *)
Definition index_or_zero (x : ChunkResult) : Z :=
  match cr_chunk_index x with
  | Some z => if (z =? 0)%Z then 0%Z else z
  | None => 0%Z
  end.

(** The dictionary [document_retrieval_tool] returns; the key "error" is
    present only in the dictionary of the handler. *)
Record RetrievedDocument : Type := {
  rd_document_id : string;
  rd_content : string;
  rd_chunks : list ChunkResult;
  rd_metadata : PyDictT;
  rd_chunk_count : nat;
  rd_error : option string
}.

Definition document_retrieval_tool (env : Services) (document_id : string)
    (include_chunks : bool) : RetrievedDocument :=
  let body :=
    chunks ←
      (if include_chunks
       then
         all_chunks ←
           vector_store_search env
             (replicate (Z.to_nat (embedding_dim env)) 0%Q) 1000
             (Some [("document_id", PyStr document_id)]);
         Returns (sorted index_or_zero all_chunks)
       else Returns []);
    let full_content := join (newline +:+ newline) (content <$> chunks) in
    let metadata :=
      match chunks with
      | [] => []
      | first :: _ => cr_metadata first
      end in
    Returns {| rd_document_id := document_id;
               rd_content := full_content;
               rd_chunks := chunks;
               rd_metadata := metadata;
               rd_chunk_count := length chunks;
               rd_error := None |} in
  match body with
  | Returns result => result
  | Raises error =>
      {| rd_document_id := document_id;
         rd_content := "";
         rd_chunks := [];
         rd_metadata := [];
         rd_chunk_count := 0;
         rd_error := Some error |}
  end.

End SearchTools.

Module SearchSamples.
Import PyStr Tools SearchTools.

(** Services whose vector store holds the three given hits and whose
    graph holds one entity. *)
Definition services (embed : Outcome (list Q))
    (hits : Outcome (list ChunkResult)) (found : Outcome (list GraphResult))
  : Services :=
  {| generate_embedding := fun _ => embed;
     vector_store_search := fun _ _ _ => hits;
     knowledge_graph_search := fun _ => found;
     embedding_dim := 3;
     str_of := Fixtures.plain_str |}.

Definition indexed (text : string) (i : option Z) : ChunkResult :=
  {| cr_chunk_id := "chunk"; cr_document_id := "doc-1"; content := text;
     score := 1; cr_metadata := [("page", PyStr text)];
     document_title := None; document_source := None;
     cr_chunk_index := i |}.

End SearchSamples.

(* ===================================================================== *)
(** * Batches of documents ([pipeline.py]) *)
(* ===================================================================== *)

Module BatchProcessing.
Import PyStr Pipeline.

(** One entry of [file_info_list]: the values under the four keys the
    loop reads, [None] for a key that is absent. *)
Record FileInfo : Type := {
  fi_file_path : option string;
  fi_filename : option string;
  fi_original_name : option string;
  fi_metadata : option PyDictT
}.

(** [file_info[key]]: an absent key raises [KeyError], whose text is the
    key between quotes. *)
Definition item (key : string) (value : option string) : Outcome string :=
  match value with
  | Some v => Returns v
  | None => Raises ("'" +:+ key +:+ "'")
  end.

(** One call [progress_callback(message, overall_progress, i + 1,
    total_docs)]. *)
Abbreviation OverallCall := (string * Q * nat * nat)%type.

Record BatchState : Type := {
  batch_stats : PipelineStats;
  results : list ProcessingResult;
  overall : list OverallCall
}.

Definition overall_progress (i total_docs : nat) (progress : Q) : Q :=
  ((inject_Z (Z.of_nat i) + progress / 100)
   / inject_Z (Z.of_nat total_docs)) * 100.

(** [doc_progress], the callback handed to [process_document]: what it
    passes on for one call. *)
Definition doc_progress (progress_callback : bool) (i total_docs : nat)
    (call : string * Q) : list OverallCall :=
  if progress_callback
  then [("Document " +:+ pretty (i + 1) +:+ "/" +:+ pretty total_docs
           +:+ ": " +:+ call.1,
         overall_progress i total_docs call.2, i + 1, total_docs)]
  else [].

Definition error_result (i : nat) (error : string) : ProcessingResult :=
  {| job_id := "batch_job_" +:+ pretty i;
     pr_document_id := "unknown";
     chunks_created := 0;
     entities_extracted := 0;
     relationships_created := 0;
     processing_time_ms := 0;
     success := false;
     pr_error_message := Some error |}.

(** One turn of the loop. [self] is the pipeline with its collaborators
    as they behave while this document is processed. *)
Definition process_file (self : IngestionPipeline) (progress_callback : bool)
    (total_docs i : nat) (file_info : FileInfo) (st : BatchState)
  : BatchState :=
  let arguments :=
    file_path_ ← item "file_path" (fi_file_path file_info);
    filename_ ← item "filename" (fi_filename file_info);
    original_name_ ← item "original_name" (fi_original_name file_info);
    Returns (file_path_, filename_, original_name_) in
  match arguments with
  | Raises error =>
      {| batch_stats := batch_stats st;
         results := results st ++ [error_result i error];
         overall := overall st |}
  | Returns (file_path_, filename_, original_name_) =>
      let '(run, outcome) :=
        process_document self (batch_stats st) file_path_ filename_
          original_name_ (fi_metadata file_info) (returning true) in
      {| batch_stats := stats run;
         results :=
           results st
             ++ [match outcome with
                 | Returns result => result
                 | Raises error => error_result i error
                 end];
         overall :=
           overall st
             ++ (progress run ≫= doc_progress progress_callback i total_docs)
      |}
  end.

Fixpoint process_loop (self_of : nat -> IngestionPipeline)
    (progress_callback : bool) (total_docs i : nat)
    (file_info_list : list FileInfo) (st : BatchState) : BatchState :=
  match file_info_list with
  | [] => st
  | file_info :: rest =>
      process_loop self_of progress_callback total_docs (S i) rest
        (process_file (self_of i) progress_callback total_docs i file_info st)
  end.

(** [process_multiple_documents]: the list it returns is [results] of the
    final state. *)
Definition process_multiple_documents (self_of : nat -> IngestionPipeline)
    (s : PipelineStats) (file_info_list : list FileInfo)
    (progress_callback : bool) : BatchState :=
  process_loop self_of progress_callback (length file_info_list) 0
    file_info_list {| batch_stats := s; results := []; overall := [] |}.

(** The first key of an entry that is absent, in the order in which the
    loop reads the keys. *)
Definition missing (file_info : FileInfo) : option string :=
  match fi_file_path file_info, fi_filename file_info,
        fi_original_name file_info with
  | None, _, _ => Some "file_path"
  | Some _, None, _ => Some "filename"
  | Some _, Some _, None => Some "original_name"
  | Some _, Some _, Some _ => None
  end.

(** The values of the overall progress, in the order of the calls. *)
Definition overall_values (st : BatchState) : list Q :=
  (fun call : OverallCall => call.1.1.2) <$> overall st.

End BatchProcessing.

Module BatchSamples.
Import PyStr BatchProcessing.

Definition file_info (path : string) : FileInfo :=
  {| fi_file_path := Some path; fi_filename := Some "a.pdf";
     fi_original_name := Some "a.pdf"; fi_metadata := None |}.

Definition nameless (path : string) : FileInfo :=
  {| fi_file_path := Some path; fi_filename := None;
     fi_original_name := Some "a.pdf"; fi_metadata := None |}.

Definition a_pipeline (i : nat) : Pipeline.IngestionPipeline :=
  Fixtures.pipeline (Fixtures.chunker_of_pieces Fixtures.three_pieces)
    (Fixtures.generator []) (PyStr "some extracted text").

End BatchSamples.

(* ===================================================================== *)
(** * Text extraction ([pdf_processor.py]) *)
(* ===================================================================== *)

Module PdfProcessor.
Import PyStr.

(** The processor with what it reads from outside: whether a path exists,
    the metadata [_extract_metadata] finds, the pages of the file, each
    with what [page.extract_text()] returns or raises, the images of the
    pages, each with what [pytesseract.image_to_string] returns or raises,
    and the identifier a new [Document] gets. Opening the file or
    converting it to images may raise as well. *)
Record PDFProcessor : Type := {
  enable_ocr : bool;
  path_exists : string -> bool;
  _extract_metadata : string -> string -> Outcome DocumentMetadata;
  pages : string -> Outcome (list (Outcome string));
  images : string -> Outcome (list (Outcome string));
  new_document_id : string
}.

(** The loop over the pages: a page whose text is blank or whose
    extraction raises adds nothing. *)
Fixpoint page_loop (marker : nat -> string) (page_num : nat)
    (pages : list (Outcome string)) (text_content : list string)
  : list string :=
  match pages with
  | [] => text_content
  | page :: rest =>
      match page with
      | Returns page_text =>
          if truthy (strip page_text)
          then page_loop marker (S page_num) rest
                 (text_content ++ [marker page_num +:+ page_text])
          else page_loop marker (S page_num) rest text_content
      | Raises _ => page_loop marker (S page_num) rest text_content
      end
  end.

(** A page without text: the extraction raises or returns white space
    only. *)
Definition no_text (page : Outcome string) : Prop :=
  match page with
  | Returns page_text => truthy (strip page_text) = false
  | Raises _ => True
  end.

Definition _extract_text_pypdf2 (self : PDFProcessor) (file_path_ : string)
  : string :=
  match pages self file_path_ with
  | Returns pdf_pages =>
      let text_content :=
        page_loop
          (fun page_num =>
             "--- Page " +:+ pretty (page_num + 1) +:+ " ---"
               +:+ Tools.newline)
          0 pdf_pages [] in
      join (Tools.newline +:+ Tools.newline) text_content
  | Raises _ => ""
  end.

Definition _extract_text_ocr (self : PDFProcessor) (file_path_ : string)
  : string :=
  if negb (enable_ocr self) then ""
  else
    match images self file_path_ with
    | Returns page_images =>
        let text_content :=
          page_loop
            (fun page_num =>
               "--- Page " +:+ pretty (page_num + 1) +:+ " (OCR) ---"
                 +:+ Tools.newline)
            0 page_images [] in
        join (Tools.newline +:+ Tools.newline) text_content
    | Raises _ => ""
    end.

Definition _extract_text (self : PDFProcessor) (file_path_ : string)
  : Outcome string :=
  try_except
    (let text_content := _extract_text_pypdf2 self file_path_ in
     if (len (strip text_content) <? 100)%nat && enable_ocr self
     then
       let ocr_content := _extract_text_ocr self file_path_ in
       if (len (strip text_content) * 2 <? len (strip ocr_content))%nat
       then Returns ocr_content
       else Returns text_content
     else Returns text_content)
    (fun error => Raises ("Failed to extract text: " +:+ error)).

Definition process_pdf (self : PDFProcessor)
    (file_path_ filename_ original_name_ : string) : Outcome Document :=
  try_except
    (if negb (path_exists self file_path_)
     then Raises ("File not found: " +:+ file_path_)
     else
       document_metadata ← _extract_metadata self file_path_ original_name_;
       text_content ← _extract_text self file_path_;
       let fields :=
         dict_set
           (dict_set (custom_fields document_metadata) "extracted_text"
              (PyStr text_content))
           "text_length" (PyInt (Z.of_nat (len text_content))) in
       Returns {|
         document_id := new_document_id self;
         filename := filename_;
         original_name := original_name_;
         file_path := file_path_;
         status := PROCESSING;
         metadata := {|
           title := title document_metadata;
           author := author document_metadata;
           created_date := created_date document_metadata;
           file_size := file_size document_metadata;
           file_type := file_type document_metadata;
           page_count := page_count document_metadata;
           language := language document_metadata;
           tags := tags document_metadata;
           custom_fields := fields |};
         chunks := [];
         processing_started_at := None;
         processing_completed_at := None;
         error_message := None |})
    (fun error => Raises ("Failed to process PDF: " +:+ error)).

(** The ingestion pipeline around a processor. *)
Definition pipeline_of (self : PDFProcessor)
    (base : Pipeline.IngestionPipeline) : Pipeline.IngestionPipeline :=
  {| Pipeline.process_pdf := process_pdf self;
     Pipeline.chunker := Pipeline.chunker base;
     Pipeline.embedding_generator := Pipeline.embedding_generator base;
     Pipeline.add_documents := Pipeline.add_documents base;
     Pipeline.add_episode := Pipeline.add_episode base;
     Pipeline.start_time := Pipeline.start_time base;
     Pipeline.start_timestamp := Pipeline.start_timestamp base;
     Pipeline.end_time := Pipeline.end_time base;
     Pipeline.elapsed_ms := Pipeline.elapsed_ms base |}.

End PdfProcessor.

Module PdfSamples.
Import PyStr PdfProcessor.

Definition basic_metadata (name : string) : DocumentMetadata :=
  {| title := name; author := None; created_date := None; file_size := 10;
     file_type := "application/pdf"; page_count := Some 2%Z;
     language := None; tags := []; custom_fields := [] |}.

(** A processor without OCR that finds the given pages in every file
    that exists. *)
Definition processor (present : bool) (found : list (Outcome string))
  : PDFProcessor :=
  {| enable_ocr := false;
     path_exists := fun _ => present;
     _extract_metadata := fun _ name => Returns (basic_metadata name);
     pages := fun _ => Returns found;
     images := fun _ => Raises "no converter";
     new_document_id := "doc-7" |}.

End PdfSamples.
(* ===================================================================== *)
(** * Properties of the chunk segmenter *)
(* ===================================================================== *)

Module ChunkerFacts.
Import PyStr Chunker.

Lemma post_process_loop_spec self document chunks :
  forall i processed off,
  exists new,
    post_process_loop self document i chunks processed off
      = processed ++ new
    /\ Forall (fun c => i <= chunk_index c) new
    /\ StronglySorted lt (chunk_index <$> new)
    /\ length new = length (List.filter (kept self) chunks).
Proof.
  induction chunks as [|chunk_text rest IH]; intros i processed off.
  - exists []. cbn. rewrite app_nil_r. repeat split; constructor.
  - cbn [post_process_loop List.filter]. unfold kept at 1.
    destruct (Z.of_nat (len (strip chunk_text)) <? min_chunk_size (config self))%Z.
    + destruct (IH (S i) processed off) as (new & -> & Hge & Hs & Hl).
      exists new. repeat split; auto.
      eapply Forall_impl; [exact Hge|]. cbn. lia.
    + cbn [negb].
      match goal with |- context [post_process_loop _ _ _ _ (processed ++ [?c]) ?o] =>
        destruct (IH (S i) (processed ++ [c]) o) as (new & -> & Hge & Hs & Hl);
        exists (c :: new) end.
      repeat split.
      * by rewrite <- app_assoc.
      * constructor; [cbn; lia|]. eapply Forall_impl; [exact Hge|]. cbn. lia.
      * cbn. constructor; [exact Hs|].
        apply Forall_fmap. eapply Forall_impl; [exact Hge|]. cbn. lia.
      * cbn. by rewrite Hl.
Qed.

(** The indices always increase strictly. *)
Lemma chunk_index_increasing self chunks document :
  StronglySorted lt (chunk_index <$> _post_process_chunks self chunks document).
Proof.
  unfold _post_process_chunks.
  destruct (post_process_loop_spec self document chunks 0 [] 0)
    as (new & -> & _ & Hs & _). exact Hs.
Qed.

Lemma post_process_loop_all_kept self document chunks :
  forall i processed off,
    Forall (fun t => kept self t = true) chunks ->
    chunk_index <$> post_process_loop self document i chunks processed off
      = (chunk_index <$> processed) ++ seq i (length chunks).
Proof.
  induction chunks as [|chunk_text rest IH]; intros i processed off Hall.
  - cbn. by rewrite app_nil_r.
  - inversion Hall as [|? ? Hk Hrest]; subst.
    cbn [post_process_loop]. unfold kept in Hk.
    destruct (Z.of_nat (len (strip chunk_text)) <? min_chunk_size (config self))%Z;
      [discriminate|].
    rewrite IH by exact Hrest.
    rewrite fmap_app. cbn. by rewrite <- app_assoc.
Qed.

(** When no candidate is discarded the indices are [0..n-1]. *)
Lemma chunk_index_contiguous_without_discard self chunks document :
  Forall (fun t => kept self t = true) chunks ->
  chunk_index <$> _post_process_chunks self chunks document
    = seq 0 (length chunks).
Proof.
  intros H. unfold _post_process_chunks.
  by rewrite post_process_loop_all_kept.
Qed.

(** C1. A document whose text is split into a long piece, a piece shorter
    than [min_chunk_size] and another long piece: the short piece is
    discarded and the two chunks that remain carry the indices 0 and 2,
    not 0 and 1. *)
Theorem chunk_index_gap_after_discard :
  exists c0 c1,
    chunk_document (Fixtures.chunker_of_pieces Fixtures.three_pieces)
      (Fixtures.text_document (PyStr "some extracted text"))
      = Returns [c0; c1]
    /\ chunk_index c0 = 0 /\ chunk_index c1 = 2
    /\ chunk_index <$> [c0; c1] <> seq 0 2.
Proof.
  eexists _, _. split; [vm_compute; reflexivity|].
  repeat split. discriminate.
Qed.
End ChunkerFacts.

(* ===================================================================== *)
(** * Properties of the embedding batcher *)
(* ===================================================================== *)

Module EmbeddingFacts.
Import PyStr Embeddings.

Lemma fill_embeddings_ok self vs :
  forall cleaned idx embs,
    idx + length (List.filter non_empty cleaned) <= length vs ->
    exists out,
      fill_embeddings self vs cleaned idx embs = (embs ++ out, Returns ())
      /\ length out = length cleaned
      /\ forall j c, cleaned !! j = Some c ->
           out !! j =
             if non_empty c
             then vs !! (idx + length (List.filter non_empty (take j cleaned)))
             else Some (zero_embedding self).
Proof.
  induction cleaned as [|c rest IH]; intros idx embs Hlen.
  - exists []. cbn. rewrite app_nil_r. repeat split. intros j c H. done.
  - cbn [fill_embeddings]. cbn [List.filter] in Hlen.
    destruct (non_empty c) eqn:Hc.
    + cbn [length] in Hlen.
      destruct (vs !! idx) as [e|] eqn:He.
      2:{ apply lookup_ge_None in He. lia. }
      destruct (IH (S idx) (embs ++ [e])) as (out & -> & Hl & Hj); [lia|].
      exists (e :: out). rewrite <- app_assoc. repeat split.
      * cbn. by rewrite Hl.
      * intros [|j] c' Hlk.
        -- cbn in Hlk. injection Hlk as <-. rewrite Hc. cbn.
           by rewrite Nat.add_0_r.
        -- cbn in Hlk. change ((e :: out) !! S j) with (out !! j).
           rewrite (Hj j c' Hlk).
           cbn [take List.filter]. rewrite Hc. cbn [length].
           by rewrite Nat.add_succ_r.
    + destruct (IH idx (embs ++ [zero_embedding self])) as (out & -> & Hl & Hj);
        [lia|].
      exists (zero_embedding self :: out). rewrite <- app_assoc. repeat split.
      * cbn. by rewrite Hl.
      * intros [|j] c' Hlk.
        -- cbn in Hlk. injection Hlk as <-. by rewrite Hc.
        -- cbn in Hlk.
           change ((zero_embedding self :: out) !! S j) with (out !! j).
           rewrite (Hj j c' Hlk).
           cbn [take List.filter]. by rewrite Hc.
Qed.

Lemma filter_non_empty_nil l :
  List.filter non_empty l = [] -> Forall (fun c => non_empty c = false) l.
Proof.
  induction l as [|c l IH]; cbn; [constructor|].
  destruct (non_empty c) eqn:Hc; [discriminate|]. auto.
Qed.

(** One iteration appends one vector for each text of its batch. *)
Lemma batch_step_spec self texts cb total embs calls i :
  let batch := take (Z.to_nat (batch_size self)) (drop i texts) in
  let bn := (Z.of_nat i / batch_size self + 1)%Z in
  let input := List.filter non_empty (_clean_text <$> batch) in
  (forall vs, create self bn input = Returns vs -> length input <= length vs) ->
  exists out,
    (batch_step self texts (returning cb) total (embs, calls) i).1 = embs ++ out
    /\ length out = length batch
    /\ forall j t, batch !! j = Some t ->
         out !! j = Some
           match create self bn input with
           | Raises _ => zero_embedding self
           | Returns vs =>
               if non_empty (_clean_text t)
               then default [] (vs !! length (List.filter non_empty
                                       (_clean_text <$> take j batch)))
               else zero_embedding self
           end.
Proof.
  intros batch bn input Hresp. unfold batch_step.
  fold batch. fold bn. fold input.
  assert (Hzeros : exists out,
    embs ++ replicate (length batch) (zero_embedding self) = embs ++ out
    /\ length out = length batch
    /\ forall j t, batch !! j = Some t ->
         out !! j = Some (zero_embedding self)).
  { eexists. split; [reflexivity|]. split; [by rewrite length_replicate|].
    intros j t Hj. apply lookup_replicate_2. by eapply lookup_lt_Some. }
  destruct input as [|x input'] eqn:Hin.
  - destruct Hzeros as (out & -> & Hl & Hz). exists out. repeat split; auto.
    intros j t Hj. etrans; [exact (Hz j t Hj)|]. f_equal.
    apply filter_non_empty_nil in Hin.
    rewrite Forall_forall in Hin.
    assert (non_empty (_clean_text t) = false) as ->.
    { apply Hin. apply list_elem_of_fmap.
      exists t. split; [done|]. by eapply list_elem_of_lookup_2. }
    by destruct (create self bn []).
  - destruct (create self bn (x :: input')) as [vs|e] eqn:Hcr.
    + specialize (Hresp vs eq_refl).
      destruct (fill_embeddings_ok self vs (_clean_text <$> batch) 0 embs)
        as (out & -> & Hl & Hj).
      { subst input. rewrite Hin. cbn in *. lia. }
      exists out. cbn. split; [by destruct cb|].
      split; [by rewrite Hl, length_fmap|].
      intros j t Hlk.
      etrans; [apply (Hj j (_clean_text t)); by rewrite list_lookup_fmap, Hlk|].
      rewrite <- fmap_take. cbn.
      destruct (non_empty (_clean_text t)) eqn:Ht; [|done].
      destruct (vs !! _) eqn:Hv; [done|].
      exfalso. apply lookup_ge_None in Hv.
      (* the rank of a non-empty text is below the number of inputs *)
      assert (length (List.filter non_empty (_clean_text <$> take j batch))
              < length (List.filter non_empty (_clean_text <$> batch))).
      { rewrite <- (take_drop j batch) at 2.
        rewrite fmap_app, List.filter_app, length_app.
        rewrite (drop_S _ _ _ Hlk). cbn. rewrite Ht. cbn. lia. }
      subst input. rewrite Hin in *. lia.
    + destruct Hzeros as (out & -> & Hl & Hz). exists out. cbn.
      repeat split; auto.
Qed.

Section Batches.
Variable self : EmbeddingGenerator.
Variable texts : list string.
Variable cb : bool.

Let s := Z.to_nat (batch_size self).
Let n := length texts.

Hypothesis Hsize : (1 <= batch_size self)%Z.

(** A response that comes back has a vector for every input. *)
Hypothesis Hresp : forall p vs,
  p < length texts ->
  create self (batch_number self p) (provider_input self texts p)
    = Returns vs ->
  length (provider_input self texts p) <= length vs.

Lemma position_in_batch m p :
  m * s <= p < m * s + s -> p / s = m /\ p mod s = p - m * s.
Proof.
  intros Hp. assert (Hs : s <> 0) by (subst s; lia).
  assert (p / s = m) as Hd.
  { symmetry. apply (Nat.div_unique p s m (p - m * s)); lia. }
  split; [done|].
  pose proof (Nat.div_mod_eq p s) as E. rewrite Hd in E. lia.
Qed.

Lemma batches_prefix total m :
  m <= (n + s - 1) / s ->
  let st := fold_left (batch_step self texts (returning cb) total)
              ((fun k => k * s) <$> seq 0 m) ([], []) in
  length st.1 = (m * s) `min` n
  /\ forall p text, p < m * s -> texts !! p = Some text ->
       st.1 !! p = Some (expected_embedding self texts p text).
Proof.
  assert (Hs : s <> 0) by (subst s; lia).
  induction m as [|m IH]; intros Hm st.
  - subst st. cbn. split; [done|]. intros; lia.
  - assert (Hlt : m * s < n).
    { pose proof (Nat.Div0.mul_div_le (n + s - 1) s). nia. }
    destruct IH as [IHl IHp]; [lia|].
    subst st. rewrite seq_S, fmap_app, fold_left_app. cbn [fmap list_fmap fold_left plus].
    destruct (fold_left _ _ _) as [embs calls]. cbn [fst] in IHl, IHp.
    destruct (position_in_batch m (m * s)) as [Hd0 _]; [lia|].
    assert (Hbn : (Z.of_nat (m * s) / batch_size self)%Z = Z.of_nat m).
    { replace (batch_size self) with (Z.of_nat s) by (subst s; lia).
      rewrite Nat2Z.inj_mul, Z.div_mul; lia. }
    destruct (batch_step_spec self texts cb total embs calls (m * s))
      as (out & Ho & Hl & Hj).
    { intros vs Hvs. pose proof (Hresp (m * s) vs Hlt) as Hr.
      unfold batch_number, provider_input, batch_of in Hr.
      fold s in Hr. rewrite Hd0 in Hr. rewrite Hbn in Hvs.
      apply Hr. exact Hvs. }
    rewrite Ho. rewrite length_take, length_drop in Hl. fold s n in Hl.
    split.
    + rewrite length_app, Hl, IHl. lia.
    + intros p text Hp Htext.
      destruct (decide (p < m * s)) as [Hlow|Hhigh].
      * rewrite lookup_app_l by lia. by apply IHp.
      * assert (Hpn : p < n) by (by eapply lookup_lt_Some).
        destruct (position_in_batch m p) as [Hd Hmod]; [lia|].
        rewrite lookup_app_r by lia.
        replace (length embs) with (m * s) by lia.
        etrans; [apply (Hj (p - m * s) text)|].
        { rewrite lookup_take_lt by lia. rewrite lookup_drop.
          rewrite <- Htext. f_equal. lia. }
        unfold expected_embedding, batch_number, provider_input, input_rank,
          batch_of.
        fold s. rewrite Hd, Hmod, Hbn.
        reflexivity.
Qed.

(** With a batch size of at least one, the call returns a list as long as
    its input whose position [p] holds [expected_embedding]. *)
Lemma generate_embeddings_batch_lookup :
  exists embeddings,
    (generate_embeddings_batch self texts (returning cb)).1 = Returns embeddings
    /\ length embeddings = length texts
    /\ forall p text, texts !! p = Some text ->
         embeddings !! p = Some (expected_embedding self texts p text).
Proof.
  assert (Hs : s <> 0) by (subst s; lia).
  unfold generate_embeddings_batch.
  destruct (Z.eqb_spec (batch_size self) 0) as [?|_]; [lia|].
  unfold py_range. destruct (Z.leb_spec (batch_size self) 0) as [?|_]; [lia|].
  fold s n.
  match goal with |- context [batch_step _ _ _ ?total] =>
    destruct (batches_prefix total ((n + s - 1) / s)) as [Hl Hp]; [done|] end.
  cbv zeta in *.
  match goal with |- context [fold_left ?f ?l ?a] =>
    destruct (fold_left f l a) as [embeddings calls] end.
  cbn [fst] in *. exists embeddings. split; [done|].
  assert (Hcover : n <= (n + s - 1) / s * s).
  { pose proof (Nat.div_mod_eq (n + s - 1) s) as E.
    pose proof (Nat.mod_upper_bound (n + s - 1) s Hs). nia. }
  split; [unfold n in *; lia|].
  intros p text Htext. apply Hp; [|done].
  apply lookup_lt_Some in Htext. unfold n in *. lia.
Qed.
End Batches.

Lemma filter_lookup_rank {A} (f : A -> bool) (l : list A) j c :
  l !! j = Some c -> f c = true ->
  List.filter f l !! length (List.filter f (take j l)) = Some c.
Proof.
  intros Hj Hc.
  replace (List.filter f l)
    with (List.filter f (take j l ++ c :: drop (S j) l)).
  2:{ by rewrite <- (drop_S _ _ _ Hj), take_drop. }
  rewrite List.filter_app, lookup_app_r by lia.
  rewrite Nat.sub_diag. cbn. by rewrite Hc.
Qed.

Lemma batch_of_lookup self texts p text :
  (1 <= batch_size self)%Z ->
  texts !! p = Some text ->
  batch_of self texts p !! (p mod Z.to_nat (batch_size self)) = Some text.
Proof.
  intros Hsize Hp. unfold batch_of.
  set (s := Z.to_nat (batch_size self)).
  assert (Hs : s <> 0) by (subst s; lia).
  rewrite lookup_take_lt by (apply Nat.mod_upper_bound; lia).
  rewrite lookup_drop, <- Hp. f_equal.
  pose proof (Nat.div_mod_eq p s). lia.
Qed.

(** Where the provider answered with enough vectors, a non-empty text gets
    the vector of its own input. *)
Lemma expected_is_provider_vector self texts embeddings p text vs :
  (1 <= batch_size self)%Z ->
  texts !! p = Some text ->
  non_empty (_clean_text text) = true ->
  create self (batch_number self p) (provider_input self texts p)
    = Returns vs ->
  length (provider_input self texts p) <= length vs ->
  embeddings !! p = Some (expected_embedding self texts p text) ->
  holds_provider_vector self texts embeddings p text.
Proof.
  intros Hsize Hp Hne Hcr Hlen He.
  assert (Hin : provider_input self texts p !! input_rank self texts p
                = Some (_clean_text text)).
  { unfold provider_input, input_rank. rewrite fmap_take.
    apply filter_lookup_rank; [|done].
    rewrite list_lookup_fmap. by rewrite (batch_of_lookup _ _ _ text). }
  destruct (vs !! input_rank self texts p) as [v|] eqn:Hv.
  2:{ apply lookup_ge_None in Hv. apply lookup_lt_Some in Hin. lia. }
  exists vs, v. repeat split; try done.
  rewrite He. unfold expected_embedding. by rewrite Hcr, Hne, Hv.
Qed.

(** A callback that returns from every call leaves the batches as the
    callback that does nothing leaves them. *)
Lemma batch_step_quiet self texts cb total st i :
  returns_normally cb ->
  batch_step self texts cb total st i
  = batch_step self texts (returning (passed cb)) total st i.
Proof.
  intros Hquiet. destruct cb as [f|]; [|done].
  destruct st as [embs calls]. unfold batch_step. cbn [passed returning].
  destruct (List.filter _ _); [done|].
  destruct (create self _ _); [|done].
  destruct (fill_embeddings _ _ _ _ _) as [e [[]|?]]; [|done].
  by rewrite (Hquiet f _ _ eq_refl).
Qed.

Lemma generate_embeddings_batch_quiet self texts cb :
  returns_normally cb ->
  generate_embeddings_batch self texts cb
  = generate_embeddings_batch self texts (returning (passed cb)).
Proof.
  intros Hquiet. unfold generate_embeddings_batch.
  destruct (_ =? _)%Z; [done|].
  assert (E : forall l st,
    fold_left (batch_step self texts cb
                 ((Z.of_nat (length texts) + batch_size self - 1)
                    / batch_size self)%Z) l st
    = fold_left (batch_step self texts (returning (passed cb))
                   ((Z.of_nat (length texts) + batch_size self - 1)
                      / batch_size self)%Z) l st).
  { induction l as [|i l IH]; intros st; [done|].
    cbn [fold_left]. by rewrite IH, batch_step_quiet. }
  by rewrite E.
Qed.

Lemma returning_returns_normally {A B} (cb : bool) :
  returns_normally (@returning A B cb).
Proof. destruct cb; intros f a b [= <-] || intros f a b [=]. done. Qed.

(** C2, as amended. For a batch size of at least one, a provider that
    returns one vector for each text it is given, and a progress callback
    that returns from its calls (or none), the result has the length of
    the input, and position [p] holds the vector of [dimensions] zeros
    when text [p] is empty after cleaning and the provider's vector for
    text [p] otherwise. *)
Theorem generate_embeddings_batch_aligned self texts cb :
  (1 <= batch_size self)%Z ->
  (forall b input, exists vs,
      create self b input = Returns vs /\ length vs = length input) ->
  returns_normally cb ->
  exists embeddings,
    (generate_embeddings_batch self texts cb).1 = Returns embeddings
    /\ length embeddings = length texts
    /\ forall p text, texts !! p = Some text ->
         if non_empty (_clean_text text)
         then holds_provider_vector self texts embeddings p text
         else embeddings !! p
              = Some (replicate (Z.to_nat (dimensions self)) 0%Q).
Proof.
  intros Hsize Hprov Hquiet.
  rewrite (generate_embeddings_batch_quiet self texts cb Hquiet).
  destruct (generate_embeddings_batch_lookup self texts (passed cb) Hsize)
    as (embeddings & Hret & Hlen & Hlk).
  { intros p vs _ Hcr.
    destruct (Hprov (batch_number self p) (provider_input self texts p))
      as (vs' & Hcr' & Hl). rewrite Hcr in Hcr'. injection Hcr' as ->. lia. }
  exists embeddings. split; [done|]. split; [done|].
  intros p text Hp. specialize (Hlk p text Hp).
  destruct (Hprov (batch_number self p) (provider_input self texts p))
    as (vs & Hcr & Hl).
  destruct (non_empty (_clean_text text)) eqn:Hne.
  - eapply expected_is_provider_vector; eauto. lia.
  - rewrite Hlk. unfold expected_embedding. by rewrite Hcr, Hne.
Qed.

Lemma generate_embeddings_batch_aligned_witness :
  exists embeddings,
    (generate_embeddings_batch (Fixtures.generator []) Fixtures.five_texts
       (returning true)).1 = Returns embeddings
    /\ length embeddings = length Fixtures.five_texts
    /\ forall p text, Fixtures.five_texts !! p = Some text ->
         if non_empty (_clean_text text)
         then holds_provider_vector (Fixtures.generator [])
                Fixtures.five_texts embeddings p text
         else embeddings !! p = Some (replicate (Z.to_nat 1) 0%Q).
Proof.
  apply (generate_embeddings_batch_aligned (Fixtures.generator [])
           Fixtures.five_texts (returning true)).
  - cbn. lia.
  - intros b input. eexists. split; [reflexivity|]. apply length_fmap.
  - intros f a b [= <-]. reflexivity.
Defined.

(** C2, as it is worded. The claim holds for no more than the providers
    and callbacks of the amended statement. A provider that answers three
    texts with two vectors: the two vectors stay, the handler of the batch
    adds three zero vectors, and the result has five entries for three
    texts. A callback that raises after a batch of two texts: the two
    vectors of the provider stay and two zero vectors follow them. *)
Lemma short_response_breaks_alignment :
  (exists embeddings,
      (generate_embeddings_batch Samples.short_generator
         ["ab"; "cde"; "f"] None).1 = Returns embeddings
      /\ length embeddings = 5
      /\ length embeddings <> length ["ab"; "cde"; "f"])
  /\ (exists embeddings,
        (generate_embeddings_batch (Fixtures.generator []) ["ab"; "cde"]
           (Some (fun _ _ => Raises "callback failed"))).1
        = Returns embeddings
        /\ embeddings = [[2%Q]; [3%Q]; [0%Q]; [0%Q]]
        /\ length embeddings <> length ["ab"; "cde"]).
Proof.
  split; eexists; (split; [vm_compute; reflexivity|]); split; try done;
    cbn; lia.
Qed.

(** With a provider that is a function of the single text, the result is
    that function mapped over the input, zero vectors filling the places of
    the empty texts. *)
Lemma generate_embeddings_batch_pointwise self texts cb embed :
  (1 <= batch_size self)%Z ->
  (forall b input, create self b input = Returns (embed <$> input)) ->
  (generate_embeddings_batch self texts (returning cb)).1
    = Returns ((fun text => if non_empty (_clean_text text)
                            then embed (_clean_text text)
                            else zero_embedding self) <$> texts).
Proof.
  intros Hsize Hprov.
  destruct (generate_embeddings_batch_lookup self texts cb Hsize)
    as (embeddings & Hret & Hlen & Hlk).
  { intros p vs _ Hcr. rewrite Hprov in Hcr. injection Hcr as <-.
    by rewrite length_fmap. }
  rewrite Hret. f_equal. apply list_eq. intros p.
  rewrite list_lookup_fmap.
  destruct (texts !! p) as [text|] eqn:Hp; cbn.
  - rewrite (Hlk p text Hp).
    destruct (non_empty (_clean_text text)) eqn:Hne.
    + pose proof (expected_is_provider_vector self texts embeddings p text
                    (embed <$> provider_input self texts p) Hsize Hp Hne
                    (Hprov _ _)) as Hv.
      destruct Hv as (vs & v & Hin & Hcr & Hv & He).
      { by rewrite length_fmap. }
      { apply Hlk, Hp. }
      rewrite Hprov in Hcr. injection Hcr as <-.
      rewrite list_lookup_fmap, Hin in Hv. cbn in Hv. injection Hv as <-.
      by rewrite <- He, (Hlk p text Hp).
    + unfold expected_embedding. by rewrite Hprov, Hne.
  - apply lookup_ge_None. apply lookup_ge_None in Hp. lia.
Qed.

(** C3, as amended. When the provider call fails for batch [b0] and
    answers every other batch with one vector for each text, and the
    progress callback returns from its calls (or there is none), the call
    does not raise,
    every text of batch [b0] gets the vector of [dimensions] zeros, and
    the texts of the other batches get what they get in a run without
    failure: the provider's vector, or the vector of zeros for a text that
    is empty after cleaning. *)
Theorem failed_batch_isolated self texts cb b0 :
  (1 <= batch_size self)%Z ->
  (forall input, raised (create self b0 input) = true) ->
  (forall b input, b <> b0 -> exists vs,
      create self b input = Returns vs /\ length vs = length input) ->
  returns_normally cb ->
  exists embeddings,
    (generate_embeddings_batch self texts cb).1 = Returns embeddings
    /\ length embeddings = length texts
    /\ forall p text, texts !! p = Some text ->
         if decide (batch_number self p = b0)
         then embeddings !! p
              = Some (replicate (Z.to_nat (dimensions self)) 0%Q)
         else if non_empty (_clean_text text)
              then holds_provider_vector self texts embeddings p text
              else embeddings !! p
                   = Some (replicate (Z.to_nat (dimensions self)) 0%Q).
Proof.
  intros Hsize Hfail Hprov Hquiet.
  rewrite (generate_embeddings_batch_quiet self texts cb Hquiet).
  destruct (generate_embeddings_batch_lookup self texts (passed cb) Hsize)
    as (embeddings & Hret & Hlen & Hlk).
  { intros p vs _ Hcr.
    destruct (decide (batch_number self p = b0)) as [Hb|Hb].
    - specialize (Hfail (provider_input self texts p)).
      rewrite <- Hb, Hcr in Hfail. discriminate.
    - destruct (Hprov _ (provider_input self texts p) Hb)
        as (vs' & Hcr' & Hl). rewrite Hcr in Hcr'. injection Hcr' as ->. lia. }
  exists embeddings. split; [done|]. split; [done|].
  intros p text Hp. specialize (Hlk p text Hp).
  destruct (decide (batch_number self p = b0)) as [Hb|Hb].
  - rewrite Hlk. unfold expected_embedding.
    specialize (Hfail (provider_input self texts p)). rewrite <- Hb in Hfail.
    by destruct (create self _ _).
  - destruct (Hprov _ (provider_input self texts p) Hb) as (vs & Hcr & Hl).
    destruct (non_empty (_clean_text text)) eqn:Hne.
    + eapply expected_is_provider_vector; eauto. lia.
    + rewrite Hlk. unfold expected_embedding. by rewrite Hcr, Hne.
Qed.

Lemma failed_batch_isolated_witness :
  exists embeddings,
    (generate_embeddings_batch (Fixtures.generator [2%Z])
       Fixtures.five_texts (returning true)).1 = Returns embeddings
    /\ length embeddings = length Fixtures.five_texts
    /\ forall p text, Fixtures.five_texts !! p = Some text ->
         if decide (batch_number (Fixtures.generator [2%Z]) p = 2%Z)
         then embeddings !! p = Some (replicate (Z.to_nat 1) 0%Q)
         else if non_empty (_clean_text text)
              then holds_provider_vector (Fixtures.generator [2%Z])
                     Fixtures.five_texts embeddings p text
              else embeddings !! p = Some (replicate (Z.to_nat 1) 0%Q).
Proof.
  apply (failed_batch_isolated (Fixtures.generator [2%Z])
           Fixtures.five_texts (returning true) 2%Z).
  - cbn. lia.
  - intros input. reflexivity.
  - intros b input Hb. eexists. split; [|apply length_fmap].
    cbn. unfold Fixtures.length_provider.
    rewrite bool_decide_eq_false_2; [reflexivity|].
    rewrite list_elem_of_singleton. exact Hb.
  - intros f a b [= <-]. reflexivity.
Defined.

(** C3, as it is worded. The call of the progress callback is inside the
    [try] of the batch, so the handler that isolates a failure of the
    provider also takes what the callback raises. The provider fails for
    batch 2 alone, of three batches, and the callback raises: batch 1, whose
    provider call returned, gets its vector and its zero vector and then
    two zero vectors more from the handler, and the result has seven
    entries for five texts. *)
Lemma raising_callback_breaks_isolation :
  let self := Fixtures.generator [2%Z] in
  let run :=
    generate_embeddings_batch self Fixtures.five_texts
      (Some (fun _ _ => Raises "callback failed")) in
  (forall input, raised (create self 2 input) = true)
  /\ (forall b input, b <> 2%Z -> exists vs,
        create self b input = Returns vs /\ length vs = length input)
  /\ run.1 = Returns [[2%Q]; [0%Q]; [0%Q]; [0%Q]; [0%Q]; [0%Q]; [0%Q]]
  /\ length Fixtures.five_texts = 5.
Proof.
  cbv zeta. split; [done|]. split; [|by vm_compute].
  intros b input Hb. eexists. split; [|apply length_fmap].
  cbn. unfold Fixtures.length_provider.
  rewrite bool_decide_eq_false_2; [reflexivity|].
  rewrite list_elem_of_singleton. exact Hb.
Qed.

(** The same run with a callback that returns, evaluated: batch 2 holds
    zero vectors. *)
Example failed_batch_run :
  generate_embeddings_batch (Fixtures.generator [2%Z]) Fixtures.five_texts
    (returning true)
  = (Returns [[2%Q]; [0%Q]; [0%Q]; [0%Q]; [0%Q]],
     [(1%Z, 3%Z)]).
Proof. vm_compute. reflexivity. Qed.

Example clean_run :
  generate_embeddings_batch (Fixtures.generator []) Fixtures.five_texts
    (returning true)
  = (Returns [[2%Q]; [0%Q]; [3%Q]; [1%Q]; [0%Q]],
     [(1%Z, 3%Z); (2%Z, 3%Z)]).
Proof. vm_compute. reflexivity. Qed.
End EmbeddingFacts.

(* ===================================================================== *)
(** * Properties of hybrid fusion *)
(* ===================================================================== *)

Module FusionFacts.
Import PyStr Tools.

Lemma Qlt_bool_true x y : Qlt_bool x y = true <-> (x < y)%Q.
Proof.
  unfold Qlt_bool. rewrite negb_true_iff, <- not_true_iff_false, Qle_bool_iff.
  split; [apply Qnot_le_lt | apply Qlt_not_le].
Qed.

Lemma Qlt_bool_false x y : Qlt_bool x y = false <-> (y <= x)%Q.
Proof.
  unfold Qlt_bool. rewrite negb_false_iff. apply Qle_bool_iff.
Qed.

Section Sorting.
Context {A : Type} (key : A -> Q).


Lemma insert_desc_Permutation x l : insert_desc key x l ≡ₚ x :: l.
Proof.
  induction l as [|y l IH]; cbn; [done|].
  destruct (Qlt_bool (key x) (key y)); [|done].
  rewrite IH. apply Permutation_swap.
Qed.

Lemma sort_desc_Permutation l : sort_desc key l ≡ₚ l.
Proof.
  induction l as [|x l IH]; cbn; [done|].
  fold (sort_desc key l). by rewrite insert_desc_Permutation, IH.
Qed.





Lemma sort_desc_fmap {B} (f : B -> A) l :
  f <$> sort_desc (key ∘ f) l = sort_desc key (f <$> l).
Proof.
  induction l as [|x l IH]; [done|].
  cbn [sort_desc foldr fmap list_fmap].
  fold (sort_desc (key ∘ f) l). fold (sort_desc key (f <$> l)).
  rewrite <- IH. generalize (sort_desc (key ∘ f) l). clear.
  induction l as [|y l IH]; [done|]. cbn.
  destruct (Qlt_bool (key (f x)) (key (f y))); cbn; [|done]. by rewrite IH.
Qed.
End Sorting.


(** A graph result that carries a score other than zero is weighted with
    that score, one without a score with 0.5. *)
Lemma graph_score_weighted str_of gw g :
  score (graph_to_chunk str_of gw g)
  = match graph_score g with
    | Some q => if Qeq_bool q 0 then (0.5 * gw)%Q else (q * gw)%Q
    | None => (0.5 * gw)%Q
    end.
Proof. cbn. unfold or_default. by destruct (graph_score g) as [q|]; [destruct (Qeq_bool q 0)|]. Qed.

(** Weights 0.7 and 0.3, one vector result and one graph result of raw
    score 1.0: fused scores 0.7 and 0.3, in that order. *)
Example fusion_of_unit_scores str_of :
  score <$> _combine_search_results str_of
              [Fixtures.hit "text" 1] [Fixtures.entity "Ada" (Some 1%Q)]
              0.7 0.3
  = [0.7%Q; 0.3%Q].
Proof. reflexivity. Qed.

Example fusion_of_nothing str_of vw gw :
  _combine_search_results str_of [] [] vw gw = [].
Proof. reflexivity. Qed.

(** C6. A graph result that carries the score 0.0 is not weighted with its
    own score: [0.0 or 0.5] is 0.5, so its fused score is
    [0.5 * graph_weight] (0.15 for a weight of 0.3) and it ranks above a
    graph result of raw score 0.4. *)
Theorem zero_graph_score_takes_default :
  (score <$> _combine_search_results Fixtures.plain_str []
               [Fixtures.entity "Ada" (Some 0%Q)] 0.7 0.3
   = [0.15%Q])
  /\ (fun r => (cr_chunk_id r, score r))
       <$> _combine_search_results Fixtures.plain_str []
             [Fixtures.entity "Bob" (Some 0.4%Q);
              Fixtures.entity "Ada" (Some 0%Q)] 0.7 0.3
     = [("entity-Ada", 0.15%Q); ("entity-Bob", 0.12%Q)].
Proof. split; reflexivity. Qed.
End FusionFacts.

(* ===================================================================== *)
(** * Properties of score normalization *)
(* ===================================================================== *)

Module NormalizeFacts.
Import PyStr Tools.
Import FusionFacts.

Lemma py_max_cons x y xs :
  py_max x (y :: xs) = py_max (if Qlt_bool x y then y else x) xs.
Proof. reflexivity. Qed.

Lemma py_min_cons x y xs :
  py_min x (y :: xs) = py_min (if Qlt_bool y x then y else x) xs.
Proof. reflexivity. Qed.

Lemma py_max_bounds xs : forall x,
  (x <= py_max x xs)%Q
  /\ Forall (fun y => (y <= py_max x xs)%Q) xs
  /\ py_max x xs ∈ x :: xs.
Proof.
  induction xs as [|y xs IH]; intros x.
  - split; [apply Qle_refl|]. split; [constructor|]. apply list_elem_of_here.
  - rewrite py_max_cons. destruct (Qlt_bool x y) eqn:Hxy.
    + apply Qlt_bool_true in Hxy. destruct (IH y) as (H1 & H2 & H3).
      split; [apply (Qle_trans _ y); [by apply Qlt_le_weak|done]|].
      split; [by constructor|]. by apply list_elem_of_further.
    + apply Qlt_bool_false in Hxy. destruct (IH x) as (H1 & H2 & H3).
      split; [done|].
      split; [constructor; [by apply (Qle_trans _ x)|done]|].
      apply elem_of_cons in H3 as [H3|H3];
        [rewrite H3; apply list_elem_of_here|].
      by do 2 apply list_elem_of_further.
Qed.

Lemma py_min_bounds xs : forall x,
  (py_min x xs <= x)%Q
  /\ Forall (fun y => (py_min x xs <= y)%Q) xs
  /\ py_min x xs ∈ x :: xs.
Proof.
  induction xs as [|y xs IH]; intros x.
  - split; [apply Qle_refl|]. split; [constructor|]. apply list_elem_of_here.
  - rewrite py_min_cons. destruct (Qlt_bool y x) eqn:Hxy.
    + apply Qlt_bool_true in Hxy. destruct (IH y) as (H1 & H2 & H3).
      split; [apply (Qle_trans _ y); [done|by apply Qlt_le_weak]|].
      split; [by constructor|]. by apply list_elem_of_further.
    + apply Qlt_bool_false in Hxy. destruct (IH x) as (H1 & H2 & H3).
      split; [done|].
      split; [constructor; [by apply (Qle_trans _ x)|done]|].
      apply elem_of_cons in H3 as [H3|H3];
        [rewrite H3; apply list_elem_of_here|].
      by do 2 apply list_elem_of_further.
Qed.

Lemma rescaled_in_unit lo hi s :
  (lo <= s)%Q -> (s <= hi)%Q -> ~ (hi == lo)%Q ->
  (0 <= (s - lo) / (hi - lo) <= 1)%Q.
Proof.
  intros Hlo Hhi Hne.
  assert (Hpos : (0 < hi - lo)%Q).
  { unfold Qminus. rewrite <- Qlt_minus_iff.
    destruct (Qlt_le_dec lo hi) as [H|H]; [done|].
    exfalso. apply Hne. apply Qle_antisym; [done|].
    by apply (Qle_trans _ s). }
  split.
  - apply Qle_shift_div_l; [done|]. rewrite Qmult_0_l.
    unfold Qminus. by rewrite <- Qle_minus_iff.
  - apply Qle_shift_div_r; [done|]. rewrite Qmult_1_l.
    unfold Qminus. by apply Qplus_le_l.
Qed.

(** The rescaling on values: every score lands in [0,1], each score [s]
    becomes [(s - min) / (max - min)], and when the greatest score equals
    the least every score becomes 1. *)
Lemma min_max_rescaled_spec :
  (forall results r,
      r ∈ min_max_rescaled results -> (0 <= score r <= 1)%Q)
  /\ (forall r rest,
        let results := r :: rest in
        let hi := py_max (score r) (score <$> rest) in
        let lo := py_min (score r) (score <$> rest) in
        Forall (fun s => (lo <= s <= hi)%Q) (score <$> results)
        /\ lo ∈ score <$> results /\ hi ∈ score <$> results
        /\ score <$> min_max_rescaled results
           = if Qeq_bool hi lo
             then (fun _ => 1%Q) <$> results
             else (fun x => ((score x - lo) / (hi - lo))%Q) <$> results).
Proof.
  assert (Hfacts : forall r rest,
    let results := r :: rest in
    let hi := py_max (score r) (score <$> rest) in
    let lo := py_min (score r) (score <$> rest) in
    Forall (fun s => (lo <= s <= hi)%Q) (score <$> results)
    /\ lo ∈ score <$> results /\ hi ∈ score <$> results).
  { intros r rest results hi lo.
    destruct (py_max_bounds (score <$> rest) (score r)) as (M1 & M2 & M3).
    destruct (py_min_bounds (score <$> rest) (score r)) as (m1 & m2 & m3).
    split; [|by split].
    subst results. cbn [fmap list_fmap]. constructor; [by split|].
    apply Forall_forall. intros s Hs.
    rewrite Forall_forall in M2, m2. split; [by apply m2|by apply M2]. }
  split.
  - intros [|r0 rest] r Hr; cbn in Hr; [by apply elem_of_nil in Hr|].
    destruct (Hfacts r0 rest) as (Hb & _ & _).
    set (hi := py_max (score r0) (score <$> rest)) in *.
    set (lo := py_min (score r0) (score <$> rest)) in *.
    destruct (Qeq_bool hi lo) eqn:He.
    + change (r ∈ (fun x => with_score x 1) <$> (r0 :: rest)) in Hr.
      apply list_elem_of_fmap in Hr as (x & -> & _). cbn. split; discriminate.
    + change (r ∈ (fun x => with_score x ((score x - lo) / (hi - lo))%Q)
                    <$> (r0 :: rest)) in Hr.
      apply list_elem_of_fmap in Hr as (x & -> & Hx). cbn [score with_score].
      rewrite Forall_forall in Hb.
      destruct (Hb (score x)) as [H1 H2].
      { change (score x ∈ score <$> (r0 :: rest)).
        apply list_elem_of_fmap. by exists x. }
      apply rescaled_in_unit; [done|done|].
      intros E. apply Qeq_bool_iff in E. congruence.
  - intros r rest results hi lo. destruct (Hfacts r rest) as (Hb & Hlo & Hhi).
    split; [done|]. split; [done|]. split; [done|].
    subst results. unfold min_max_rescaled. fold hi lo.
    destruct (Qeq_bool hi lo); rewrite <- list_fmap_compose; reflexivity.
Qed.

(** ** The loops on the result objects *)

Import InPlace.

(** A loop that writes [g result] into every object of a list. *)
Section Writes.
Variable g : ChunkResult -> ChunkResult.

Lemma writes_lookup_notin l : forall (h : gmap nat ChunkResult) a,
  a ∉ l -> fold_left (fun h b => alter g b h) l h !! a = h !! a.
Proof.
  induction l as [|b l IH]; intros h a Ha; [done|].
  apply not_elem_of_cons in Ha as [Hab Ha]. cbn [fold_left].
  rewrite IH by done. by apply lookup_alter_ne.
Qed.

Lemma writes_lookup_in l : forall (h : gmap nat ChunkResult) a,
  NoDup l -> a ∈ l ->
  fold_left (fun h b => alter g b h) l h !! a = g <$> h !! a.
Proof.
  induction l as [|b l IH]; intros h a Hnd Ha; [by apply elem_of_nil in Ha|].
  apply NoDup_cons in Hnd as [Hb Hnd]. cbn [fold_left].
  destruct (decide (a = b)) as [->|Hab].
  - rewrite writes_lookup_notin by done. apply lookup_alter_eq.
  - apply elem_of_cons in Ha as [?|Ha]; [done|].
    rewrite IH by done. by rewrite lookup_alter_ne.
Qed.
End Writes.

(** On a list of distinct objects the loops of [_normalize_scores] leave
    what the rescaling of the values gives, and they write to no other
    object. *)
Lemma normalize_refines (h : gmap nat ChunkResult) results :
  NoDup results -> Forall (fun a => is_Some (h !! a)) results ->
  let res := InPlace._normalize_scores h results in
  res.2 = results
  /\ deref res.1 <$> results = min_max_rescaled (deref h <$> results)
  /\ (forall b, b ∉ results -> res.1 !! b = h !! b)
  /\ Forall (fun a => is_Some (res.1 !! a)) results.
Proof.
  intros Hnd Hall. cbv zeta.
  destruct results as [|a rest]; [done|].
  unfold InPlace._normalize_scores, min_max_rescaled.
  cbn [fmap list_fmap].
  replace (score <$> (deref h <$> rest))
    with ((fun b => score (deref h b)) <$> rest)
    by (by rewrite <- list_fmap_compose).
  set (hi := py_max _ _). set (lo := py_min _ _).
  assert (Hwrite : forall g,
    let h' := fold_left (fun h b => alter g b h) (a :: rest) h in
    deref h' <$> (a :: rest) = (fun b => g (deref h b)) <$> (a :: rest)
    /\ (forall b, b ∉ a :: rest -> h' !! b = h !! b)
    /\ Forall (fun b => is_Some (h' !! b)) (a :: rest)).
  { intros g. cbv zeta. split; [|split].
    - apply Forall_fmap_ext_1, Forall_forall. intros b Hb.
      rewrite Forall_forall in Hall. destruct (Hall b Hb) as [r Hr].
      unfold deref. rewrite (writes_lookup_in g) by done. by rewrite Hr.
    - intros b Hb. by apply writes_lookup_notin.
    - apply Forall_forall. intros b Hb.
      rewrite Forall_forall in Hall. destruct (Hall b Hb) as [r Hr].
      rewrite (writes_lookup_in g) by done. rewrite Hr. by eexists. }
  destruct (Qeq_bool hi lo).
  - destruct (Hwrite (fun result => with_score result 1%Q))
      as (H1 & H2 & H3).
    cbn [fst snd]. split; [done|]. split; [|by split].
    etrans; [exact H1|]. by rewrite <- list_fmap_compose.
  - destruct (Hwrite (fun result =>
                with_score result ((score result - lo) / (hi - lo))%Q))
      as (H1 & H2 & H3).
    cbn [fst snd]. split; [done|]. split; [|by split].
    etrans; [exact H1|]. by rewrite <- list_fmap_compose.
Qed.



(** The floats of the code on the scores of the examples: 2, 4, 6 become
    0, 0.5, 1 with no rounding. *)
Example rescaled_scores_in_binary64 :
  PrimFloat.eqb (Binary64.rescaled_score 2 2 6) 0 = true
  /\ PrimFloat.eqb (Binary64.rescaled_score 4 2 6) 0.5 = true
  /\ PrimFloat.eqb (Binary64.rescaled_score 6 2 6) 1 = true.
Proof. repeat split; reflexivity. Qed.
End NormalizeFacts.

(* ===================================================================== *)
(** * Properties of deduplication *)
(* ===================================================================== *)

Module DedupFacts.
Import PyStr Tools.

Section FirstPerKey.
Variable key : ChunkResult -> string.

Let differs (k : string) (r : ChunkResult) : bool :=
  negb (String.eqb (key r) k).

Lemma filter_filter_comm {A} (f g : A -> bool) l :
  List.filter f (List.filter g l) = List.filter g (List.filter f l).
Proof.
  induction l as [|x l IH]; [done|]. cbn.
  destruct (g x) eqn:Hg, (f x) eqn:Hf; cbn; rewrite ?Hg, ?Hf, ?IH; done.
Qed.

Lemma filter_idem {A} (f : A -> bool) l :
  List.filter f (List.filter f l) = List.filter f l.
Proof.
  induction l as [|x l IH]; [done|]. cbn.
  destruct (f x) eqn:Hf; cbn; rewrite ?Hf, ?IH; done.
Qed.

(** Dropping a key before or after taking the first of each key gives the
    same list. *)
Lemma first_per_key_filter k l :
  List.filter (differs k) (first_per_key key l)
  = first_per_key key (List.filter (differs k) l).
Proof.
  induction l as [|x l IH]; [done|].
  cbn [first_per_key List.filter]. fold (differs (key x)).
  destruct (differs k x) eqn:Hx.
  - cbn [first_per_key]. fold (differs (key x)).
    by rewrite filter_filter_comm, IH.
  - rewrite <- IH. unfold differs in Hx.
    apply negb_false_iff, String.eqb_eq in Hx. rewrite Hx.
    apply filter_idem.
Qed.

Lemma first_per_key_sublist l : first_per_key key l `sublist_of` l.
Proof.
  induction l as [|x l IH]; cbn; [done|].
  apply sublist_skip. etrans; [|exact IH].
  generalize (first_per_key key l). clear. intros l.
  induction l as [|y l IH]; cbn; [done|].
  destruct (negb _); [by apply sublist_skip | by apply sublist_cons].
Qed.

Lemma first_per_key_NoDup l : NoDup (key <$> first_per_key key l).
Proof.
  induction l as [|x l IH]; cbn; [constructor|].
  fold (differs (key x)). constructor.
  - rewrite list_elem_of_fmap. intros (y & Hy & Hin).
    apply list_elem_of_In, filter_In in Hin as [_ Hd].
    unfold differs in Hd. rewrite <- Hy, String.eqb_refl in Hd. discriminate.
  - eapply sublist_NoDup; [exact IH|].
    apply fmap_sublist. generalize (first_per_key key l). clear.
    intros l. induction l as [|y l IH]; cbn; [done|].
    destruct (differs _ _); [by apply sublist_skip | by apply sublist_cons].
Qed.

Lemma first_per_key_complete l r :
  r ∈ l -> key r ∈ key <$> first_per_key key l.
Proof.
  induction l as [|x l IH]; intros Hr; [by apply elem_of_nil in Hr|].
  cbn. fold (differs (key x)).
  destruct (String.eqb_spec (key r) (key x)) as [E|E].
  - rewrite E. apply list_elem_of_here.
  - apply elem_of_cons in Hr as [->|Hr]; [done|].
    apply list_elem_of_further. specialize (IH Hr).
    apply list_elem_of_fmap in IH as (y & Hy & Hin).
    apply list_elem_of_fmap. exists y. split; [done|].
    apply list_elem_of_In, filter_In. split; [by apply list_elem_of_In|].
    unfold differs. apply negb_true_iff, String.eqb_neq. congruence.
Qed.
End FirstPerKey.

Definition unseen (seen : gset string) (r : ChunkResult) : bool :=
  bool_decide (content_key r ∉ seen).

Lemma filter_unseen_insert k seen l :
  List.filter (unseen ({[k]} ∪ seen)) l
  = List.filter (fun r => negb (String.eqb (content_key r) k))
      (List.filter (unseen seen) l).
Proof.
  induction l as [|x l IH]; [done|]. cbn [List.filter].
  destruct (decide (content_key x ∈ seen)) as [Hin|Hout].
  - assert (unseen ({[k]} ∪ seen) x = false) as ->.
    { apply bool_decide_eq_false_2. set_solver. }
    assert (unseen seen x = false) as ->.
    { apply bool_decide_eq_false_2. set_solver. }
    exact IH.
  - assert (unseen seen x = true) as ->.
    { by apply bool_decide_eq_true_2. }
    cbn [List.filter].
    destruct (String.eqb_spec (content_key x) k) as [E|E]; cbn [negb].
    + assert (unseen ({[k]} ∪ seen) x = false) as ->.
      { apply bool_decide_eq_false_2. set_solver. }
      exact IH.
    + assert (unseen ({[k]} ∪ seen) x = true) as ->.
      { apply bool_decide_eq_true_2.
        intros [H1|H1]%elem_of_union; [|done].
        by apply elem_of_singleton in H1. }
      by rewrite IH.
Qed.

Lemma dedup_loop_spec results : forall deduplicated seen,
  dedup_loop results deduplicated seen
  = deduplicated
      ++ first_per_key content_key (List.filter (unseen seen) results).
Proof.
  induction results as [|r rest IH]; intros acc seen.
  - cbn. by rewrite app_nil_r.
  - cbn [dedup_loop List.filter]. unfold unseen at 1.
    destruct (decide (content_key r ∈ seen)) as [Hin|Hout].
    + rewrite bool_decide_eq_false_2 by (intros H; by apply H). apply IH.
    + rewrite bool_decide_eq_true_2 by done.
      rewrite IH, <- app_assoc. f_equal. cbn [first_per_key app]. f_equal.
      rewrite first_per_key_filter. f_equal. apply filter_unseen_insert.
Qed.

Lemma deduplicate_results_eq results :
  _deduplicate_results results = first_per_key content_key results.
Proof.
  destruct results as [|r rest]; [done|].
  unfold _deduplicate_results. rewrite dedup_loop_spec. cbn [app].
  rewrite forallb_filter_id; [done|].
  apply forallb_forall. intros x _. unfold unseen.
  apply bool_decide_eq_true_2. apply not_elem_of_empty.
Qed.

(** C9, as the code has it. [_deduplicate_results] keeps, in the original
    order, the first result of each key and drops the later results of the
    same key, where the key of a result is the trimmed, lower-cased form of
    the first 100 characters of its content. *)
Theorem deduplicate_keeps_first_per_key results :
  _deduplicate_results results = first_per_key content_key results
  /\ _deduplicate_results results `sublist_of` results
  /\ NoDup (content_key <$> _deduplicate_results results)
  /\ (forall r, r ∈ results ->
        content_key r ∈ content_key <$> _deduplicate_results results).
Proof.
  rewrite deduplicate_results_eq. split; [done|].
  split; [apply first_per_key_sublist|].
  split; [apply first_per_key_NoDup|]. apply first_per_key_complete.
Qed.

(** C9, as it is worded. Two results whose contents open with a hundred
    spaces and then differ: the first hundred characters of the trimmed
    contents differ, so the wording keeps both; the code trims the first
    hundred characters, finds the empty key twice and drops the second. *)
Lemma deduplicate_not_by_key_as_stated :
  let results := [Fixtures.hit (Fixtures.hundred_spaces +:+ "alpha") 1;
                  Fixtures.hit (Fixtures.hundred_spaces +:+ "beta") 1] in
  first_per_key key_as_stated results = results
  /\ _deduplicate_results results
     = [Fixtures.hit (Fixtures.hundred_spaces +:+ "alpha") 1]
  /\ _deduplicate_results results <> first_per_key key_as_stated results.
Proof.
  cbv zeta. split; [vm_compute; reflexivity|].
  split; [vm_compute; reflexivity|]. vm_compute. discriminate.
Qed.
End DedupFacts.

(* ===================================================================== *)
(** * Properties of fusion on shared objects *)
(* ===================================================================== *)

Module InPlaceFacts.
Import Tools InPlace.

Lemma scale_all_cons vw (h : gmap nat ChunkResult) b vr :
  scale_all vw h (b :: vr) = scale_all vw (scale_score vw h b) vr.
Proof. reflexivity. Qed.

Lemma scale_all_lookup_notin vw vr : forall (h : gmap nat ChunkResult) a,
  a ∉ vr -> scale_all vw h vr !! a = h !! a.
Proof.
  induction vr as [|b vr IH]; intros h a Ha; [done|].
  apply not_elem_of_cons in Ha as [Hab Ha].
  rewrite scale_all_cons, IH by done.
  unfold scale_score. by apply lookup_alter_ne.
Qed.

Lemma scale_all_lookup_in vw vr : forall (h : gmap nat ChunkResult) a,
  NoDup vr -> a ∈ vr ->
  scale_all vw h vr !! a
  = (fun r => with_score r (score r * vw)%Q) <$> h !! a.
Proof.
  induction vr as [|b vr IH]; intros h a Hnd Ha; [by apply elem_of_nil in Ha|].
  apply NoDup_cons in Hnd as [Hb Hnd]. rewrite scale_all_cons.
  destruct (decide (a = b)) as [->|Hab].
  - rewrite scale_all_lookup_notin by done.
    unfold scale_score. apply lookup_alter_eq.
  - apply elem_of_cons in Ha as [?|Ha]; [done|].
    rewrite IH by done.
    unfold scale_score. by rewrite lookup_alter_ne.
Qed.

Lemma alloc_graph_spec str_of gw gr : forall (h : gmap nat ChunkResult),
  let res := alloc_graph str_of gw h gr in
  (forall a, is_Some (h !! a) -> res.1 !! a = h !! a)
  /\ deref res.1 <$> res.2 = graph_to_chunk str_of gw <$> gr.
Proof.
  induction gr as [|g gr IH]; intros h; cbn; [done|].
  set (a := fresh (dom h)).
  set (c := graph_to_chunk str_of gw g).
  specialize (IH (<[a:=c]> h)). cbv zeta in IH.
  destruct (alloc_graph str_of gw (<[a:=c]> h) gr) as [h' addrs].
  cbn [fst snd] in *. destruct IH as [Hkeep Hnew].
  assert (Ha : a ∉ dom h) by apply is_fresh.
  split.
  - intros b Hb. rewrite Hkeep.
    + apply lookup_insert_ne. intros ->. apply Ha. by apply elem_of_dom.
    + rewrite lookup_insert_ne; [done|].
      intros ->. apply Ha. by apply elem_of_dom.
  - cbn. f_equal; [|done].
    unfold deref. rewrite Hkeep; rewrite lookup_insert_eq; [done|by eexists].
Qed.

(** The fusion on values is what the fusion on objects computes when it is
    given distinct objects: reading the returned addresses in the final
    store gives the list of [Tools._combine_search_results]. *)
Lemma combine_refines str_of (h : gmap nat ChunkResult) vr gr vw gw :
  NoDup vr -> Forall (fun a => is_Some (h !! a)) vr ->
  let res := InPlace._combine_search_results str_of h vr gr vw gw in
  deref res.1 <$> res.2
  = Tools._combine_search_results str_of (deref h <$> vr) gr vw gw.
Proof.
  intros Hnd Hall. cbv zeta. unfold InPlace._combine_search_results.
  pose proof (alloc_graph_spec str_of gw gr (scale_all vw h vr)) as Hspec.
  cbv zeta in Hspec.
  destruct (alloc_graph str_of gw (scale_all vw h vr) gr) as [h2 addrs].
  cbn [fst snd] in *. destruct Hspec as [Hkeep Hnew].
  change (fun a => score (deref h2 a)) with (score ∘ deref h2).
  rewrite (FusionFacts.sort_desc_fmap score (deref h2)).
  unfold Tools._combine_search_results. f_equal.
  rewrite fmap_app, Hnew. f_equal.
  rewrite <- list_fmap_compose. apply Forall_fmap_ext_1.
  apply Forall_forall. intros a Ha.
  rewrite Forall_forall in Hall. destruct (Hall a Ha) as [r Hr].
  cbn. unfold deref.
  rewrite Hkeep; rewrite scale_all_lookup_in by done; rewrite Hr; cbn;
    [done|by eexists].
Qed.

(** C10. [_combine_search_results] assigns the weighted score to the very
    objects it is given: after the call the caller's object at address [a]
    is the object it was but for its score, which reads
    [score * vector_weight]; the returned list holds that same address;
    and a second fusion of the same objects multiplies the score by
    [vector_weight] once more, so that it reads
    [score * vector_weight * vector_weight]. *)
Theorem combine_overwrites_callers_scores
    str_of (h : gmap nat ChunkResult) vr gr gr' vw gw a r :
  NoDup vr -> a ∈ vr -> h !! a = Some r ->
  let first := InPlace._combine_search_results str_of h vr gr vw gw in
  let second :=
    InPlace._combine_search_results str_of first.1 vr gr' vw gw in
  first.1 !! a = Some (with_score r (score r * vw)%Q)
  /\ score <$> first.1 !! a = Some (score r * vw)%Q
  /\ a ∈ first.2
  /\ second.1 !! a = Some (with_score r (score r * vw * vw)%Q)
  /\ score <$> second.1 !! a = Some (score r * vw * vw)%Q.
Proof.
  intros Hnd Ha Hr.
  assert (Hcall : forall (h0 : gmap nat ChunkResult) g r0,
    h0 !! a = Some r0 ->
    let res := InPlace._combine_search_results str_of h0 vr g vw gw in
    res.1 !! a = Some (with_score r0 (score r0 * vw)%Q) /\ a ∈ res.2).
  { intros h0 g r0 Hr0. cbv zeta. unfold InPlace._combine_search_results.
    pose proof (alloc_graph_spec str_of gw g (scale_all vw h0 vr)) as Hspec.
    cbv zeta in Hspec.
    destruct (alloc_graph str_of gw (scale_all vw h0 vr) g) as [h2 addrs].
    cbn [fst snd] in *. destruct Hspec as [Hkeep _].
    assert (Hs : scale_all vw h0 vr !! a
                 = Some (with_score r0 (score r0 * vw)%Q)).
    { rewrite scale_all_lookup_in by done. by rewrite Hr0. }
    split.
    - rewrite Hkeep; [done|]. rewrite Hs. by eexists.
    - rewrite (FusionFacts.sort_desc_Permutation _ _).
      apply elem_of_app. by left. }
  cbv zeta.
  destruct (Hcall h gr r Hr) as [H1 H1'].
  destruct (Hcall _ gr' _ H1) as [H2 _].
  cbn [score with_score] in H2.
  split; [done|]. split; [by rewrite H1|]. split; [done|].
  split; [done|]. by rewrite H2.
Qed.

Lemma combine_overwrites_callers_scores_witness :
  let first :=
    InPlace._combine_search_results Fixtures.plain_str
      Fixtures.one_hit_store [0] [Fixtures.entity "Ada" (Some 1%Q)]
      0.7 0.3 in
  let second :=
    InPlace._combine_search_results Fixtures.plain_str first.1 [0]
      [Fixtures.entity "Ada" (Some 1%Q)] 0.7 0.3 in
  first.1 !! 0 = Some (with_score (Fixtures.hit "text" 1) (1 * 0.7)%Q)
  /\ score <$> first.1 !! 0 = Some (1 * 0.7)%Q
  /\ 0 ∈ first.2
  /\ second.1 !! 0
     = Some (with_score (Fixtures.hit "text" 1) (1 * 0.7 * 0.7)%Q)
  /\ score <$> second.1 !! 0 = Some (1 * 0.7 * 0.7)%Q.
Proof.
  apply (combine_overwrites_callers_scores Fixtures.plain_str
           Fixtures.one_hit_store [0] [Fixtures.entity "Ada" (Some 1%Q)]
           [Fixtures.entity "Ada" (Some 1%Q)] 0.7 0.3 0
           (Fixtures.hit "text" 1)).
  - apply NoDup_singleton.
  - apply list_elem_of_here.
  - reflexivity.
Defined.

(** The scores the caller reads from its one object: 1 before, 0.7 after
    one fusion, 0.49 after two. *)
Example repeated_fusion_scores :
  let first :=
    InPlace._combine_search_results Fixtures.plain_str
      Fixtures.one_hit_store [0] [] 0.7 0.3 in
  let second :=
    InPlace._combine_search_results Fixtures.plain_str first.1 [0] []
      0.7 0.3 in
  score <$> Fixtures.one_hit_store !! 0 = Some 1%Q
  /\ score <$> first.1 !! 0 = Some 0.7%Q
  /\ score <$> second.1 !! 0 = Some 0.49%Q.
Proof. cbv zeta. repeat split; vm_compute; reflexivity. Qed.
End InPlaceFacts.

(* ===================================================================== *)
(** * Progress reporting of the pipeline *)
(* ===================================================================== *)

Module ProgressFacts.
Import PyStr Embeddings Pipeline.

Lemma sublist_Forall {A} (P : A -> Prop) (l1 l2 : list A) :
  l1 `sublist_of` l2 -> Forall P l2 -> Forall P l1.
Proof.
  induction 1 as [|x l1 l2 _ IH|x l1 l2 _ IH]; intros H; [done|..];
    apply Forall_cons in H as [Hx H]; [constructor|]; auto.
Qed.

Lemma sublist_StronglySorted {A} (R : relation A) (l1 l2 : list A) :
  l1 `sublist_of` l2 -> StronglySorted R l2 -> StronglySorted R l1.
Proof.
  induction 1 as [|x l1 l2 Hsub IH|x l1 l2 _ IH]; intros H; [done|..];
    apply StronglySorted_inv in H as [H Hx]; [|by auto].
  constructor; [by auto|]. by eapply sublist_Forall.
Qed.

Lemma StronglySorted_impl {A} (R R' : relation A) (l : list A) :
  (forall x y, R x y -> R' x y) -> StronglySorted R l -> StronglySorted R' l.
Proof.
  intros HR. induction 1 as [|x l _ IH Hx]; constructor; [done|].
  eapply Forall_impl; [exact Hx|]. cbn. auto.
Qed.

Lemma seq_sorted_below start n :
  StronglySorted (fun k1 k2 => k1 < k2 < start + n) (seq start n).
Proof.
  revert start. induction n as [|n IH]; intros start; cbn; [constructor|].
  constructor.
  - eapply StronglySorted_impl; [|apply (IH (S start))].
    cbn. intros; lia.
  - apply Forall_forall. intros k Hk. apply elem_of_seq in Hk. lia.
Qed.

(** The callback of the batch loop is called at most once for each batch,
    in the order of the batches, with the number of the batch. *)
Lemma batch_calls_sublist self texts cb total l : forall embs calls,
  exists new,
    (fold_left (batch_step self texts (returning cb) total) l (embs, calls)).2
      = calls ++ new
    /\ new `sublist_of`
         (fun i => ((Z.of_nat i / batch_size self + 1)%Z, total)) <$> l.
Proof.
  induction l as [|i l IH]; intros embs calls.
  - exists []. cbn. by rewrite app_nil_r.
  - cbn [fold_left fmap list_fmap].
    assert (Hstep : exists embs',
      batch_step self texts (returning cb) total (embs, calls) i = (embs', calls)
      \/ batch_step self texts (returning cb) total (embs, calls) i
         = (embs', calls ++ [((Z.of_nat i / batch_size self + 1)%Z, total)])).
    { unfold batch_step.
      destruct (List.filter _ _); [eexists; by left|].
      destruct (create self _ _); [|eexists; by left].
      destruct (fill_embeddings _ _ _ _ _) as [e [?|?]];
        [|eexists; by left].
      destruct cb; eexists; [by right|by left]. }
    destruct Hstep as (embs' & [-> | ->]).
    + destruct (IH embs' calls) as (new & -> & Hsub).
      exists new. split; [done|]. by apply sublist_cons.
    + destruct (IH embs' (calls ++ [((Z.of_nat i / batch_size self + 1)%Z, total)]))
        as (new & -> & Hsub).
      eexists (_ :: new). split; [by rewrite <- app_assoc|].
      by apply sublist_skip.
Qed.

Lemma call_value_bounds c t :
  (1 <= c <= t)%Z -> (45 <= embedding_progress_value c t <= 60)%Q.
Proof.
  intros [Hc Ht]. unfold embedding_progress_value.
  assert (Hpos : (0 < inject_Z t)%Q).
  { change 0%Q with (inject_Z 0). rewrite <- Zlt_Qlt. lia. }
  assert (H0 : (0 <= inject_Z c / inject_Z t)%Q).
  { apply Qle_shift_div_l; [done|]. rewrite Qmult_0_l.
    change 0%Q with (inject_Z 0). rewrite <- Zle_Qle. lia. }
  assert (H1 : (inject_Z c / inject_Z t <= 1)%Q).
  { apply Qle_shift_div_r; [done|]. rewrite Qmult_1_l.
    rewrite <- Zle_Qle. lia. }
  split.
  - rewrite <- (Qplus_0_r 45) at 1. apply Qplus_le_r.
    apply Qmult_le_0_compat; [done|discriminate].
  - change 60%Q with (45 + 1 * 15)%Q. apply Qplus_le_r.
    apply Qmult_le_compat_r; [done|discriminate].
Qed.

Lemma call_value_mono c1 c2 t :
  (0 < t)%Z -> (c1 <= c2)%Z ->
  (embedding_progress_value c1 t <= embedding_progress_value c2 t)%Q.
Proof.
  intros Ht Hc. unfold embedding_progress_value.
  apply Qplus_le_r. apply Qmult_le_compat_r; [|discriminate].
  unfold Qdiv. apply Qmult_le_compat_r.
  - rewrite <- Zle_Qle. lia.
  - apply Qinv_le_0_compat. change 0%Q with (inject_Z 0).
    rewrite <- Zle_Qle. lia.
Qed.

(** The values [embedding_progress] hands on never decrease and stay
    between 45 and 60. *)
Lemma embedding_progress_values self texts cb :
  let calls := (generate_embeddings_batch self texts (returning cb)).2 in
  StronglySorted Qle (call_value <$> calls)
  /\ Forall (fun v => (45 <= v <= 60)%Q) (call_value <$> calls).
Proof.
  cbv zeta. unfold generate_embeddings_batch.
  destruct (Z.eqb_spec (batch_size self) 0) as [?|Hne];
    [split; constructor|].
  unfold py_range.
  destruct (Z.leb_spec (batch_size self) 0) as [?|Hpos].
  { cbn. split; constructor. }
  set (s := Z.to_nat (batch_size self)).
  set (m := ((length texts + s - 1) / s)%nat).
  set (total := ((Z.of_nat (length texts) + batch_size self - 1)
                   / batch_size self)%Z).
  assert (Htotal : total = Z.of_nat m).
  { subst total m. replace (batch_size self) with (Z.of_nat s) by (subst s; lia).
    rewrite Nat2Z.inj_div. f_equal. lia. }
  destruct (batch_calls_sublist self texts cb total
              ((fun k => k * s)%nat <$> seq 0 m) [] [])
    as (new & Hcalls & Hsub).
  destruct (fold_left _ _ _) as [embeddings calls]. cbn [snd] in *.
  subst calls. cbn [app].
  apply (fmap_sublist call_value) in Hsub.
  rewrite <- !list_fmap_compose in Hsub.
  assert (Hvalue : forall k,
    (call_value ∘ (fun i => ((Z.of_nat i / batch_size self + 1)%Z, total))
       ∘ (fun k => k * s)%nat) k
    = embedding_progress_value (Z.of_nat k + 1) (Z.of_nat m)).
  { intros k. unfold call_value. cbn. rewrite Htotal. f_equal.
    rewrite Nat2Z.inj_mul.
    replace (Z.of_nat s) with (batch_size self) by (subst s; lia).
    by rewrite Z.div_mul by lia. }
  split.
  - eapply sublist_StronglySorted; [exact Hsub|].
    apply (StronglySorted_fmap _ (fun k1 k2 => k1 < k2 < 0 + m)).
    + intros k1 k2 Hk. rewrite !Hvalue. apply call_value_mono; lia.
    + apply seq_sorted_below.
  - eapply sublist_Forall; [exact Hsub|].
    apply Forall_fmap, Forall_forall. intros k Hk.
    apply elem_of_seq in Hk. cbn [compose] in *. rewrite Hvalue.
    apply call_value_bounds. lia.
Qed.

Lemma run_report {A} message value (k : unit -> Run A) st :
  (report (returning true) message value ≫= k) st
  = k () (emit st message value).
Proof. reflexivity. Qed.

Lemma run_note {A} message value (k : unit -> Run A) st :
  (note (returning true) message value ≫= k) st
  = k () (emit st message value).
Proof. reflexivity. Qed.

Lemma run_lift {A B} (o : Outcome A) (k : A -> Run B) st :
  (lift o ≫= k) st
  = match o with Returns a => k a st | Raises e => (st, Raises e) end.
Proof. by destruct o. Qed.

Lemma run_bind_document {A} d (k : unit -> Run A) st :
  (bind_document d ≫= k) st
  = k () {| document := Some d; progress := progress st;
            stats := stats st |}.
Proof. reflexivity. Qed.

Lemma run_update_stats {A} f (k : unit -> Run A) st :
  (update_stats f ≫= k) st
  = k () {| document := document st; progress := progress st;
            stats := f (stats st) |}.
Proof. reflexivity. Qed.

Lemma embedding_progress_run calls : forall st,
  exists st',
    embedding_reports (returning true) calls st = (st', Returns ())
    /\ document st' = document st /\ stats st' = stats st
    /\ (progress st').*2 = (progress st).*2 ++ (call_value <$> calls).
Proof.
  induction calls as [|[current total] calls IH]; intros st.
  - exists st. cbn. by rewrite app_nil_r.
  - cbn [embedding_reports]. rewrite run_note.
    destruct (IH (emit st (embedding_progress_message current total)
      (embedding_progress_value current total))) as (st' & -> & Hd & Hs & Hp).
    exists st'. repeat split; try done.
    rewrite Hp. cbn [emit progress]. rewrite fmap_app. cbn.
    by rewrite <- app_assoc.
Qed.

Lemma run_embedding_progress {A} calls (k : unit -> Run A) st :
  exists st',
    (embedding_reports (returning true) calls ≫= k) st = k () st'
    /\ document st' = document st /\ stats st' = stats st
    /\ (progress st').*2 = (progress st).*2 ++ (call_value <$> calls).
Proof.
  destruct (embedding_progress_run calls st) as (st' & H & Hrest).
  exists st'. split; [|done].
  unfold mbind, Run_bind. by rewrite H.
Qed.

(** With a progress callback that returns, the function handed to the
    batcher returns, and the batcher does what it does with any callback
    that returns. *)
Lemma embedding_progress_quiet cb :
  returns_normally (Some (embedding_progress (returning cb))).
Proof. intros f a b [= <-]. by destruct cb. Qed.

Lemma run_batcher self texts cb :
  Embeddings.generate_embeddings_batch self texts
    (Some (embedding_progress (returning cb)))
  = Embeddings.generate_embeddings_batch self texts (returning true).
Proof.
  by rewrite (EmbeddingFacts.generate_embeddings_batch_quiet self texts _
                (embedding_progress_quiet cb)).
Qed.

(** The result of the [except] branch. *)
Lemma handler_result self cb error st :
  exists st',
    process_document_handler self (returning cb) error st
    = (st', Returns {|
         job_id := job_id_of self;
         pr_document_id :=
           match document st with
           | Some d => document_id d
           | None => "unknown"
           end;
         chunks_created := 0;
         entities_extracted := 0;
         relationships_created := 0;
         processing_time_ms := elapsed_ms self;
         success := false;
         pr_error_message := Some error |})
    /\ (progress st').*2
       = (progress st).*2 ++ (if cb then [100%Q] else []).
Proof.
  unfold process_document_handler. destruct cb.
  - rewrite run_report. eexists. split; [reflexivity|].
    cbn. by rewrite fmap_app.
  - eexists. split; [reflexivity|]. cbn. by rewrite app_nil_r.
Qed.

Ltac failed_run H :=
  match goal with
  | |- context [process_document_handler ?self (returning ?cb) ?e ?st] =>
      destruct (handler_result self cb e st) as (? & -> & ?);
      cbn [fst snd] in *; injection H as <-; discriminate
  end.

(** The values a successful run reports. *)
Lemma successful_run_values self s fp fn on md result :
  (process_document self s fp fn on md (returning true)).2 = Returns result ->
  success result = true ->
  exists texts,
    progress_values (process_document self s fp fn on md (returning true)).1
    = [0; 10; 20; 25; 40; 45]%Q
        ++ (call_value <$>
              (generate_embeddings_batch (embedding_generator self) texts
                 (returning true)).2)
        ++ [60; 65; 70; 75; 90; 95; 100]%Q.
Proof.
  unfold process_document, process_document_body. intros Hres Hok.
  rewrite !run_report, run_lift in *.
  destruct (process_pdf self fp fn on) as [d|e]; [|failed_run Hres].
  cbv zeta in *. rewrite run_bind_document, !run_report, run_lift in *.
  destruct (Chunker.chunk_document _ _) as [chunks|e]; [|failed_run Hres].
  destruct chunks as [|c chunks]; [unfold raise in *; failed_run Hres|].
  rewrite run_bind_document, !run_report, run_batcher in *.
  exists (chunk_content <$> c :: chunks).
  destruct (generate_embeddings_batch _ _ _) as [embeddings calls].
  match goal with |- context [(embedding_reports (returning true) calls ≫= ?k) ?st] =>
    destruct (run_embedding_progress calls k st) as (st' & E & _ & _ & Hp)
  end.
  rewrite E in *. clear E. rewrite run_lift in *.
  destruct embeddings as [embeddings|e]; [|failed_run Hres].
  rewrite run_bind_document, !run_report, run_lift in *.
  destruct (add_documents self _) as [ok|e]; [|failed_run Hres].
  rewrite !run_report, run_lift in *.
  destruct (add_episode self _ _ _ _) as [episode_id|e]; [|failed_run Hres].
  cbv zeta in *.
  rewrite !run_report, run_bind_document, run_update_stats, run_report in *.
  unfold progress_values. cbn [fst snd mret Run_ret emit progress].
  rewrite !fmap_app, Hp. cbn. rewrite <- !app_assoc. reflexivity.
Qed.

(** C7. In a successful run with a progress callback the reported values
    never decrease, lie between 0 and 100, the interpolated values of the
    embedding stage included, and the last one is 100. *)
Theorem progress_non_decreasing self s fp fn on md result :
  (process_document self s fp fn on md (returning true)).2 = Returns result ->
  success result = true ->
  let values :=
    progress_values (process_document self s fp fn on md (returning true)).1 in
  StronglySorted Qle values
  /\ Forall (fun v => (0 <= v <= 100)%Q) values
  /\ last values = Some 100%Q.
Proof.
  intros Hres Hok. cbv zeta.
  destruct (successful_run_values self s fp fn on md result Hres Hok)
    as (texts & ->).
  destruct (embedding_progress_values (embedding_generator self) texts true)
    as [Hsorted Hbounds].
  set (E := call_value <$> _) in *.
  rewrite Forall_forall in Hbounds.
  split; [|split].
  - apply StronglySorted_app_2.
    + intros x y Hx Hy. apply (Qle_trans _ 45).
      * repeat (apply elem_of_cons in Hx as [->|Hx]; [discriminate|]).
        by apply elem_of_nil in Hx.
      * apply elem_of_app in Hy as [Hy|Hy]; [by apply Hbounds|].
        repeat (apply elem_of_cons in Hy as [->|Hy]; [discriminate|]).
        by apply elem_of_nil in Hy.
    + repeat constructor; discriminate.
    + apply StronglySorted_app_2; [|done|repeat constructor; discriminate].
      intros x y Hx Hy. apply (Qle_trans _ 60); [by apply Hbounds|].
      repeat (apply elem_of_cons in Hy as [->|Hy]; [discriminate|]).
      by apply elem_of_nil in Hy.
  - apply Forall_app. split; [repeat constructor; discriminate|].
    apply Forall_app. split; [|repeat constructor; discriminate].
    apply Forall_forall. intros v Hv. destruct (Hbounds v Hv) as [H1 H2].
    split; [by apply (Qle_trans _ 45)|by apply (Qle_trans _ 60)].
  - rewrite !last_app. reflexivity.
Qed.

Lemma progress_non_decreasing_witness :
  let run :=
    process_document
      (Fixtures.pipeline (Fixtures.chunker_of_pieces Fixtures.three_pieces)
         (Fixtures.generator []) (PyStr "some extracted text"))
      Fixtures.no_stats "/tmp/a.pdf" "a.pdf" "a.pdf" None (returning true) in
  StronglySorted Qle (progress_values run.1)
  /\ Forall (fun v => (0 <= v <= 100)%Q) (progress_values run.1)
  /\ last (progress_values run.1) = Some 100%Q.
Proof.
  eapply (progress_non_decreasing
            (Fixtures.pipeline
               (Fixtures.chunker_of_pieces Fixtures.three_pieces)
               (Fixtures.generator []) (PyStr "some extracted text"))
            Fixtures.no_stats "/tmp/a.pdf" "a.pdf" "a.pdf" None).
  - vm_compute. reflexivity.
  - reflexivity.
Defined.

(** The run of the witness, value by value. *)
Example successful_run_progress :
  progress_values
    (process_document
       (Fixtures.pipeline (Fixtures.chunker_of_pieces Fixtures.three_pieces)
          (Fixtures.generator []) (PyStr "some extracted text"))
       Fixtures.no_stats "/tmp/a.pdf" "a.pdf" "a.pdf" None (returning true)).1
  = [0; 10; 20; 25; 40; 45; 60; 60; 65; 70; 75; 90; 95; 100]%Q.
Proof. vm_compute. reflexivity. Qed.
End ProgressFacts.

(* ===================================================================== *)
(** * Failure handling of segmentation and of the pipeline *)
(* ===================================================================== *)

Module FailureFacts.
Import PyStr Chunker Pipeline.

(** ** Segmentation *)

Lemma semantic_loop_id n rest : forall i semantic_chunks current_batch,
  i + length rest = n ->
  (rest = [] -> current_batch = []) ->
  semantic_loop n i rest semantic_chunks current_batch
  = semantic_chunks ++ current_batch ++ rest.
Proof.
  induction rest as [|chunk rest IH]; intros i sem cur Hn Hcur.
  - cbn. rewrite Hcur by done. by rewrite app_nil_r.
  - cbn [semantic_loop length] in *.
    destruct ((5 <=? length (cur ++ [chunk]))%nat
              || (i =? n - 1)%nat) eqn:Hflush.
    + rewrite IH; [|lia|done]. unfold _optimize_chunk_boundaries.
      cbn [app]. by rewrite <- !app_assoc.
    + rewrite IH; [by rewrite <- !app_assoc|lia|].
      intros ->. apply orb_false_iff in Hflush as [_ Hlast].
      apply Nat.eqb_neq in Hlast. cbn in Hn. lia.
Qed.

(** Semantic chunking returns the pieces of the text splitter as they are:
    the pieces of the first call, or those of the retry when the first
    call raises. *)
Lemma semantic_chunk_is_basic_split self text :
  _semantic_chunk self text
  = match split_text (env self) 0 text with
    | Returns pieces => Returns pieces
    | Raises _ => split_text (env self) 1 text
    end.
Proof.
  unfold _semantic_chunk, try_except, mbind, Outcome_bind, mret, Outcome_ret.
  destruct (split_text (env self) 0 text) as [pieces|e]; [|done].
  destruct (length pieces <=? 20)%nat; [done|].
  f_equal. rewrite semantic_loop_id; [reflexivity|lia|done].
Qed.

Lemma chunk_document_returns self document :
  exists cs, chunk_document self document = Returns cs.
Proof.
  unfold chunk_document, try_except.
  destruct (chunk_document_body self document); eauto.
Qed.

(** C4, as the code has it. [chunk_document] never raises. When the first
    split of semantic chunking raises and the retry returns pieces, the
    result is the post-processed basic split. An error that reaches the
    handler of [chunk_document] itself (the text is not a [str], the basic
    split or the retry raises) gives the empty list. *)
Theorem chunk_document_failure_semantics self document :
  (exists cs, chunk_document self document = Returns cs)
  /\ (raised (chunk_document_body self document) = true ->
      chunk_document self document = Returns [])
  /\ (forall text pieces,
        dict_get (custom_fields (metadata document)) "extracted_text"
          (PyStr "") = PyStr text ->
        truthy (strip text) = true ->
        use_semantic_chunking (config self) = true ->
        raised (split_text (env self) 0 (_preprocess_text self text))
          = true ->
        split_text (env self) 1 (_preprocess_text self text)
          = Returns pieces ->
        chunk_document self document
        = Returns (_post_process_chunks self pieces document)).
Proof.
  split; [apply chunk_document_returns|]. split.
  - unfold chunk_document, try_except.
    by destruct (chunk_document_body self document).
  - intros text pieces Htext Hne Hsem Hfirst Hretry.
    unfold chunk_document, chunk_document_body.
    rewrite Htext. cbn [as_text mbind Outcome_bind]. rewrite Hne, Hsem.
    cbn [negb]. rewrite semantic_chunk_is_basic_split.
    destruct (split_text (env self) 0 _); [discriminate|].
    by rewrite Hretry.
Qed.

Lemma chunk_document_failure_semantics_witness :
  let self := {|
    config := default_config;
    env := Fixtures.splitter_env (fun k _ =>
             match k with
             | 0 => Raises "splitter failed"
             | _ => Returns Fixtures.three_pieces
             end) |} in
  let document := Fixtures.text_document (PyStr "some extracted text") in
  chunk_document self document
  = Returns (_post_process_chunks self Fixtures.three_pieces document).
Proof.
  cbv zeta.
  refine (proj2 (proj2 (chunk_document_failure_semantics _ _))
            "some extracted text" Fixtures.three_pieces _ _ _ _ _);
    reflexivity.
Defined.

(** C4, as it is worded. The text splitter raises, [chunk_document] ends
    in its handler and returns no chunk at all: no basic split is
    returned, and the pipeline reports the document as failed. *)
Lemma chunk_document_error_gives_no_chunks :
  let document := Fixtures.text_document (PyStr "some extracted text") in
  raised (chunk_document_body Fixtures.broken_chunker document) = true
  /\ chunk_document Fixtures.broken_chunker document = Returns []
  /\ ~ (exists k text pieces,
          split_text (env Fixtures.broken_chunker) k text = Returns pieces
          /\ chunk_document Fixtures.broken_chunker document
             = Returns (_post_process_chunks Fixtures.broken_chunker pieces
                          document))
  /\ exists result,
       (process_document
          (Fixtures.pipeline Fixtures.broken_chunker (Fixtures.generator [])
             (PyStr "some extracted text"))
          Fixtures.no_stats "/tmp/a.pdf" "a.pdf" "a.pdf" None (returning false)).2
       = Returns result
       /\ success result = false.
Proof.
  cbv zeta. split; [reflexivity|]. split; [reflexivity|].
  split; [|eexists; split; [vm_compute; reflexivity|reflexivity]].
  intros (k & text & pieces & Hsplit & _). discriminate.
Qed.

(** ** The pipeline *)

Lemma run_report_any {A} cb message value (k : unit -> Run A) st :
  (report (returning cb) message value ≫= k) st
  = k () (if cb then emit st message value else st).
Proof. by destruct cb. Qed.

Lemma run_note_any {A} cb message value (k : unit -> Run A) st :
  (note (returning cb) message value ≫= k) st
  = k () (if cb then emit st message value else st).
Proof. by destruct cb. Qed.

Lemma embedding_progress_returns cb calls : forall st,
  exists st', embedding_reports (returning cb) calls st = (st', Returns ()).
Proof.
  induction calls as [|[current total] calls IH]; intros st.
  - by exists st.
  - cbn [embedding_reports]. rewrite run_note_any. apply IH.
Qed.

(** [process_document] always returns a result: whatever a stage raises
    ends in the [except] branch. *)
Lemma process_document_returns self s fp fn on md cb :
  exists result,
    (process_document self s fp fn on md (returning cb)).2 = Returns result.
Proof.
  unfold process_document.
  destruct (process_document_body self fp fn on md (returning cb) (initial_state s))
    as [st [result|error]]; [by exists result|].
  destruct (ProgressFacts.handler_result self cb error st) as (st' & -> & _).
  by eexists.
Qed.

(** A failed result carries no counts and the message of the error. *)
Lemma failed_result_shape self s fp fn on md cb result :
  (process_document self s fp fn on md (returning cb)).2 = Returns result ->
  success result = false ->
  chunks_created result = 0
  /\ entities_extracted result = 0
  /\ relationships_created result = 0
  /\ exists message, pr_error_message result = Some message.
Proof.
  unfold process_document, process_document_body. intros Hres Hfail.
  assert (Hhandler : forall error st,
    (process_document_handler self (returning cb) error st).2 = Returns result ->
    chunks_created result = 0 /\ entities_extracted result = 0
    /\ relationships_created result = 0
    /\ exists message, pr_error_message result = Some message).
  { intros error st H.
    destruct (ProgressFacts.handler_result self cb error st)
      as (st' & E & _).
    rewrite E in H. injection H as <-. cbn. eauto. }
  rewrite !run_report_any, ProgressFacts.run_lift in Hres.
  destruct (process_pdf self fp fn on) as [d|e]; [|by eapply Hhandler].
  cbv zeta in Hres.
  rewrite ProgressFacts.run_bind_document, !run_report_any,
    ProgressFacts.run_lift in Hres.
  destruct (Chunker.chunk_document _ _) as [chunks|e];
    [|by eapply Hhandler].
  destruct chunks as [|c chunks];
    [unfold raise in Hres; by eapply Hhandler|].
  rewrite ProgressFacts.run_bind_document, !run_report_any in Hres.
  destruct (Embeddings.generate_embeddings_batch _ _ _)
    as [embeddings calls].
  unfold mbind at 1, Run_bind at 1 in Hres.
  match type of Hres with context [embedding_reports (returning cb) calls ?st] =>
    destruct (embedding_progress_returns cb calls st) as (st' & E)
  end.
  rewrite E in Hres. clear E. rewrite ProgressFacts.run_lift in Hres.
  destruct embeddings as [embeddings|e]; [|by eapply Hhandler].
  rewrite ProgressFacts.run_bind_document, !run_report_any,
    ProgressFacts.run_lift in Hres.
  destruct (add_documents self _) as [ok|e]; [|by eapply Hhandler].
  rewrite !run_report_any, ProgressFacts.run_lift in Hres.
  destruct (add_episode self _ _ _ _) as [episode_id|e];
    [|by eapply Hhandler].
  cbv zeta in Hres.
  rewrite !run_report_any, ProgressFacts.run_bind_document,
    ProgressFacts.run_update_stats, run_report_any in Hres.
  cbn in Hres. injection Hres as <-. discriminate.
Qed.

(** ** Callbacks that may raise *)

Lemma run_report_some {A} f message value (k : unit -> Run A) st :
  (report (Some f) message value ≫= k) st
  = match f message value with
    | Returns _ => k () (emit st message value)
    | Raises e => (emit st message value, Raises e)
    end.
Proof.
  unfold mbind, Run_bind, report. by destruct (f message value) as [[]|e].
Qed.

Lemma run_report_none {A} message value (k : unit -> Run A) st :
  (report None message value ≫= k) st = k () st.
Proof. reflexivity. Qed.

(** The [except] branch with any callback: it leaves the statistics as
    they are, and it returns the failed result unless the callback raises
    on the report of the failure. *)
Lemma handler_cases self cb error st :
  let run := process_document_handler self cb error st in
  stats run.1 = stats st
  /\ match run.2 with
     | Returns result =>
         result = {|
           job_id := job_id_of self;
           pr_document_id :=
             match document st with
             | Some d => document_id d
             | None => "unknown"
             end;
           chunks_created := 0;
           entities_extracted := 0;
           relationships_created := 0;
           processing_time_ms := elapsed_ms self;
           success := false;
           pr_error_message := Some error |}
     | Raises e =>
         exists f,
           cb = Some f
           /\ f ("Processing failed: " +:+ error) 100%Q = Raises e
     end.
Proof.
  cbv zeta. unfold process_document_handler. destruct cb as [f|].
  - rewrite run_report_some.
    destruct (f ("Processing failed: " +:+ error) 100%Q) as [[]|e] eqn:E;
      cbn; [done|]. split; [done|]. by exists f.
  - rewrite run_report_none. by cbn.
Qed.





(** A text that is blank gives no chunk either, without any error. *)
Example blank_text_run :
  (process_document
     (Fixtures.pipeline (Fixtures.chunker_of_pieces Fixtures.three_pieces)
        (Fixtures.generator []) (PyStr "   "))
     Fixtures.no_stats "/tmp/a.pdf" "a.pdf" "a.pdf" None (returning false)).2
  = Returns {|
      job_id := "job_1704067200";
      pr_document_id := "doc-1";
      chunks_created := 0;
      entities_extracted := 0;
      relationships_created := 0;
      processing_time_ms := 2000;
      success := false;
      pr_error_message := Some "No chunks created from document" |}.
Proof. vm_compute. reflexivity. Qed.
End FailureFacts.

(* ===================================================================== *)
(** * Spans, sizes and modes of the chunks *)
(* ===================================================================== *)

Module PyStrFacts.
Import PyStr.

Lemma len_of_chars l : len (String.string_of_list_ascii l) = length l.
Proof. induction l as [|c l IH]; cbn; [done|]. unfold len in IH. by rewrite IH. Qed.

Lemma chars_length s : length (String.list_ascii_of_string s) = len s.
Proof. induction s as [|c s IH]; cbn; [done|]. unfold len in IH. by rewrite IH. Qed.

Lemma lstrip_chars_length l : length (lstrip_chars l) <= length l.
Proof.
  induction l as [|c l IH]; cbn; [done|]. destruct (isspace c); cbn; lia.
Qed.

Lemma len_strip s : len (strip s) <= len s.
Proof.
  unfold strip, rstrip_chars. rewrite len_of_chars, length_reverse.
  etrans; [apply lstrip_chars_length|]. rewrite length_reverse.
  etrans; [apply lstrip_chars_length|]. by rewrite chars_length.
Qed.

Lemma len_slice_to s n :
  (0 <= n)%Z -> len (slice_to s n) = Z.to_nat n `min` len s.
Proof.
  intros Hn. unfold slice_to.
  destruct (Z.ltb_spec n 0) as [?|_]; [lia|].
  by rewrite len_of_chars, length_take, chars_length.
Qed.

Lemma len_slice_to_le s n : len (slice_to s n) <= len s.
Proof.
  unfold slice_to. rewrite len_of_chars, length_take, chars_length. lia.
Qed.
End PyStrFacts.

Module SpanFacts.
Import PyStr Chunker Spans PyStrFacts.

(** What the loop appends lies one after the other from the current
    offset on. *)
Lemma post_process_loop_chain self document chunks :
  forall i processed off,
  exists new,
    post_process_loop self document i chunks processed off = processed ++ new
    /\ span_chain off new
    /\ Forall (fun c =>
         (0 <= max_chunk_size (config self))%Z ->
         (Z.of_nat (span_length c) <= max_chunk_size (config self))%Z) new.
Proof.
  induction chunks as [|chunk_text rest IH]; intros i processed off.
  - exists []. cbn. by rewrite app_nil_r.
  - cbn [post_process_loop].
    destruct (Z.of_nat (len (strip chunk_text)) <? min_chunk_size (config self))%Z.
    + apply IH.
    + set (text' := if (max_chunk_size (config self) <? Z.of_nat (len chunk_text))%Z
                    then slice_to chunk_text (max_chunk_size (config self))
                    else chunk_text).
      match goal with |- context [post_process_loop _ _ _ _ (processed ++ [?c]) ?o] =>
        destruct (IH (S i) (processed ++ [c]) o) as (new & -> & Hchain & Hall);
        exists (c :: new) end.
      split; [by rewrite <- app_assoc|]. split.
      * cbn. split; [done|]. eexists. split; [reflexivity|].
        split; [lia|]. split; [|done].
        pose proof (len_strip text'). unfold len in *. lia.
      * constructor; [|done]. unfold span_length. cbn. intros Hmax.
        replace (off + len text' - off) with (len text') by lia.
        subst text'.
        destruct (Z.ltb_spec (max_chunk_size (config self))
                    (Z.of_nat (len chunk_text))) as [Hlt|Hge]; [|lia].
        rewrite len_slice_to by done. lia.
Qed.

(** The spans of the chunks of one document lie one after the other: the
    first starts at 0, each of the others starts where the one before it
    ends, and no content is longer than its span. *)
Theorem chunk_spans_contiguous self chunks document :
  let out := _post_process_chunks self chunks document in
  (forall c, out !! 0 = Some c -> start_char c = Some 0)
  /\ (forall k c c', out !! k = Some c -> out !! S k = Some c' ->
        start_char c' = end_char c)
  /\ (forall c, c ∈ out ->
        exists s e, start_char c = Some s /\ end_char c = Some e
                    /\ s <= e /\ len (chunk_content c) <= e - s).
Proof.
  cbv zeta. unfold _post_process_chunks.
  destruct (post_process_loop_chain self document chunks 0 [] 0)
    as (out & -> & Hchain & _). cbn [app].
  revert Hchain. generalize 0 at 1 3. revert out.
  assert (Hgen : forall out off, span_chain off out ->
    (forall c, out !! 0 = Some c -> start_char c = Some off)
    /\ (forall k c c', out !! k = Some c -> out !! S k = Some c' ->
          start_char c' = end_char c)
    /\ (forall c, c ∈ out ->
          exists s e, start_char c = Some s /\ end_char c = Some e
                      /\ s <= e /\ len (chunk_content c) <= e - s)).
  { induction out as [|c out IH]; intros off Hc.
    - split; [done|]. split; [done|]. intros c Hin. by apply elem_of_nil in Hin.
    - cbn in Hc. destruct Hc as (Hs & e & He & Hle & Hlen & Hrest).
      destruct (IH e Hrest) as (H0 & Hnext & Hin).
      split; [|split].
      + intros c0 [= <-]. done.
      + intros [|k] c1 c2 H1 H2.
        * cbn in H1, H2. injection H1 as <-. rewrite He. by apply H0.
        * cbn in H1, H2. by eapply Hnext.
      + intros c0 [->|Hc0]%elem_of_cons; [by exists off, e|by apply Hin]. }
  intros out off. apply Hgen.
Qed.

(** With a maximum chunk size that is not negative, no span is longer than
    the maximum. *)
Theorem chunk_span_within_maximum self chunks document :
  (0 <= max_chunk_size (config self))%Z ->
  Forall (fun c => (Z.of_nat (span_length c)
                    <= max_chunk_size (config self))%Z)
    (_post_process_chunks self chunks document).
Proof.
  intros Hmax. unfold _post_process_chunks.
  destruct (post_process_loop_chain self document chunks 0 [] 0)
    as (out & -> & _ & Hall). cbn [app].
  eapply Forall_impl; [exact Hall|]. cbn. auto.
Qed.

Lemma chunk_span_within_maximum_witness :
  Forall (fun c => (Z.of_nat (span_length c) <= 5)%Z)
    (_post_process_chunks
       (Samples.small_chunker ["abcdefgh"; "ab"; "  xyz  "])
       ["abcdefgh"; "ab"; "  xyz  "] Samples.a_document).
Proof.
  apply (chunk_span_within_maximum
           (Samples.small_chunker ["abcdefgh"; "ab"; "  xyz  "])).
  cbn. lia.
Defined.

Lemma post_process_loop_untruncated self document chunks :
  forall i processed off,
  Forall (fun t => (Z.of_nat (len t) <= max_chunk_size (config self))%Z)
    chunks ->
  exists new,
    post_process_loop self document i chunks processed off = processed ++ new
    /\ Forall (fun c => (min_chunk_size (config self)
                         <= Z.of_nat (len (chunk_content c)))%Z) new
    /\ chunk_content <$> new
       = strip <$> List.filter (kept self) chunks.
Proof.
  induction chunks as [|chunk_text rest IH]; intros i processed off Hall.
  - exists []. cbn. by rewrite app_nil_r.
  - apply Forall_cons in Hall as [Hlen Hall].
    cbn [post_process_loop List.filter]. unfold kept at 1.
    destruct (Z.ltb_spec (Z.of_nat (len (strip chunk_text)))
                (min_chunk_size (config self))) as [Hsmall|Hbig].
    + cbn [negb]. by apply IH.
    + cbn [negb].
      destruct (Z.ltb_spec (max_chunk_size (config self))
                  (Z.of_nat (len chunk_text))) as [?|_]; [lia|].
      match goal with |- context [post_process_loop _ _ _ _ (processed ++ [?c]) ?o] =>
        destruct (IH (S i) (processed ++ [c]) o Hall) as (new & -> & Hmin & Hc);
        exists (c :: new) end.
      split; [by rewrite <- app_assoc|]. split.
      * constructor; [exact Hbig|done].
      * cbn. by rewrite Hc.
Qed.

(** When no candidate is longer than the maximum, nothing is cut: the
    contents are the trimmed candidates that pass the size test, and each
    has at least [min_chunk_size] characters. *)
Theorem untruncated_chunks_keep_minimum self chunks document :
  Forall (fun t => (Z.of_nat (len t) <= max_chunk_size (config self))%Z)
    chunks ->
  let out := _post_process_chunks self chunks document in
  chunk_content <$> out = strip <$> List.filter (kept self) chunks
  /\ Forall (fun c => (min_chunk_size (config self)
                       <= Z.of_nat (len (chunk_content c)))%Z) out.
Proof.
  intros Hall. cbv zeta. unfold _post_process_chunks.
  destruct (post_process_loop_untruncated self document chunks 0 [] 0 Hall)
    as (out & -> & Hmin & Hc). by cbn [app].
Qed.

Lemma untruncated_chunks_keep_minimum_witness :
  let out :=
    _post_process_chunks (Samples.small_chunker ["abcd"; "ab"; " xyz "])
      ["abcd"; "ab"; " xyz "] Samples.a_document in
  chunk_content <$> out
  = strip <$> List.filter
      (kept (Samples.small_chunker ["abcd"; "ab"; " xyz "]))
      ["abcd"; "ab"; " xyz "]
  /\ Forall (fun c => (3 <= Z.of_nat (len (chunk_content c)))%Z) out.
Proof.
  apply (untruncated_chunks_keep_minimum
           (Samples.small_chunker ["abcd"; "ab"; " xyz "])).
  repeat constructor; cbn; lia.
Defined.

(** A candidate that is cut can fall below the minimum: seven characters
    of which the first five are spaces pass the size test with three
    letters and are cut down to a content of no letter at all. *)
Example truncated_chunk_below_minimum :
  chunk_content <$>
    _post_process_chunks (Samples.small_chunker ["     abc"])
      ["     abc"] Samples.a_document
  = [""].
Proof. reflexivity. Qed.
End SpanFacts.

Module SemanticFacts.
Import PyStr Chunker.

(** Semantic chunking adds nothing to the basic split: whatever the number
    of pieces, [_semantic_chunk] returns the pieces of the text splitter
    as they are, those of a second call when the first one raises. *)
Theorem semantic_chunking_returns_the_split self text :
  _semantic_chunk self text
  = match split_text (env self) 0 text with
    | Returns pieces => Returns pieces
    | Raises _ => split_text (env self) 1 text
    end.
Proof. apply FailureFacts.semantic_chunk_is_basic_split. Qed.

(** The batch loop on twenty-two pieces. *)
Example semantic_chunk_of_many_pieces :
  _semantic_chunk (Samples.small_chunker Samples.many_pieces) "text"
  = Returns Samples.many_pieces.
Proof. vm_compute. reflexivity. Qed.

Lemma post_process_loop_agree self1 self2 document chunks :
  min_chunk_size (config self1) = min_chunk_size (config self2) ->
  max_chunk_size (config self1) = max_chunk_size (config self2) ->
  forall i processed1 processed2 off,
    Spans.chunk_core <$> processed1 = Spans.chunk_core <$> processed2 ->
    Spans.chunk_core
      <$> post_process_loop self1 document i chunks processed1 off
    = Spans.chunk_core
        <$> post_process_loop self2 document i chunks processed2 off.
Proof.
  intros Hmin Hmax.
  induction chunks as [|chunk_text rest IH]; intros i p1 p2 off Hp; [done|].
  cbn [post_process_loop]. rewrite <- Hmin, <- Hmax.
  destruct (Z.of_nat (len (strip chunk_text))
              <? min_chunk_size (config self1))%Z; [by apply IH|].
  apply IH. rewrite !fmap_app, Hp. reflexivity.
Qed.

(** The two chunking modes give the same chunks but for the
    [chunk_method] they record (and the identifiers and timestamps of the
    chunks): with a text splitter that answers a retry as it answered the
    first call, two chunkers that agree on the size limits return chunks
    of the same contents, indices and offsets. *)
Theorem chunking_modes_give_same_chunks cfg1 cfg2 e1 e2 document :
  min_chunk_size cfg1 = min_chunk_size cfg2 ->
  max_chunk_size cfg1 = max_chunk_size cfg2 ->
  preprocess_re e1 = preprocess_re e2 ->
  (forall k text, split_text e1 k text = split_text e2 0 text) ->
  (forall k text, split_text e2 k text = split_text e2 0 text) ->
  exists cs1 cs2,
    chunk_document {| config := cfg1; env := e1 |} document = Returns cs1
    /\ chunk_document {| config := cfg2; env := e2 |} document
       = Returns cs2
    /\ Spans.chunk_core <$> cs1 = Spans.chunk_core <$> cs2.
Proof.
  intros Hmin Hmax Hpre Hs1 Hs2.
  unfold chunk_document, chunk_document_body, try_except.
  unfold mbind, Outcome_bind, mret, Outcome_ret.
  destruct (as_text _) as [text|err];
    [|eexists _, _; repeat split; reflexivity].
  destruct (truthy (strip text)); cbn [negb];
    [|eexists _, _; repeat split; reflexivity].
  rewrite !FailureFacts.semantic_chunk_is_basic_split.
  unfold _basic_chunk, _preprocess_text. cbn [env config].
  rewrite Hpre, !Hs1, (Hs2 1).
  destruct (split_text e2 0 _) as [pieces|err].
  - eexists _, _.
    split; [by destruct (use_semantic_chunking cfg1)|].
    split; [by destruct (use_semantic_chunking cfg2)|].
    unfold _post_process_chunks. by apply post_process_loop_agree.
  - eexists _, _.
    split; [by destruct (use_semantic_chunking cfg1)|].
    split; [by destruct (use_semantic_chunking cfg2)|]. reflexivity.
Qed.

Lemma chunking_modes_give_same_chunks_witness :
  exists cs1 cs2,
    chunk_document
      {| config := Samples.small_config;
         env := Fixtures.splitter_env
                  (fun _ _ => Returns ["abcdefgh"; "ab"; "  xyz  "]) |}
      Samples.a_document = Returns cs1
    /\ chunk_document
         {| config := Samples.small_basic_config;
            env := Fixtures.splitter_env
                     (fun _ _ => Returns ["abcdefgh"; "ab"; "  xyz  "]) |}
         Samples.a_document = Returns cs2
    /\ Spans.chunk_core <$> cs1 = Spans.chunk_core <$> cs2.
Proof.
  apply (chunking_modes_give_same_chunks Samples.small_config
           Samples.small_basic_config); reflexivity.
Defined.
End SemanticFacts.

(* ===================================================================== *)
(** * Chunking statistics *)
(* ===================================================================== *)

Module StatsFacts.
Import PyStr Chunker ChunkingStats.

Lemma sum_of_acc xs : forall a, fold_left Nat.add xs a = a + sum_of xs.
Proof.
  unfold sum_of. induction xs as [|x xs IH]; intros a; cbn; [lia|].
  rewrite (IH (a + x)), (IH x). lia.
Qed.

Lemma sum_of_cons x xs : sum_of (x :: xs) = x + sum_of xs.
Proof. unfold sum_of at 1. cbn. apply sum_of_acc. Qed.

Lemma sum_of_bounds lo hi xs :
  Forall (fun s => lo <= s <= hi) xs ->
  length xs * lo <= sum_of xs <= length xs * hi.
Proof.
  induction 1 as [|x xs Hx _ IH]; [done|].
  rewrite sum_of_cons. cbn [length]. lia.
Qed.

Lemma min_of_bounds xs : forall x,
  min_of x xs <= x /\ Forall (fun y => min_of x xs <= y) xs
  /\ min_of x xs ∈ x :: xs.
Proof.
  induction xs as [|y xs IH]; intros x.
  - cbn. split; [done|]. split; [constructor|apply list_elem_of_here].
  - change (min_of x (y :: xs))
      with (min_of (if (y <? x)%nat then y else x) xs).
    destruct (Nat.ltb_spec y x) as [Hlt|Hge].
    + destruct (IH y) as (H1 & H2 & H3).
      split; [lia|]. split; [by constructor|by apply list_elem_of_further].
    + destruct (IH x) as (H1 & H2 & H3).
      split; [done|]. split; [constructor; [lia|done]|].
      apply elem_of_cons in H3 as [H3|H3];
        [rewrite H3; apply list_elem_of_here|].
      by do 2 apply list_elem_of_further.
Qed.

Lemma max_of_bounds xs : forall x,
  x <= max_of x xs /\ Forall (fun y => y <= max_of x xs) xs
  /\ max_of x xs ∈ x :: xs.
Proof.
  induction xs as [|y xs IH]; intros x.
  - cbn. split; [done|]. split; [constructor|apply list_elem_of_here].
  - change (max_of x (y :: xs))
      with (max_of (if (x <? y)%nat then y else x) xs).
    destruct (Nat.ltb_spec x y) as [Hlt|Hge].
    + destruct (IH y) as (H1 & H2 & H3).
      split; [lia|]. split; [by constructor|by apply list_elem_of_further].
    + destruct (IH x) as (H1 & H2 & H3).
      split; [done|]. split; [constructor; [lia|done]|].
      apply elem_of_cons in H3 as [H3|H3];
        [rewrite H3; apply list_elem_of_here|].
      by do 2 apply list_elem_of_further.
Qed.

(** The statistics of a list of chunks that is not empty: the count and
    the total are those of the list, the least and the greatest size are
    sizes of chunks and bound all sizes, and the quotient of the total by
    the count, which the code rounds to a float for [avg_chunk_size], lies
    between them. The empty list gives the empty dictionary. *)
Theorem chunking_stats_bounds self c rest :
  get_chunking_stats self [] = None
  /\ exists st,
      let sizes := (fun chunk => len (chunk_content chunk)) <$> c :: rest in
      get_chunking_stats self (c :: rest) = Some st
      /\ total_chunks st = length (c :: rest)
      /\ total_characters st = sum_list sizes
      /\ least_chunk_size st ∈ sizes
      /\ greatest_chunk_size st ∈ sizes
      /\ Forall (fun s => least_chunk_size st <= s <= greatest_chunk_size st)
           sizes
      /\ (inject_Z (Z.of_nat (least_chunk_size st)) <= avg_chunk_size st)%Q
      /\ (avg_chunk_size st
          <= inject_Z (Z.of_nat (greatest_chunk_size st)))%Q.
Proof.
  split; [done|]. eexists. cbv zeta. split; [reflexivity|].
  cbn [total_chunks total_characters least_chunk_size greatest_chunk_size
       avg_chunk_size].
  set (sizes := (fun chunk => len (chunk_content chunk)) <$> c :: rest).
  set (x := len (chunk_content c)).
  set (xs := (fun chunk => len (chunk_content chunk)) <$> rest).
  assert (Hsizes : sizes = x :: xs) by done.
  destruct (min_of_bounds xs x) as (m1 & m2 & m3).
  destruct (max_of_bounds xs x) as (M1 & M2 & M3).
  assert (Hall : Forall (fun s => min_of x xs <= s <= max_of x xs) sizes).
  { rewrite Hsizes. constructor; [lia|].
    rewrite Forall_forall in m2, M2. apply Forall_forall. intros s Hs.
    split; [by apply m2|by apply M2]. }
  pose proof (sum_of_bounds _ _ _ Hall) as [Hlo Hhi].
  assert (Hn : length sizes = S (length rest)).
  { subst sizes. by rewrite length_fmap. }
  assert (Hpos : (0 < inject_Z (Z.of_nat (length sizes)))%Q).
  { change 0%Q with (inject_Z 0). rewrite <- Zlt_Qlt. lia. }
  split; [done|]. split.
  { clear. generalize sizes. intros l. induction l as [|y l IH]; [done|].
    rewrite sum_of_cons, IH. done. }
  split; [exact m3|]. split; [exact M3|]. split; [exact Hall|].
  split.
  - apply Qle_shift_div_l; [done|].
    rewrite <- inject_Z_mult, <- Zle_Qle. lia.
  - apply Qle_shift_div_r; [done|].
    rewrite <- inject_Z_mult, <- Zle_Qle. lia.
Qed.

(** The float that the code keeps is not the quotient: for seven chunks of
    899 characters in all, four of 128 and three of 129, [avg_chunk_size]
    lies between the least and the greatest size, but [avg_chunk_size]
    times the count is not the total. *)
Example average_is_rounded :
  PrimFloat.leb 128 (Binary64.average 899 7) = true
  /\ PrimFloat.leb (Binary64.average 899 7) 129 = true
  /\ PrimFloat.eqb (PrimFloat.mul (Binary64.average 899 7) 7) 899 = false.
Proof. repeat split; reflexivity. Qed.
End StatsFacts.

(* ===================================================================== *)
(** * Cleaning of texts *)
(* ===================================================================== *)

Module CleanTextFacts.
Import PyStr Embeddings SingleEmbedding PyStrFacts.

Lemma lstrip_chars_blank l :
  forallb isspace l = true -> lstrip_chars l = [].
Proof.
  induction l as [|c l IH]; cbn; [done|].
  destruct (isspace c); cbn; [exact IH|discriminate].
Qed.

Lemma lstrip_chars_not_blank l :
  forallb isspace l = false ->
  exists c r, lstrip_chars l = c :: r /\ isspace c = false.
Proof.
  induction l as [|c l IH]; cbn; [discriminate|].
  destruct (isspace c) eqn:Hc; cbn; [exact IH|]. intros _. by exists c, l.
Qed.

Lemma forallb_reverse {A} (f : A -> bool) l :
  forallb f (reverse l) = forallb f l.
Proof.
  induction l as [|x l IH]; [done|].
  rewrite reverse_cons, forallb_app, IH. cbn. rewrite andb_true_r.
  apply andb_comm.
Qed.

Lemma truthy_of_chars l :
  truthy (String.string_of_list_ascii l)
  = match l with [] => false | _ :: _ => true end.
Proof. by destruct l. Qed.

(** [bool(s.strip())] is false exactly for the strings of white space. *)
Lemma truthy_strip s : truthy (strip s) = negb (blank s).
Proof.
  unfold strip, blank, rstrip_chars. rewrite truthy_of_chars.
  destruct (forallb isspace (String.list_ascii_of_string s)) eqn:Hb.
  - by rewrite (lstrip_chars_blank _ Hb).
  - destruct (lstrip_chars_not_blank _ Hb) as (c & r & -> & Hc).
    assert (Hrev : forallb isspace (reverse (c :: r)) = false).
    { rewrite forallb_reverse. cbn. by rewrite Hc. }
    destruct (lstrip_chars_not_blank _ Hrev) as (c' & r' & -> & _).
    rewrite reverse_cons. by destruct (reverse r').
Qed.

Lemma split_chars_blank l :
  forallb isspace l = true -> split_chars [] l = [].
Proof.
  induction l as [|c l IH]; cbn; [done|].
  destruct (isspace c); cbn; [exact IH|discriminate].
Qed.

Lemma split_chars_head l : forall cur,
  Forall (fun c => isspace c = false) cur ->
  cur <> [] \/ forallb isspace l = false ->
  exists c w ws, split_chars cur l = (c :: w) :: ws /\ isspace c = false.
Proof.
  assert (Hrev : forall cur, Forall (fun c => isspace c = false) cur ->
            cur <> [] ->
            exists c w, reverse cur = c :: w /\ isspace c = false).
  { intros cur Hall Hne.
    destruct (reverse cur) as [|c w] eqn:E.
    - apply (f_equal reverse) in E. rewrite reverse_involutive in E. done.
    - exists c, w. split; [done|].
      rewrite Forall_forall in Hall. apply Hall.
      apply elem_of_reverse. rewrite E. apply list_elem_of_here. }
  induction l as [|c0 l IH]; intros cur Hall Hor.
  - destruct Hor as [Hne|?]; [|done].
    destruct (Hrev cur Hall Hne) as (c & w & E & Hc).
    exists c, w, []. cbn. rewrite E. by destruct cur.
  - cbn [split_chars]. destruct (isspace c0) eqn:Hc0.
    + destruct cur as [|c1 cur'].
      * apply IH; [done|]. right. destruct Hor as [?|H]; [done|].
        cbn in H. by rewrite Hc0 in H.
      * destruct (Hrev (c1 :: cur') Hall) as (c & w & E & Hc); [done|].
        exists c, w, (split_chars [] l). by rewrite E.
    + apply IH; [by constructor|by left].
Qed.

Lemma join_head c w ws sep :
  exists rest,
    join sep (String.string_of_list_ascii (c :: w)
              :: (String.string_of_list_ascii <$> ws))
    = String c rest.
Proof. destruct ws; cbn; eauto. Qed.

Lemma clean_text_of_blank text :
  blank text = true -> _clean_text text = "".
Proof.
  intros Hb. unfold _clean_text. destruct (truthy text); cbn [negb]; [|done].
  unfold split. unfold blank in Hb. rewrite (split_chars_blank _ Hb).
  reflexivity.
Qed.

(** The cleaned text is empty exactly for the texts of white space. *)
Lemma clean_text_non_empty text :
  non_empty (_clean_text text) = negb (blank text).
Proof.
  destruct (blank text) eqn:Hb; [by rewrite clean_text_of_blank|].
  cbn [negb].
  unfold non_empty. rewrite truthy_strip. apply negb_true_iff.
  unfold _clean_text.
  destruct text as [|c0 text']; [done|]. cbn [truthy negb].
  unfold split.
  destruct (split_chars_head (String.list_ascii_of_string (String c0 text')) [])
    as (c & w & ws & -> & Hc); [constructor|by right|].
  cbn [fmap list_fmap].
  destruct (join_head c w ws " ") as (rest & ->).
  assert (Hcut : exists rest', slice_to (String c rest) 8000 = String c rest').
  { unfold slice_to. cbn [Z.ltb Z.compare].
    assert (exists k, Z.to_nat 8000 = S k) as [k ->] by (exists (Z.to_nat 7999); lia).
    cbn. eauto. }
  destruct Hcut as (rest' & Hcut).
  destruct (_ <? _)%Z; [rewrite Hcut|]; unfold blank; cbn; by rewrite Hc.
Qed.

(** What [_clean_text] keeps: a text of white space only becomes the empty
    string, any other text stays non-empty, and no cleaned text has more
    than 8000 characters. *)
Theorem clean_text_keeps_content text :
  (blank text = true -> _clean_text text = "")
  /\ non_empty (_clean_text text) = negb (blank text)
  /\ (Z.of_nat (len (_clean_text text)) <= 8000)%Z.
Proof.
  split; [apply clean_text_of_blank|]. split; [apply clean_text_non_empty|].
  unfold _clean_text. destruct (truthy text); cbn [negb]; [|done].
  destruct (Z.ltb_spec 8000 (Z.of_nat (len (join " " (split text)))))
    as [Hlong|Hshort]; [|done].
  rewrite len_slice_to by done. lia.
Qed.
End CleanTextFacts.

(* ===================================================================== *)
(** * Edge cases of the embedding batcher *)
(* ===================================================================== *)

Module BatchEdgeFacts.
Import PyStr Embeddings BatchCalls.

(** A response with too few vectors makes the inner loop raise. *)
Lemma fill_embeddings_raises self vs :
  forall cleaned idx embs,
    idx <= length vs ->
    length vs < idx + length (List.filter non_empty cleaned) ->
    raised (fill_embeddings self vs cleaned idx embs).2 = true.
Proof.
  induction cleaned as [|c rest IH]; intros idx embs Hidx Hlen.
  - cbn in Hlen. lia.
  - cbn [fill_embeddings]. cbn [List.filter] in Hlen.
    destruct (non_empty c).
    + cbn [length] in Hlen. destruct (vs !! idx) as [e|] eqn:He; [|done].
      apply lookup_lt_Some in He. apply IH; lia.
    + by apply IH.
Qed.




(** What one batch adds to the calls of the progress callback. *)
Lemma batch_step_call self texts cb total embs calls k :
  (1 <= batch_size self)%Z ->
  (batch_step self texts cb total (embs, calls)
     (k * Z.to_nat (batch_size self))).2
  = calls ++ (if passed cb && batch_reports self texts k
              then [((Z.of_nat k + 1)%Z, total)] else []).
Proof.
  intros Hsize. unfold batch_step, batch_reports.
  set (s := Z.to_nat (batch_size self)).
  replace (Z.of_nat (k * s) / batch_size self)%Z with (Z.of_nat k).
  2:{ replace (batch_size self) with (Z.of_nat s) by (subst s; lia).
      rewrite Nat2Z.inj_mul, Z.div_mul; lia. }
  destruct (List.filter non_empty _) as [|x input] eqn:Hin.
  { rewrite andb_false_r. by rewrite app_nil_r. }
  destruct (create self _ _) as [vs|e].
  2:{ rewrite andb_false_r. by rewrite app_nil_r. }
  destruct (Nat.leb_spec (length (x :: input)) (length vs)) as [Hle|Hgt].
  - destruct (EmbeddingFacts.fill_embeddings_ok self vs
                (_clean_text <$> take s (drop (k * s) texts)) 0 embs)
      as (out & -> & _); [rewrite Hin; lia|].
    destruct cb as [f|]; cbn; [|by rewrite app_nil_r].
    by destruct (f _ _).
  - pose proof (fill_embeddings_raises self vs
                  (_clean_text <$> take s (drop (k * s) texts)) 0 embs) as Hr.
    rewrite Hin in Hr. specialize (Hr ltac:(lia) ltac:(lia)).
    destruct (fill_embeddings _ _ _ _ _) as [e [?|?]]; [done|].
    rewrite andb_false_r. cbn. by rewrite app_nil_r.
Qed.

(** The calls of the progress callback: one for each batch that has a
    non-empty text and whose provider call returned enough vectors, in the
    order of the batches, with the number of the batch and the number of
    batches. A batch of empty texts and a batch whose call failed are
    passed over in silence. The calls are the same whether the callback
    returns from them or raises. *)
Theorem callback_calls_of_batches self texts f :
  (1 <= batch_size self)%Z ->
  (generate_embeddings_batch self texts (Some f)).2
  = (fun k => ((Z.of_nat k + 1)%Z, Z.of_nat (batch_count self texts)))
      <$> List.filter (batch_reports self texts)
            (seq 0 (batch_count self texts)).
Proof.
  intros Hsize. unfold generate_embeddings_batch, batch_count.
  destruct (Z.eqb_spec (batch_size self) 0) as [?|_]; [lia|].
  unfold py_range. destruct (Z.leb_spec (batch_size self) 0) as [?|_]; [lia|].
  set (s := Z.to_nat (batch_size self)).
  set (m := ((length texts + s - 1) / s)%nat).
  replace ((Z.of_nat (length texts) + batch_size self - 1)
             / batch_size self)%Z with (Z.of_nat m).
  2:{ subst m. replace (batch_size self) with (Z.of_nat s) by (subst s; lia).
      rewrite Nat2Z.inj_div. f_equal. lia. }
  assert (Hfold : forall l embs calls,
    (fold_left (batch_step self texts (Some f) (Z.of_nat m))
       ((fun k => k * s) <$> l) (embs, calls)).2
    = calls ++ ((fun k => ((Z.of_nat k + 1)%Z, Z.of_nat m))
                  <$> List.filter (batch_reports self texts) l)).
  { induction l as [|k l IH]; intros embs calls.
    - cbn. by rewrite app_nil_r.
    - cbn [fmap list_fmap fold_left List.filter].
      pose proof (batch_step_call self texts (Some f) (Z.of_nat m) embs
                    calls k Hsize) as Hstep.
      fold s in Hstep.
      destruct (batch_step self texts (Some f) (Z.of_nat m) (embs, calls)
                  (k * s))
        as [embs' calls'].
      cbn [snd] in Hstep. subst calls'. rewrite IH. cbn [andb passed].
      destruct (batch_reports self texts k); cbn;
        [by rewrite <- app_assoc|by rewrite app_nil_r]. }
  specialize (Hfold (seq 0 m) [] []).
  destruct (fold_left _ _ _) as [embeddings calls]. exact Hfold.
Qed.

Lemma callback_calls_of_batches_witness :
  (generate_embeddings_batch (Fixtures.generator [2%Z]) Fixtures.five_texts
     (returning true)).2
  = (fun k =>
       ((Z.of_nat k + 1)%Z,
        Z.of_nat (batch_count (Fixtures.generator [2%Z])
                    Fixtures.five_texts)))
      <$> List.filter
            (batch_reports (Fixtures.generator [2%Z]) Fixtures.five_texts)
            (seq 0 (batch_count (Fixtures.generator [2%Z])
                      Fixtures.five_texts)).
Proof.
  apply (callback_calls_of_batches (Fixtures.generator [2%Z])
           Fixtures.five_texts (fun _ _ => Returns ())).
  cbn. lia.
Defined.

(** Of the three batches of the example only the first reports: the
    provider fails for the second and the third has nothing but an empty
    text, so the callback never sees the last batch. *)
Example calls_of_the_example :
  List.filter (batch_reports (Fixtures.generator [2%Z]) Fixtures.five_texts)
    (seq 0 (batch_count (Fixtures.generator [2%Z]) Fixtures.five_texts))
  = [0].
Proof. vm_compute. reflexivity. Qed.

(** The batch size decides what the call does before any text is read: a
    size of zero raises, and a negative size returns the empty list for
    every input, without a call of the provider or of the callback. *)
Theorem batch_size_not_positive self texts cb :
  ((batch_size self = 0)%Z ->
     raised (generate_embeddings_batch self texts cb).1 = true
     /\ (generate_embeddings_batch self texts cb).2 = [])
  /\ ((batch_size self < 0)%Z ->
        generate_embeddings_batch self texts cb = (Returns [], [])).
Proof.
  unfold generate_embeddings_batch, py_range. split.
  - intros ->. by cbn.
  - intros Hneg.
    destruct (Z.eqb_spec (batch_size self) 0) as [?|_]; [lia|].
    destruct (Z.leb_spec (batch_size self) 0) as [_|?]; [|lia]. done.
Qed.
End BatchEdgeFacts.

(* ===================================================================== *)
(** * Single embeddings and the validation of the service *)
(* ===================================================================== *)

Module SingleEmbeddingFacts.
Import PyStr Embeddings SingleEmbedding.


(** The validation never reports an error-free result with a flag down:
    [error] is [None] exactly when the three flags are up, a correct
    dimension implies an available service, and an available service a
    valid configuration. A missing API key is accepted for the provider
    "ollama" only. *)
Theorem validation_result_coherent cfg create call1 call2 :
  let r := validate_embedding_config cfg create call1 call2 in
  (error r = None
   <-> config_valid r = true /\ service_available r = true
       /\ dimensions_correct r = true)
  /\ (dimensions_correct r = true -> service_available r = true)
  /\ (service_available r = true -> config_valid r = true)
  /\ (config_valid r = true ->
        model cfg <> "" /\ (api_key cfg <> "" \/ provider cfg = "ollama")).
Proof.
  cbv zeta. unfold validate_embedding_config.
  destruct (api_key cfg) as [|a k] eqn:Hkey; cbn [truthy negb andb].
  - destruct (String.eqb_spec (provider cfg) "ollama") as [Hp|Hp];
      cbn [negb].
    + destruct (model cfg) as [|m ms] eqn:Hm; cbn [truthy negb].
      * cbn. repeat split; try discriminate; intros; intuition discriminate.
      * destruct (test_connection _ call1).
        -- destruct (generate_embedding _ call2 "test") as [e|msg].
           ++ cbn. destruct (_ =? _)%Z; cbn;
                repeat split; try discriminate; auto;
                intros; intuition discriminate.
           ++ cbn. repeat split; try discriminate; auto;
                intros; intuition discriminate.
        -- cbn. repeat split; try discriminate; auto;
             intros; intuition discriminate.
    + cbn. repeat split; try discriminate; intros; intuition discriminate.
  - destruct (model cfg) as [|m ms] eqn:Hm; cbn [truthy negb].
    + cbn. repeat split; try discriminate; intros; intuition discriminate.
    + destruct (test_connection _ call1).
      * destruct (generate_embedding _ call2 "test") as [e|msg].
        -- cbn. destruct (_ =? _)%Z; cbn;
             repeat split; try discriminate; auto;
             intros; intuition discriminate.
        -- cbn. repeat split; try discriminate; auto;
             intros; intuition discriminate.
      * cbn. repeat split; try discriminate; auto;
          intros; intuition discriminate.
Qed.

(** The service counts as available only if the test request returned a
    vector of the configured dimension. *)
Theorem test_connection_checks_dimension self call :
  test_connection self call = true
  <-> exists embedding rest,
        call "test" = Returns (embedding :: rest)
        /\ Z.of_nat (length embedding) = dimensions self.
Proof.
  unfold test_connection, generate_embedding.
  change (_clean_text "test") with "test".
  change (truthy (strip "test")) with true. cbn [negb try_except].
  unfold mbind, Outcome_bind.
  destruct (call "test") as [[|e data]|err]; cbn.
  - split; [done|]. by intros (? & ? & ? & _).
  - rewrite Z.eqb_eq. split.
    + intros H. by exists e, data.
    + by intros (e' & r & [= <- <-] & H).
  - split; [done|]. by intros (? & ? & ? & _).
Qed.
End SingleEmbeddingFacts.

(* ===================================================================== *)
(** * Runs of the pipeline *)
(* ===================================================================== *)

Module RunFacts.
Import PyStr Pipeline PipelineStatistics ProgressFacts.

(** A run that ends in the [except] branch: the values reported so far,
    then 100; the statistics as they were. *)
Lemma failed_run_state self error st :
  exists st',
    process_document_handler self (returning true) error st
    = (st', Returns {|
         job_id := job_id_of self;
         pr_document_id :=
           match document st with
           | Some d => document_id d
           | None => "unknown"
           end;
         chunks_created := 0;
         entities_extracted := 0;
         relationships_created := 0;
         processing_time_ms := elapsed_ms self;
         success := false;
         pr_error_message := Some error |})
    /\ (progress st').*2 = (progress st).*2 ++ [100%Q]
    /\ stats st' = stats st.
Proof.
  unfold process_document_handler. rewrite run_report.
  eexists. split; [reflexivity|]. cbn. by rewrite fmap_app.
Qed.

Ltac close_failed :=
  match goal with
  | |- context [process_document_handler ?self (returning true) ?e ?st] =>
      let Heq := fresh "Heq" in
      let Hprog := fresh "Hprog" in
      destruct (failed_run_state self e st) as (? & Heq & Hprog & ?);
      rewrite Heq; cbn [fst snd]; rewrite Hprog;
      cbn [fst snd emit progress fmap list_fmap app]
  end.

(** The values of any run with a callback: a prefix of the checkpoints,
    then 100. *)
Lemma run_values_prefix self s fp fn on md :
  exists texts pre,
    progress_values (process_document self s fp fn on md (returning true)).1
    = pre ++ [100%Q]
    /\ pre `prefix_of` checkpoints self texts.
Proof.
  unfold process_document, process_document_body, progress_values, checkpoints.
  rewrite !run_report, run_lift.
  destruct (process_pdf self fp fn on) as [d|e].
  2:{ close_failed. exists [], [0; 10]%Q. split; [done|].
      by eexists. }
  cbv zeta. rewrite run_bind_document, !run_report, run_lift.
  destruct (Chunker.chunk_document _ _) as [chunks|e].
  2:{ close_failed. exists [], [0; 10; 20; 25]%Q. split; [done|]. by eexists. }
  destruct chunks as [|c chunks].
  { unfold raise. close_failed. exists [], [0; 10; 20; 25]%Q.
    split; [done|]. by eexists. }
  rewrite run_bind_document, !run_report, run_batcher.
  exists (chunk_content <$> c :: chunks).
  destruct (Embeddings.generate_embeddings_batch _ _ _)
    as [embeddings calls].
  match goal with |- context [(embedding_reports (returning true) calls ≫= ?k) ?st] =>
    destruct (run_embedding_progress calls k st) as (st' & E & _ & _ & Hp)
  end.
  rewrite E. clear E. rewrite run_lift. cbn [snd].
  cbn [emit progress] in Hp. rewrite !fmap_app in Hp. cbn in Hp.
  destruct embeddings as [embeddings|e].
  2:{ close_failed. rewrite Hp. eexists. split; [reflexivity|].
      exists [60; 65; 70; 75; 90; 95]%Q. (cbn; rewrite <- ?app_assoc; reflexivity). }
  rewrite run_bind_document, !run_report, run_lift.
  destruct (add_documents self _) as [ok|e].
  2:{ close_failed. rewrite !fmap_app, Hp. cbn.
      exists ([0; 10; 20; 25; 40; 45]%Q ++ (call_value <$> calls)
                ++ [60; 65]%Q).
      split; [(cbn; rewrite <- ?app_assoc; reflexivity)|].
      exists [70; 75; 90; 95]%Q. (cbn; rewrite <- ?app_assoc; reflexivity). }
  rewrite !run_report, run_lift.
  destruct (add_episode self _ _ _ _) as [episode_id|e].
  2:{ close_failed. rewrite !fmap_app, Hp. cbn.
      exists ([0; 10; 20; 25; 40; 45]%Q ++ (call_value <$> calls)
                ++ [60; 65; 70; 75]%Q).
      split; [(cbn; rewrite <- ?app_assoc; reflexivity)|].
      exists [90; 95]%Q. (cbn; rewrite <- ?app_assoc; reflexivity). }
  cbv zeta.
  rewrite !run_report, run_bind_document, run_update_stats, run_report.
  cbn [fst snd mret Run_ret emit progress].
  rewrite !fmap_app, Hp. cbn.
  exists ([0; 10; 20; 25; 40; 45]%Q ++ (call_value <$> calls)
            ++ [60; 65; 70; 75; 90; 95]%Q).
  split; [(cbn; rewrite <- ?app_assoc; reflexivity)|]. done.
Qed.

Lemma checkpoints_sorted self texts :
  StronglySorted Qle (checkpoints self texts)
  /\ Forall (fun v => (0 <= v <= 95)%Q) (checkpoints self texts).
Proof.
  unfold checkpoints.
  destruct (embedding_progress_values (embedding_generator self) texts true)
    as [Hsorted Hbounds].
  set (E := call_value <$> _) in *.
  rewrite Forall_forall in Hbounds. split.
  - apply StronglySorted_app_2.
    + intros x y Hx Hy. apply (Qle_trans _ 45).
      * repeat (apply elem_of_cons in Hx as [->|Hx]; [discriminate|]).
        by apply elem_of_nil in Hx.
      * apply elem_of_app in Hy as [Hy|Hy]; [by apply Hbounds|].
        repeat (apply elem_of_cons in Hy as [->|Hy]; [discriminate|]).
        by apply elem_of_nil in Hy.
    + repeat constructor; discriminate.
    + apply StronglySorted_app_2; [|done|repeat constructor; discriminate].
      intros x y Hx Hy. apply (Qle_trans _ 60); [by apply Hbounds|].
      repeat (apply elem_of_cons in Hy as [->|Hy]; [discriminate|]).
      by apply elem_of_nil in Hy.
  - apply Forall_app. split; [repeat constructor; discriminate|].
    apply Forall_app. split; [|repeat constructor; discriminate].
    apply Forall_forall. intros v Hv. destruct (Hbounds v Hv) as [H1 H2].
    split; [by apply (Qle_trans _ 45)|by apply (Qle_trans _ 60)].
Qed.

(** The values of a run with a callback never decrease and lie between 0
    and 100. *)
Lemma run_values_sorted self s fp fn on md :
  let values :=
    progress_values (process_document self s fp fn on md (returning true)).1 in
  StronglySorted Qle values
  /\ Forall (fun v => (0 <= v <= 100)%Q) values.
Proof.
  cbv zeta.
  destruct (run_values_prefix self s fp fn on md)
    as (texts & pre & -> & [suffix Hpre]).
  destruct (checkpoints_sorted self texts) as [Hsorted Hbounds].
  rewrite Hpre in Hsorted, Hbounds.
  apply StronglySorted_app_1_l in Hsorted.
  apply Forall_app in Hbounds as [Hbounds _].
  split.
  - apply StronglySorted_app_2; [|done|repeat constructor].
    intros x y Hx Hy. apply list_elem_of_singleton in Hy as ->.
    rewrite Forall_forall in Hbounds. destruct (Hbounds x Hx) as [_ H].
    by apply (Qle_trans _ 95).
  - apply Forall_app. split; [|repeat constructor; discriminate].
    eapply Forall_impl; [exact Hbounds|]. cbn. intros v [H1 H2].
    split; [done|]. by apply (Qle_trans _ 95).
Qed.

(** Every run with a callback, failed or not, reports values that never
    decrease and lie between 0 and 100, and its last report is 100: the
    value 100 does not tell a success from a failure. *)
Theorem every_run_ends_at_100 self s fp fn on md :
  let values :=
    progress_values (process_document self s fp fn on md (returning true)).1 in
  StronglySorted Qle values
  /\ Forall (fun v => (0 <= v <= 100)%Q) values
  /\ last values = Some 100%Q.
Proof.
  cbv zeta.
  destruct (run_values_sorted self s fp fn on md) as [Hsorted Hbounds].
  split; [done|]. split; [done|].
  destruct (run_values_prefix self s fp fn on md) as (texts & pre & -> & _).
  apply last_snoc.
Qed.

(** ** Statistics *)

Lemma embedding_progress_any cb calls : forall st,
  exists st',
    embedding_reports (returning cb) calls st = (st', Returns ())
    /\ stats st' = stats st /\ document st' = document st.
Proof.
  induction calls as [|[current total] calls IH]; intros st.
  - by exists st.
  - cbn [embedding_reports]. rewrite FailureFacts.run_note_any.
    destruct (IH (if cb then emit st
        (embedding_progress_message current total)
        (embedding_progress_value current total) else st))
      as (st' & -> & Hs & Hd).
    exists st'. split; [done|]. rewrite Hs, Hd. by destruct cb.
Qed.

Lemma handler_any self cb error st :
  exists st' result,
    process_document_handler self (returning cb) error st = (st', Returns result)
    /\ stats st' = stats st /\ success result = false
    /\ pr_error_message result = Some error
    /\ pr_document_id result
       = match document st with
         | Some d => document_id d
         | None => "unknown"
         end.
Proof.
  unfold process_document_handler. rewrite FailureFacts.run_report_any.
  eexists _, _. split; [reflexivity|]. by destruct cb.
Qed.

Lemma length_assign_embeddings chunks : forall embeddings,
  length (assign_embeddings chunks embeddings) = length chunks.
Proof.
  induction chunks as [|c chunks IH]; intros [|e es]; cbn; try done.
  by rewrite IH.
Qed.

Lemma filter_length_le {A} (f : A -> bool) l :
  length (List.filter f l) <= length l.
Proof. induction l as [|x l IH]; cbn; [done|]. destruct (f x); cbn; lia. Qed.

Ltac stats_stay H :=
  match goal with
  | |- context [process_document_handler ?self (returning ?cb) ?e ?st] =>
      let Heq := fresh "Heq" in
      let Hkeep := fresh "Hkeep" in
      destruct (handler_any self cb e st)
        as (? & ? & Heq & Hkeep & H & ? & ?);
      rewrite Heq; eexists _, _; split; [reflexivity|];
      rewrite H, Hkeep
  end.

(** What a run does to the statistics, with the result it returns. *)
Lemma run_statistics self s fp fn on md cb :
  exists s' result,
    process_document self s fp fn on md (returning cb) = (s', Returns result)
    /\ if success result
       then documents_processed (stats s') = documents_processed s + 1
            /\ stat_chunks_created (stats s')
               = stat_chunks_created s + chunks_created result
            /\ embeddings_generated s <= embeddings_generated (stats s')
            /\ embeddings_generated (stats s')
               <= embeddings_generated s + chunks_created result
            /\ stat_entities_extracted (stats s')
               = stat_entities_extracted s + entities_extracted result
            /\ stat_relationships_created (stats s')
               = stat_relationships_created s + relationships_created result
            /\ total_processing_time (stats s')
               = (total_processing_time s + processing_time_ms result)%Q
       else stats s' = s.
Proof.
  unfold process_document, process_document_body.
  rewrite !FailureFacts.run_report_any, run_lift.
  assert (Hs0 : forall st : RunState, stats st = s -> stats
            (if cb then st else st) = s) by (by destruct cb).
  destruct (process_pdf self fp fn on) as [d|e].
  2:{ stats_stay Hf. by destruct cb. }
  cbv zeta.
  rewrite run_bind_document, !FailureFacts.run_report_any, run_lift.
  destruct (Chunker.chunk_document _ _) as [chunks|e].
  2:{ stats_stay Hf. by destruct cb. }
  destruct chunks as [|c chunks].
  { unfold raise. stats_stay Hf. by destruct cb. }
  rewrite run_bind_document, !FailureFacts.run_report_any.
  destruct (Embeddings.generate_embeddings_batch _ _ _)
    as [embeddings calls].
  unfold mbind at 1, Run_bind at 1.
  match goal with |- context [embedding_reports (returning cb) calls ?st] =>
    destruct (embedding_progress_any cb calls st) as (st' & E & Hst & _);
    assert (Hs' : stats st' = s) by (rewrite Hst; by destruct cb)
  end.
  rewrite E. clear E. rewrite run_lift.
  destruct embeddings as [embeddings|e].
  2:{ stats_stay Hf. exact Hs'. }
  rewrite run_bind_document, !FailureFacts.run_report_any, run_lift.
  destruct (add_documents self _) as [ok|e].
  2:{ stats_stay Hf. by destruct cb. }
  rewrite !FailureFacts.run_report_any, run_lift.
  destruct (add_episode self _ _ _ _) as [episode_id|e].
  2:{ stats_stay Hf. by destruct cb. }
  cbv zeta.
  rewrite !FailureFacts.run_report_any, run_bind_document, run_update_stats,
    FailureFacts.run_report_any.
  cbn [fst snd mret Run_ret]. eexists _, _. split; [reflexivity|].
  cbn [success chunks_created entities_extracted relationships_created
       processing_time_ms].
  assert (Hfinal : forall st1 : RunState, stats (if cb then emit st1
            "Processing completed successfully" 100 else st1) = stats st1)
    by (by destruct cb).
  rewrite Hfinal. cbn [stats]. 
  assert (Hmid : forall (st1 : RunState) m1 v1 m2 v2,
            stats (if cb then emit (if cb then emit st1 m1 v1 else st1) m2 v2
                   else (if cb then emit st1 m1 v1 else st1)) = stats st1)
    by (by destruct cb).
  rewrite !Hmid. cbn [stats]. rewrite Hs'.
  cbn [documents_processed stat_chunks_created embeddings_generated
       stat_entities_extracted stat_relationships_created
       total_processing_time].
  pose proof (filter_length_le has_embedding
                (assign_embeddings (c :: chunks) embeddings)) as Hle.
  rewrite !length_assign_embeddings in *.
  repeat split; try done; lia.
Qed.

(** The calls of the batcher are entered into the state without a
    change of the statistics, whatever the callback. *)
Lemma embedding_reports_cases (cb : Callback string Q) calls : forall st,
  exists st',
    embedding_reports cb calls st = (st', Returns ())
    /\ stats st' = stats st.
Proof.
  induction calls as [|[current total] calls IH]; intros st.
  - by exists st.
  - cbn [embedding_reports]. unfold mbind at 1, Run_bind at 1, note at 1.
    match goal with |- context [embedding_reports cb calls ?st1] =>
      destruct (IH st1) as (st' & -> & Hs)
    end.
    exists st'. split; [done|]. rewrite Hs. by destruct cb.
Qed.

Ltac call_returns :=
  rewrite FailureFacts.run_report_some;
  match goal with
  | |- exists _ _, match ?x with _ => _ end = _ /\ _ =>
      destruct x as [[]|?e] eqn:?E;
      [|eexists _, _; split; [reflexivity|by left]]
  end.

(** The body of the [try] with any callback: the result it returns is a
    success and is counted; when it raises, the statistics are as they
    were, unless it is the report of the success that raised. *)
Lemma body_statistics self fp fn on md cb st0 :
  exists st out,
    process_document_body self fp fn on md cb st0 = (st, out)
    /\ match out with
       | Returns result =>
           success result = true /\ counted (stats st0) (stats st) result
       | Raises e =>
           stats st = stats st0
           \/ exists f,
                cb = Some f
                /\ f "Processing completed successfully" 100%Q = Raises e
                /\ documents_processed (stats st)
                   = documents_processed (stats st0) + 1
       end.
Proof.
  unfold process_document_body.
  assert (Hcount : forall (c : DocumentChunk) chunks embeddings,
    length (List.filter has_embedding
              (assign_embeddings (c :: chunks) embeddings))
    <= length (assign_embeddings (c :: chunks) embeddings)
    /\ length (assign_embeddings (c :: chunks) embeddings)
       = S (length chunks)).
  { intros c chunks embeddings. split; [apply filter_length_le|].
    by rewrite length_assign_embeddings. }
  destruct cb as [f|].
  - do 2 call_returns. rewrite run_lift.
    destruct (process_pdf self fp fn on) as [d|e];
      [|eexists _, _; split; [reflexivity|by left]].
    cbv zeta. rewrite run_bind_document. do 2 call_returns.
    rewrite run_lift.
    destruct (Chunker.chunk_document _ _) as [chunks|e];
      [|eexists _, _; split; [reflexivity|by left]].
    destruct chunks as [|c chunks];
      [eexists _, _; split; [reflexivity|by left]|].
    rewrite run_bind_document. do 2 call_returns.
    destruct (Embeddings.generate_embeddings_batch _ _ _)
      as [embeddings calls].
    unfold mbind at 1, Run_bind at 1.
    match goal with |- context [embedding_reports (Some f) calls ?st] =>
      destruct (embedding_reports_cases (Some f) calls st)
        as (st' & -> & Hst); cbn [stats emit] in Hst
    end.
    rewrite run_lift.
    destruct embeddings as [embeddings|e];
      [|eexists _, _; split; [reflexivity|by left]].
    rewrite run_bind_document. do 2 call_returns. rewrite run_lift.
    destruct (add_documents self _) as [ok|e];
      [|eexists _, _; split; [reflexivity|by left]].
    do 2 call_returns. rewrite run_lift.
    destruct (add_episode self _ _ _ _) as [episode_id|e];
      [|eexists _, _; split; [reflexivity|by left]].
    cbv zeta. do 2 call_returns.
    rewrite run_bind_document, run_update_stats,
      FailureFacts.run_report_some.
    destruct (Hcount c chunks embeddings) as [Hle Hlen].
    destruct (f "Processing completed successfully" 100%Q) as [[]|e]
      eqn:Efinal.
    + eexists _, _. split; [reflexivity|]. split; [done|].
      unfold counted.
      cbn [stats emit success chunks_created entities_extracted
           relationships_created processing_time_ms
           documents_processed stat_chunks_created embeddings_generated
           stat_entities_extracted stat_relationships_created
           total_processing_time].
      rewrite Hst. repeat split; try done; lia.
    + eexists _, _. split; [reflexivity|]. right. exists f.
      split; [done|]. split; [done|].
      cbn [stats emit documents_processed]. by rewrite Hst.
  - rewrite !FailureFacts.run_report_none, run_lift.
    destruct (process_pdf self fp fn on) as [d|e];
      [|eexists _, _; split; [reflexivity|by left]].
    cbv zeta.
    rewrite run_bind_document, !FailureFacts.run_report_none, run_lift.
    destruct (Chunker.chunk_document _ _) as [chunks|e];
      [|eexists _, _; split; [reflexivity|by left]].
    destruct chunks as [|c chunks];
      [eexists _, _; split; [reflexivity|by left]|].
    rewrite run_bind_document, !FailureFacts.run_report_none.
    destruct (Embeddings.generate_embeddings_batch _ _ _)
      as [embeddings calls].
    unfold mbind at 1, Run_bind at 1.
    match goal with |- context [embedding_reports None calls ?st] =>
      destruct (embedding_reports_cases None calls st)
        as (st' & -> & Hst); cbn [stats emit] in Hst
    end.
    rewrite run_lift.
    destruct embeddings as [embeddings|e];
      [|eexists _, _; split; [reflexivity|by left]].
    rewrite run_bind_document, !FailureFacts.run_report_none, run_lift.
    destruct (add_documents self _) as [ok|e];
      [|eexists _, _; split; [reflexivity|by left]].
    rewrite !FailureFacts.run_report_none, run_lift.
    destruct (add_episode self _ _ _ _) as [episode_id|e];
      [|eexists _, _; split; [reflexivity|by left]].
    cbv zeta.
    rewrite !FailureFacts.run_report_none, run_bind_document, run_update_stats,
      FailureFacts.run_report_none.
    destruct (Hcount c chunks embeddings) as [Hle Hlen].
    eexists _, _. split; [reflexivity|]. split; [done|].
    unfold counted.
    cbn [stats emit success chunks_created entities_extracted
         relationships_created processing_time_ms
         documents_processed stat_chunks_created embeddings_generated
         stat_entities_extracted stat_relationships_created
         total_processing_time].
    rewrite Hst. repeat split; try done; lia.
Qed.


(** A successful run counts one document, the chunks, entities and
    relationships of its result and its processing time, and between none
    and all of its chunks as embedded. A run that fails, with a failed
    result or with an exception of the progress callback, leaves the
    statistics as they were, with one exception: the statistics are
    updated before the success is reported, so when the callback raises on
    the report "Processing completed successfully" the run fails and its
    document is counted all the same. With no callback, or with one that
    returns from its calls, the run returns a result and the statistics
    follow it. *)
Theorem statistics_follow_the_result self s fp fn on md cb :
  let run := process_document self s fp fn on md cb in
  let s' := stats run.1 in
  let counted_though_failed :=
    exists f e,
      cb = Some f
      /\ f "Processing completed successfully" 100%Q = Raises e
      /\ documents_processed s' = documents_processed s + 1 in
  (returns_normally cb ->
   exists result,
     run.2 = Returns result
     /\ if success result then counted s s' result else s' = s)
  /\ match run.2 with
     | Returns result =>
         if success result then counted s s' result
         else s' = s \/ counted_though_failed
     | Raises _ => s' = s \/ counted_though_failed
     end.
Proof.
  cbv zeta. unfold process_document.
  destruct (body_statistics self fp fn on md cb (initial_state s))
    as (st & out & -> & Hout).
  destruct out as [result|error].
  - destruct Hout as [Hsuccess Hcounted].
    cbn [fst snd stats initial_state] in *.
    rewrite Hsuccess. split; [|done].
    intros _. exists result. by rewrite Hsuccess.
  - destruct (FailureFacts.handler_cases self cb error st) as [Hstats Hcase].
    cbn [stats initial_state] in Hout.
    destruct (process_document_handler self cb error st)
      as [st' [result|e]]; cbn [fst snd] in *.
    + subst result. cbn [success]. rewrite Hstats.
      split;
        [|destruct Hout as [?|(f & ? & ? & ?)];
          [by left|right; by exists f, error]].
      intros Hquiet. eexists. split; [reflexivity|]. cbn [success].
      destruct Hout as [?|(f & -> & Hf & _)]; [done|].
      rewrite (Hquiet f _ _ eq_refl) in Hf. discriminate.
    + rewrite Hstats.
      split;
        [|destruct Hout as [?|(f & ? & ? & ?)];
          [by left|right; by exists f, error]].
      intros Hquiet. destruct Hcase as (f & -> & Hf).
      rewrite (Hquiet f _ _ eq_refl) in Hf. discriminate.
Qed.

(** A callback that raises on the report of the success: the run returns
    a failed result, and the statistics count its document and its two
    chunks. A callback that raises on every report of the value 100 raises
    once more in the [except] branch: the call raises, and the document is
    counted. *)
Example raising_callback_counts_the_run :
  let self :=
    Fixtures.pipeline (Fixtures.chunker_of_pieces Fixtures.three_pieces)
      (Fixtures.generator []) (PyStr "some extracted text") in
  let at_success := fun (message : string) (_ : Q) =>
    if String.eqb message "Processing completed successfully"
    then Raises "callback failed" else Returns () in
  let at_100 := fun (_ : string) (value : Q) =>
    if Qeq_bool value 100 then Raises "callback failed" else Returns () in
  let run1 :=
    process_document self reset_stats "/tmp/a.pdf" "a.pdf" "a.pdf" None
      (Some at_success) in
  let run2 :=
    process_document self reset_stats "/tmp/a.pdf" "a.pdf" "a.pdf" None
      (Some at_100) in
  (exists result,
      run1.2 = Returns result /\ success result = false
      /\ pr_error_message result = Some "callback failed")
  /\ documents_processed (stats run1.1) = 1
  /\ stat_chunks_created (stats run1.1) = 2
  /\ run2.2 = Raises "callback failed"
  /\ documents_processed (stats run2.1) = 1.
Proof.
  cbv zeta. split.
  - eexists. vm_compute. repeat split; reflexivity.
  - repeat split; vm_compute; reflexivity.
Qed.

(** The counters of [reset_stats] hold [embeddings_generated <=
    chunks_created]; every run keeps that, so that the success rate
    [get_pipeline_stats] derives from the statistics after a run is a
    fraction between 0 and 1. *)
Theorem success_rate_is_a_fraction self s fp fn on md cb :
  embeddings_generated s <= stat_chunks_created s ->
  let s' := stats (process_document self s fp fn on md (returning cb)).1 in
  embeddings_generated s' <= stat_chunks_created s'
  /\ (0 <= embedding_success_rate (get_pipeline_stats s') <= 1)%Q.
Proof.
  intros Hinv. cbv zeta.
  destruct (run_statistics self s fp fn on md cb) as (st & result & -> & H).
  cbn [fst].
  assert (Hinv' : embeddings_generated (stats st)
                  <= stat_chunks_created (stats st)).
  { destruct (success result); [|by rewrite H].
    destruct H as (_ & Hc & _ & He & _). lia. }
  split; [done|].
  unfold get_pipeline_stats. cbn [embedding_success_rate].
  destruct (Nat.ltb_spec 0 (stat_chunks_created (stats st))) as [Hpos|_];
    [|split; discriminate].
  unfold of_nat_Q.
  assert (H0 : (0 < inject_Z (Z.of_nat
                   (Nat.max 1 (stat_chunks_created (stats st)))))%Q).
  { change 0%Q with (inject_Z 0). rewrite <- Zlt_Qlt. lia. }
  split.
  - apply Qle_shift_div_l; [done|]. rewrite Qmult_0_l.
    change 0%Q with (inject_Z 0). rewrite <- Zle_Qle. lia.
  - apply Qle_shift_div_r; [done|]. rewrite Qmult_1_l.
    rewrite <- Zle_Qle. lia.
Qed.

Lemma success_rate_is_a_fraction_witness :
  let s' :=
    stats (process_document
             (Fixtures.pipeline
                (Fixtures.chunker_of_pieces Fixtures.three_pieces)
                (Fixtures.generator []) (PyStr "some extracted text"))
             reset_stats "/tmp/a.pdf" "a.pdf" "a.pdf" None (returning false)).1 in
  embeddings_generated s' <= stat_chunks_created s'
  /\ (0 <= embedding_success_rate (get_pipeline_stats s') <= 1)%Q.
Proof.
  apply (success_rate_is_a_fraction
           (Fixtures.pipeline
              (Fixtures.chunker_of_pieces Fixtures.three_pieces)
              (Fixtures.generator []) (PyStr "some extracted text"))
           reset_stats).
  cbn. lia.
Defined.

(** Before any document is processed the derived statistics are all 0:
    the divisions are by [max(1, ...)]. *)
Example derived_statistics_after_reset :
  get_pipeline_stats reset_stats
  = {| avg_processing_time := 0 / 1; avg_chunks_per_document := 0 / 1;
       embedding_success_rate := 0 |}.
Proof. reflexivity. Qed.

(** ** What makes a run succeed *)

(** Whatever the embedding provider does, a run succeeds when the text
    extraction returns a document, the chunker returns at least one chunk,
    the batch size is not zero and the two stores do not raise. A vector
    store that reports [False] does not fail the run either. The result
    carries the identifier of the document and the number of chunks. *)
Theorem run_succeeds_whatever_the_provider
    self s fp fn on md cb d c chunks :
  process_pdf self fp fn on = Returns d ->
  Chunker.chunk_document (chunker self) (started_document self md d)
    = Returns (c :: chunks) ->
  Embeddings.batch_size (embedding_generator self) <> 0%Z ->
  (forall cs, raised (add_documents self cs) = false) ->
  (forall content source episode meta,
      raised (add_episode self content source episode meta) = false) ->
  exists result,
    (process_document self s fp fn on md (returning cb)).2 = Returns result
    /\ success result = true
    /\ chunks_created result = length (c :: chunks)
    /\ pr_document_id result = document_id d
    /\ pr_error_message result = None.
Proof.
  intros Hpdf Hchunks Hsize Hvec Hgraph.
  unfold process_document, process_document_body.
  rewrite !FailureFacts.run_report_any, run_lift, Hpdf. cbv zeta.
  rewrite run_bind_document, !FailureFacts.run_report_any, run_lift, Hchunks.
  rewrite run_bind_document, !FailureFacts.run_report_any.
  destruct (Embeddings.generate_embeddings_batch _ _ _)
    as [embeddings calls] eqn:Hgen.
  unfold mbind at 1, Run_bind at 1.
  match goal with |- context [embedding_reports (returning cb) calls ?st] =>
    destruct (embedding_progress_any cb calls st) as (st' & E & _ & _)
  end.
  rewrite E. clear E. rewrite run_lift.
  destruct embeddings as [embeddings|e].
  2:{ exfalso. unfold Embeddings.generate_embeddings_batch in Hgen.
      destruct (Z.eqb_spec
                  (Embeddings.batch_size (embedding_generator self)) 0)
        as [?|_]; [done|].
      by destruct (fold_left _ _ _). }
  rewrite run_bind_document, !FailureFacts.run_report_any, run_lift.
  specialize (Hvec (assign_embeddings (c :: chunks) embeddings)).
  destruct (add_documents self _) as [ok|e]; [|discriminate].
  rewrite !FailureFacts.run_report_any, run_lift.
  match goal with |- context [add_episode self ?a ?b ?c0 ?m] =>
    specialize (Hgraph a b c0 m); destruct (add_episode self a b c0 m)
      as [episode_id|e]; [|discriminate]
  end.
  cbv zeta.
  rewrite !FailureFacts.run_report_any, run_bind_document, run_update_stats,
    FailureFacts.run_report_any.
  cbn [fst snd mret Run_ret]. eexists. split; [reflexivity|].
  cbn [success chunks_created pr_document_id pr_error_message].
  rewrite length_assign_embeddings. repeat split; try done.
  unfold started_document. by destruct md as [[|? ?]|].
Qed.

Lemma run_succeeds_whatever_the_provider_witness :
  exists result,
    (process_document
       (Fixtures.pipeline (Fixtures.chunker_of_pieces Fixtures.three_pieces)
          (Fixtures.generator [1%Z]) (PyStr "some extracted text"))
       reset_stats "/tmp/a.pdf" "a.pdf" "a.pdf" None (returning false)).2
    = Returns result
    /\ success result = true.
Proof.
  pose (self := Fixtures.pipeline
                  (Fixtures.chunker_of_pieces Fixtures.three_pieces)
                  (Fixtures.generator [1%Z]) (PyStr "some extracted text")).
  pose (d := Fixtures.text_document (PyStr "some extracted text")).
  destruct (Chunker.chunk_document (chunker self)
              (started_document self None d)) as [[|c chunks]|e] eqn:Hchunks;
    [vm_compute in Hchunks; discriminate| |vm_compute in Hchunks; discriminate].
  destruct (run_succeeds_whatever_the_provider self reset_stats
              "/tmp/a.pdf" "a.pdf" "a.pdf" None false d c chunks)
    as (result & Hrun & Hok & _).
  - reflexivity.
  - exact Hchunks.
  - discriminate.
  - reflexivity.
  - reflexivity.
  - exists result. split; [exact Hrun|exact Hok].
Defined.
End RunFacts.

Module MetadataFacts.
Import PyStr Pipeline.

Lemma dict_get_set_eq d key v default :
  dict_get (dict_set d key v) key default = v.
Proof.
  induction d as [|[k w] d IH]; cbn.
  - by rewrite String.eqb_refl.
  - destruct (String.eqb_spec k key) as [->|Hne]; cbn.
    + by rewrite String.eqb_refl.
    + destruct (String.eqb_spec k key); [done|exact IH].
Qed.

Lemma dict_get_set_ne d key key' v default :
  key <> key' ->
  dict_get (dict_set d key v) key' default = dict_get d key' default.
Proof.
  intros Hne. induction d as [|[k w] d IH]; cbn.
  - by destruct (String.eqb_spec key key').
  - destruct (String.eqb_spec k key) as [->|Hk]; cbn.
    + by destruct (String.eqb_spec key key').
    + destruct (String.eqb_spec k key'); [done|exact IH].
Qed.

Lemma dict_update_other other : forall d key default,
  key ∉ other.*1 ->
  dict_get (dict_update d other) key default = dict_get d key default.
Proof.
  unfold dict_update.
  induction other as [|[k w] other IH]; intros d key default Hout; [done|].
  cbn in *. apply not_elem_of_cons in Hout as [Hne Hout].
  rewrite IH by done. by apply dict_get_set_ne.
Qed.

Lemma dict_update_entry other : forall d key v default,
  NoDup other.*1 -> (key, v) ∈ other ->
  dict_get (dict_update d other) key default = v.
Proof.
  unfold dict_update.
  induction other as [|[k w] other IH]; intros d key v default Hnd Hin.
  - by apply elem_of_nil in Hin.
  - cbn in Hnd. apply NoDup_cons in Hnd as [Hk Hnd]. cbn [fold_left fst snd].
    apply elem_of_cons in Hin as [[= -> ->]|Hin].
    + pose proof (dict_update_other other (dict_set d k w) k default Hk) as H.
      unfold dict_update in H. rewrite H. apply dict_get_set_eq.
    + by apply IH.
Qed.

(** The metadata of the caller is merged into [custom_fields] before the
    chunker reads them: an entry of the metadata replaces the entry of the
    same key, the other keys keep their values. The text the chunker cuts
    is read from the key "extracted_text", so metadata with that key
    replace the text extracted from the file. *)
Theorem caller_metadata_override_custom_fields
    self md d key v default :
  NoDup md.*1 -> (key, v) ∈ md ->
  dict_get (custom_fields (metadata (started_document self (Some md) d)))
    key default = v
  /\ forall key', key' ∉ md.*1 ->
       dict_get
         (custom_fields (metadata (started_document self (Some md) d)))
         key' default
       = dict_get (custom_fields (metadata d)) key' default.
Proof.
  intros Hnd Hin. unfold started_document.
  destruct md as [|kv more]; [by apply elem_of_nil in Hin|].
  cbn [with_started with_custom_fields metadata custom_fields].
  split; [by apply dict_update_entry|].
  intros key' Hout. by apply dict_update_other.
Qed.

Lemma caller_metadata_override_custom_fields_witness :
  dict_get
    (custom_fields
       (metadata
          (started_document
             (Fixtures.pipeline
                (Fixtures.chunker_of_pieces Fixtures.three_pieces)
                (Fixtures.generator []) (PyStr "some extracted text"))
             (Some [("extracted_text", PyStr "   ")])
             (Fixtures.text_document (PyStr "some extracted text")))))
    "extracted_text" PyNone = PyStr "   "
  /\ forall key', key' ∉ [("extracted_text", PyStr "   ")].*1 ->
       dict_get
         (custom_fields
            (metadata
               (started_document
                  (Fixtures.pipeline
                     (Fixtures.chunker_of_pieces Fixtures.three_pieces)
                     (Fixtures.generator []) (PyStr "some extracted text"))
                  (Some [("extracted_text", PyStr "   ")])
                  (Fixtures.text_document (PyStr "some extracted text")))))
         key' PyNone
       = dict_get
           (custom_fields
              (metadata
                 (Fixtures.text_document (PyStr "some extracted text"))))
           key' PyNone.
Proof.
  apply (caller_metadata_override_custom_fields _
           [("extracted_text", PyStr "   ")]).
  - apply NoDup_singleton.
  - apply list_elem_of_here.
Defined.

(** A run whose caller passes a blank "extracted_text" finds no chunk,
    although the file has text. *)
Example blank_metadata_text_fails_the_run :
  exists result,
    (process_document
       (Fixtures.pipeline (Fixtures.chunker_of_pieces Fixtures.three_pieces)
          (Fixtures.generator []) (PyStr "some extracted text"))
       Fixtures.no_stats "/tmp/a.pdf" "a.pdf" "a.pdf"
       (Some [("extracted_text", PyStr "   ")]) (returning false)).2
    = Returns result
    /\ success result = false
    /\ pr_error_message result = Some "No chunks created from document".
Proof. eexists. split; [vm_compute; reflexivity|]. done. Qed.
End MetadataFacts.

(* ===================================================================== *)
(** * Ranking, shared objects and the search tools *)
(* ===================================================================== *)

Module RankingFacts.
Import PyStr Tools.
Import FusionFacts NormalizeFacts DedupFacts.

(** ** Fusion *)


(** ** Normalization *)

Lemma rescale_mono lo hi a b :
  (lo < hi)%Q -> (a <= b)%Q ->
  ((a - lo) / (hi - lo) <= (b - lo) / (hi - lo))%Q.
Proof.
  intros Hlt Hab. unfold Qdiv. apply Qmult_le_compat_r.
  - unfold Qminus. by apply Qplus_le_l.
  - apply Qinv_le_0_compat. unfold Qminus. rewrite <- Qle_minus_iff.
    by apply Qlt_le_weak.
Qed.

Lemma extremes_ordered r rest :
  (py_min (score r) (score <$> rest)
   <= py_max (score r) (score <$> rest))%Q.
Proof.
  destruct (py_max_bounds (score <$> rest) (score r)) as (H1 & _).
  destruct (py_min_bounds (score <$> rest) (score r)) as (H2 & _).
  by apply (Qle_trans _ (score r)).
Qed.

Lemma extremes_apart r rest :
  Qeq_bool (py_max (score r) (score <$> rest))
    (py_min (score r) (score <$> rest)) = false ->
  (py_min (score r) (score <$> rest)
   < py_max (score r) (score <$> rest))%Q.
Proof.
  intros Hne. apply Qeq_bool_neq in Hne.
  destruct (Qlt_le_dec (py_min (score r) (score <$> rest))
              (py_max (score r) (score <$> rest))) as [H|H]; [done|].
  exfalso. apply Hne. apply Qle_antisym; [done|]. apply extremes_ordered.
Qed.

(** What the rescaling does to a list: one non-decreasing function is
    applied to every score. *)
Lemma normalize_scores_shape results :
  exists g : Q -> Q,
    (forall a b, (a <= b)%Q -> (g a <= g b)%Q)
    /\ min_max_rescaled results
       = (fun r => with_score r (g (score r))) <$> results.
Proof.
  destruct results as [|r rest]; [by exists (fun q => q)|].
  unfold min_max_rescaled.
  destruct (Qeq_bool _ _) eqn:Heq.
  - exists (fun _ => 1%Q). split; [intros; apply Qle_refl|done].
  - eexists (fun s => ((s - _) / (_ - _))%Q). split; [|reflexivity].
    intros a b Hab. apply rescale_mono; [|done]. by apply extremes_apart.
Qed.

(** The rescaling changes nothing but the scores, and it keeps the
    ranking. *)
Lemma rescaled_keeps_ranking results :
  let out := min_max_rescaled results in
  Forall2 (fun r n => n = with_score r (score n)) results out
  /\ forall i j r1 r2 n1 n2,
       results !! i = Some r1 -> results !! j = Some r2 ->
       out !! i = Some n1 -> out !! j = Some n2 ->
       (score r1 <= score r2)%Q -> (score n1 <= score n2)%Q.
Proof.
  cbv zeta. destruct (normalize_scores_shape results) as (g & Hg & ->).
  split.
  - apply Forall2_fmap_r, Forall_Forall2_diag, Forall_forall. by intros r _.
  - intros i j r1 r2 n1 n2 H1 H2 Hn1 Hn2 Hle.
    rewrite list_lookup_fmap, H1 in Hn1. rewrite list_lookup_fmap, H2 in Hn2.
    injection Hn1 as <-. injection Hn2 as <-. cbn. by apply Hg.
Qed.

Lemma all_ones_max xs x :
  Forall (fun y => y = 1%Q) (x :: xs) -> py_max x xs = 1%Q.
Proof.
  intros Hall. destruct (py_max_bounds xs x) as (_ & _ & Hin).
  rewrite Forall_forall in Hall. by apply Hall.
Qed.

Lemma all_ones_min xs x :
  Forall (fun y => y = 1%Q) (x :: xs) -> py_min x xs = 1%Q.
Proof.
  intros Hall. destruct (py_min_bounds xs x) as (_ & _ & Hin).
  rewrite Forall_forall in Hall. by apply Hall.
Qed.

Lemma max_is_above xs x y : y ∈ x :: xs -> (y <= py_max x xs)%Q.
Proof.
  destruct (py_max_bounds xs x) as (H1 & H2 & _).
  intros [->|Hy]%elem_of_cons; [done|].
  rewrite Forall_forall in H2. by apply H2.
Qed.

Lemma min_is_below xs x y : y ∈ x :: xs -> (py_min x xs <= y)%Q.
Proof.
  destruct (py_min_bounds xs x) as (H1 & H2 & _).
  intros [->|Hy]%elem_of_cons; [done|].
  rewrite Forall_forall in H2. by apply H2.
Qed.

Lemma rescaled_extremes r rest :
  let hi := py_max (score r) (score <$> rest) in
  let lo := py_min (score r) (score <$> rest) in
  let f := fun s => ((s - lo) / (hi - lo))%Q in
  Qeq_bool hi lo = false ->
  (py_max (f (score r)) (f <$> (score <$> rest)) == 1)%Q
  /\ (py_min (f (score r)) (f <$> (score <$> rest)) == 0)%Q.
Proof.
  intros hi lo f Hne.
  assert (Hlt : (lo < hi)%Q) by by apply extremes_apart.
  assert (Hne' : ~ (hi == lo)%Q) by by apply Qeq_bool_neq.
  assert (Hd : ~ (hi - lo == 0)%Q).
  { intros H. apply Hne'. apply Qplus_inj_r with (z := (- lo)%Q).
    rewrite Qplus_opp_r. exact H. }
  assert (Hunit : forall y, y ∈ f <$> (score r :: (score <$> rest)) ->
                    (0 <= y <= 1)%Q).
  { intros y (s & -> & Hs)%list_elem_of_fmap.
    apply rescaled_in_unit; [by apply min_is_below|by apply max_is_above|done]. }
  split.
  - apply Qle_antisym.
    + apply Hunit.
      destruct (py_max_bounds (f <$> (score <$> rest)) (f (score r)))
        as (_ & _ & Hin). exact Hin.
    + assert (H1 : (1 == f hi)%Q) by (unfold f; by field).
      rewrite H1. apply max_is_above.
      change (f hi ∈ f <$> (score r :: (score <$> rest))).
      apply list_elem_of_fmap_2.
      by destruct (py_max_bounds (score <$> rest) (score r)) as (_ & _ & ?).
  - apply Qle_antisym.
    + assert (H0 : (0 == f lo)%Q) by (unfold f; by field).
      rewrite H0. apply min_is_below.
      change (f lo ∈ f <$> (score r :: (score <$> rest))).
      apply list_elem_of_fmap_2.
      by destruct (py_min_bounds (score <$> rest) (score r)) as (_ & _ & ?).
    + apply Hunit.
      destruct (py_min_bounds (f <$> (score <$> rest)) (f (score r)))
        as (_ & _ & Hin). exact Hin.
Qed.

(** Rescaling a rescaled list changes nothing: the scores are equal as
    numbers and the other fields are the same. *)
Lemma rescaled_twice results :
  Forall2 (fun a b => (score a == score b)%Q /\ a = with_score b (score a))
    (min_max_rescaled (min_max_rescaled results))
    (min_max_rescaled results).
Proof.
  destruct results as [|r rest]; [constructor|].
  set (hi := py_max (score r) (score <$> rest)).
  set (lo := py_min (score r) (score <$> rest)).
  destruct (Qeq_bool hi lo) eqn:Heq.
  - assert (Hout : min_max_rescaled (r :: rest)
                   = (fun x => with_score x 1%Q) <$> (r :: rest)).
    { unfold min_max_rescaled. fold hi lo. by rewrite Heq. }
    rewrite Hout. cbn [fmap list_fmap].
    assert (Hall : Forall (fun y => y = 1%Q)
              (score (with_score r 1)
                 :: (score <$> ((fun x => with_score x 1%Q) <$> rest)))).
    { constructor; [done|]. rewrite <- list_fmap_compose.
      apply Forall_fmap, Forall_forall. by intros x _. }
    unfold min_max_rescaled.
    rewrite (all_ones_max _ _ Hall), (all_ones_min _ _ Hall).
    change (Qeq_bool 1 1) with true. cbv iota.
    apply Forall2_fmap_l, Forall_Forall2_diag, Forall_forall.
    intros x Hx. split; [|done].
    change ((with_score r 1 :: ((fun x => with_score x 1%Q) <$> rest)))
      with ((fun x => with_score x 1%Q) <$> (r :: rest)) in Hx.
    by apply list_elem_of_fmap in Hx as (y & -> & _).
  - set (f := fun s => ((s - lo) / (hi - lo))%Q).
    assert (Hout : min_max_rescaled (r :: rest)
                   = (fun x => with_score x (f (score x))) <$> (r :: rest)).
    { unfold min_max_rescaled. fold hi lo. by rewrite Heq. }
    rewrite Hout. cbn [fmap list_fmap].
    destruct (rescaled_extremes r rest Heq) as [Hhi Hlo]. fold hi lo f in Hhi, Hlo.
    unfold min_max_rescaled.
    change (score (with_score r (f (score r)))) with (f (score r)).
    replace (score <$> ((fun x => with_score x (f (score x))) <$> rest))
      with (f <$> (score <$> rest))
      by (rewrite <- !list_fmap_compose; done).
    set (hi' := py_max (f (score r)) (f <$> (score <$> rest))) in *.
    set (lo' := py_min (f (score r)) (f <$> (score <$> rest))) in *.
    assert (Hne : Qeq_bool hi' lo' = false).
    { destruct (Qeq_bool hi' lo') eqn:E; [|done].
      apply Qeq_bool_iff in E.
      assert (H10 : (1 == 0)%Q).
      { apply (Qeq_trans _ hi'); [by apply Qeq_sym|].
        by apply (Qeq_trans _ lo'). }
      discriminate. }
    rewrite Hne.
    apply Forall2_fmap_l, Forall_Forall2_diag, Forall_forall.
    intros x _. split; [|done]. cbn [score with_score].
    change (hi' == 1)%Q in Hhi. change (lo' == 0)%Q in Hlo.
    rewrite Hhi, Hlo. field.
Qed.

(** ** Normalization of the result objects *)

(** [_normalize_scores], given distinct result objects whose scores lie no
    further apart than the greatest float, writes nothing but the scores
    of the objects it is given, and it keeps the ranking: of two objects of
    the list, the one whose score was not greater has a normalized score
    that is not greater. *)
Theorem normalize_keeps_ranking (h : InPlace.Store) results :
  NoDup results ->
  Forall (fun a => is_Some (h !! a)) results ->
  (InPlace.range_of_scores h results <= InPlace.greatest_float)%Q ->
  let res := InPlace._normalize_scores h results in
  let before := InPlace.deref h in
  let after := InPlace.deref res.1 in
  res.2 = results
  /\ (forall a, a ∈ results ->
        after a = with_score (before a) (score (after a)))
  /\ (forall b, b ∉ results -> res.1 !! b = h !! b)
  /\ forall a b, a ∈ results -> b ∈ results ->
       (score (before a) <= score (before b))%Q ->
       (score (after a) <= score (after b))%Q.
Proof.
  intros Hnd Hall _. cbv zeta.
  destruct (normalize_refines h results Hnd Hall) as (Hret & Href & Hout & _).
  destruct (rescaled_keeps_ranking (InPlace.deref h <$> results))
    as [Hsame Hrank].
  rewrite <- Href in Hsame, Hrank.
  split; [done|]. split; [|split; [done|]].
  - intros a [i Hi]%list_elem_of_lookup_1.
    rewrite Forall2_fmap in Hsame.
    by apply (Forall2_lookup_lr _ _ _ i a a) in Hsame.
  - intros a b [i Hi]%list_elem_of_lookup_1 [j Hj]%list_elem_of_lookup_1.
    apply (Hrank i j); by rewrite list_lookup_fmap, ?Hi, ?Hj.
Qed.

Lemma normalize_keeps_ranking_witness :
  let h : InPlace.Store :=
    {[ 0 := Fixtures.hit "a" 6; 1 := Fixtures.hit "b" 2 ]} in
  let res := InPlace._normalize_scores h [0; 1] in
  NoDup [0; 1]
  /\ Forall (fun a => is_Some (h !! a)) [0; 1]
  /\ (InPlace.range_of_scores h [0%nat; 1%nat] <= InPlace.greatest_float)%Q
  /\ res.2 = [0; 1]
  /\ ((score (InPlace.deref h 1) <= score (InPlace.deref h 0))%Q ->
      (score (InPlace.deref res.1 1) <= score (InPlace.deref res.1 0))%Q).
Proof.
  cbv zeta.
  set (h := ({[ 0 := Fixtures.hit "a" 6; 1 := Fixtures.hit "b" 2 ]}
             : InPlace.Store)).
  assert (Hnd : NoDup [0; 1])
    by (apply (bool_decide_unpack (NoDup [0; 1])); by vm_compute).
  assert (Hall : Forall (fun a => is_Some (h !! a)) [0; 1])
    by (repeat constructor; vm_compute; by eexists).
  assert (Hrange : (InPlace.range_of_scores h [0%nat; 1%nat]
                    <= InPlace.greatest_float)%Q)
    by (vm_compute; discriminate).
  destruct (normalize_keeps_ranking h [0; 1] Hnd Hall Hrange)
    as (Hret & _ & _ & Hrank).
  split; [done|]. split; [done|]. split; [done|]. split; [done|].
  apply Hrank; repeat constructor.
Defined.

(** Normalizing distinct result objects a second time changes nothing:
    the list and the objects are the same, and the scores are equal as
    numbers. *)
Theorem normalize_twice_is_normalize_once (h : InPlace.Store) results :
  NoDup results ->
  Forall (fun a => is_Some (h !! a)) results ->
  (InPlace.range_of_scores h results <= InPlace.greatest_float)%Q ->
  let once := InPlace._normalize_scores h results in
  let twice := InPlace._normalize_scores once.1 once.2 in
  twice.2 = once.2
  /\ (forall a, a ∈ results ->
        (score (InPlace.deref twice.1 a) == score (InPlace.deref once.1 a))%Q
        /\ InPlace.deref twice.1 a
           = with_score (InPlace.deref once.1 a)
               (score (InPlace.deref twice.1 a)))
  /\ (forall b, b ∉ results -> twice.1 !! b = h !! b)
  /\ (InPlace.range_of_scores once.1 once.2 <= 1)%Q.
Proof.
  intros Hnd Hall _. cbv zeta.
  destruct (normalize_refines h results Hnd Hall)
    as (Hret & Href & Hout & Hall').
  rewrite Hret.
  destruct (normalize_refines _ results Hnd Hall')
    as (Hret' & Href' & Hout' & _).
  pose proof (rescaled_twice (InPlace.deref h <$> results)) as Htwice.
  rewrite <- Href, <- Href' in Htwice.
  split; [done|]. split; [|split].
  - intros a [i Hi]%list_elem_of_lookup_1.
    rewrite Forall2_fmap in Htwice.
    by apply (Forall2_lookup_lr _ _ _ i a a) in Htwice.
  - intros b Hb. rewrite Hout' by done. by apply Hout.
  - destruct min_max_rescaled_spec as [Hunit _].
    assert (Hin : forall a, a ∈ results ->
              (0 <= score (InPlace.deref
                             (InPlace._normalize_scores h results).1 a)
               <= 1)%Q).
    { intros a Ha. apply (Hunit (InPlace.deref h <$> results)).
      rewrite <- Href. by apply list_elem_of_fmap_2. }
    destruct results as [|a rest]; [done|].
    unfold InPlace.range_of_scores.
    set (after := fun b => score (InPlace.deref _ b)).
    change (py_max (after a) (after <$> rest)
            - py_min (after a) (after <$> rest) <= 1)%Q.
    destruct (py_max_bounds (after <$> rest) (after a)) as (_ & _ & Hhi).
    destruct (py_min_bounds (after <$> rest) (after a)) as (_ & _ & Hlo).
    change (after a :: (after <$> rest)) with (after <$> a :: rest) in Hhi, Hlo.
    apply list_elem_of_fmap in Hhi as (x & -> & Hx).
    apply list_elem_of_fmap in Hlo as (y & -> & Hy).
    apply Hin in Hx, Hy. fold (after x) in Hx. fold (after y) in Hy.
    destruct Hx as [_ Hx], Hy as [Hy _].
    apply Qle_trans with (1 - 0)%Q; [|by vm_compute].
    apply Qplus_le_compat; [done|]. by apply Qopp_le_compat.
Qed.

Lemma normalize_twice_is_normalize_once_witness :
  let h : InPlace.Store :=
    {[ 0 := Fixtures.hit "a" 6; 1 := Fixtures.hit "b" 2;
       2 := Fixtures.hit "c" 3 ]} in
  let once := InPlace._normalize_scores h [0; 1; 2] in
  let twice := InPlace._normalize_scores once.1 once.2 in
  NoDup [0; 1; 2]
  /\ Forall (fun a => is_Some (h !! a)) [0; 1; 2]
  /\ (InPlace.range_of_scores h [0%nat; 1%nat; 2%nat]
      <= InPlace.greatest_float)%Q
  /\ twice.2 = once.2
  /\ (score (InPlace.deref twice.1 2) == score (InPlace.deref once.1 2))%Q.
Proof.
  cbv zeta.
  set (h := ({[ 0 := Fixtures.hit "a" 6; 1 := Fixtures.hit "b" 2;
                2 := Fixtures.hit "c" 3 ]} : InPlace.Store)).
  assert (Hnd : NoDup [0; 1; 2])
    by (apply (bool_decide_unpack (NoDup [0; 1; 2])); by vm_compute).
  assert (Hall : Forall (fun a => is_Some (h !! a)) [0; 1; 2])
    by (repeat constructor; vm_compute; by eexists).
  assert (Hrange : (InPlace.range_of_scores h [0%nat; 1%nat; 2%nat]
                    <= InPlace.greatest_float)%Q)
    by (vm_compute; discriminate).
  destruct (normalize_twice_is_normalize_once h [0; 1; 2] Hnd Hall Hrange)
    as (Hret & Hsame & _).
  split; [done|]. split; [done|]. split; [done|]. split; [done|].
  apply Hsame. repeat constructor.
Defined.

(** An object that the list names twice is rescaled twice: of the scores
    6, 6, 2, where the first two are the score of one object, the first
    call leaves -1/4, -1/4, 0, below the score it leaves for the object of
    score 2, and a second call leaves 1, 1, 1. *)
Example normalize_of_repeated_object :
  let h : InPlace.Store :=
    {[ 0 := Fixtures.hit "a" 6; 1 := Fixtures.hit "b" 2 ]} in
  let once := InPlace._normalize_scores h [0; 0; 1] in
  let twice := InPlace._normalize_scores once.1 once.2 in
  Forall2 Qeq ((fun a => score (InPlace.deref once.1 a)) <$> [0; 0; 1])
    [(-1 # 4)%Q; (-1 # 4)%Q; 0%Q]
  /\ Forall2 Qeq ((fun a => score (InPlace.deref twice.1 a)) <$> [0; 0; 1])
       [1%Q; 1%Q; 1%Q].
Proof. cbv zeta. split; vm_compute; repeat constructor. Qed.

(** ** Deduplication *)

Lemma first_per_key_distinct key l :
  NoDup (key <$> l) -> first_per_key key l = l.
Proof.
  induction l as [|x l IH]; intros Hnd; [done|].
  cbn in Hnd. apply NoDup_cons in Hnd as [Hx Hnd].
  cbn. rewrite IH by done. f_equal.
  apply forallb_filter_id, forallb_forall. intros y Hy.
  apply negb_true_iff, String.eqb_neq. intros E. apply Hx.
  rewrite <- E. apply list_elem_of_fmap_2. by apply list_elem_of_In.
Qed.

(** [_deduplicate_results] returns a list of distinct keys as it is, so a
    second deduplication changes nothing, and it never returns more
    results than it was given. *)
Theorem deduplicate_twice_is_deduplicate_once results :
  (NoDup (content_key <$> results) -> _deduplicate_results results = results)
  /\ _deduplicate_results (_deduplicate_results results)
     = _deduplicate_results results
  /\ length (_deduplicate_results results) <= length results.
Proof.
  rewrite !deduplicate_results_eq. split; [apply first_per_key_distinct|].
  split.
  - apply first_per_key_distinct, first_per_key_NoDup.
  - apply sublist_length, first_per_key_sublist.
Qed.
End RankingFacts.

Module SharedObjectFacts.
Import Tools InPlace InPlaceFacts.

Lemma scale_all_dom vw vr : forall (h : gmap nat ChunkResult),
  dom (scale_all vw h vr) = dom h.
Proof.
  induction vr as [|b vr IH]; intros h; [done|].
  rewrite scale_all_cons, IH. unfold scale_score. apply dom_alter_L.
Qed.

(** The objects the second loop creates: one for each graph result, at
    addresses that were free and differ from each other. *)
Lemma alloc_graph_fresh str_of gw gr : forall (h : gmap nat ChunkResult),
  let res := alloc_graph str_of gw h gr in
  length res.2 = length gr
  /\ NoDup res.2
  /\ Forall (fun a => a ∉ dom h) res.2.
Proof.
  induction gr as [|g gr IH]; intros h; cbn.
  - split; [done|]. split; constructor.
  - set (a := fresh (dom h)).
    set (c := graph_to_chunk str_of gw g).
    specialize (IH (<[a:=c]> h)). cbv zeta in IH.
    destruct (alloc_graph str_of gw (<[a:=c]> h) gr) as [h' addrs].
    cbn [fst snd] in *. destruct IH as (Hlen & Hnd & Hfresh).
    rewrite Forall_forall in Hfresh.
    split; [cbn; by f_equal|]. split.
    + constructor; [|done]. intros Ha. apply (Hfresh a Ha).
      rewrite dom_insert_L. set_solver.
    + constructor; [apply is_fresh|].
      apply Forall_forall. intros b Hb Hdom. apply (Hfresh b Hb).
      rewrite dom_insert_L. set_solver.
Qed.

(** [_combine_search_results] writes to no object but the vector results
    it is given: every other object of the caller is left as it was, and
    the list it returns holds the addresses it was given and, for each
    graph result, one new object. *)
Theorem fusion_leaves_other_objects
    str_of (h : gmap nat ChunkResult) vr gr vw gw :
  let res := InPlace._combine_search_results str_of h vr gr vw gw in
  (forall b, b ∉ vr -> is_Some (h !! b) -> res.1 !! b = h !! b)
  /\ exists created,
       res.2 ≡ₚ vr ++ created
       /\ length created = length gr
       /\ NoDup created
       /\ Forall (fun a => h !! a = None) created
       /\ deref res.1 <$> created = graph_to_chunk str_of gw <$> gr.
Proof.
  cbv zeta. unfold InPlace._combine_search_results.
  pose proof (alloc_graph_spec str_of gw gr (scale_all vw h vr)) as Hspec.
  pose proof (alloc_graph_fresh str_of gw gr (scale_all vw h vr)) as Hfresh.
  cbv zeta in Hspec, Hfresh.
  destruct (alloc_graph str_of gw (scale_all vw h vr) gr) as [h2 addrs].
  cbn [fst snd] in *. destruct Hspec as [Hkeep Hnew].
  destruct Hfresh as (Hlen & Hnd & Hfree).
  split.
  - intros b Hb Hsome.
    rewrite Hkeep; rewrite scale_all_lookup_notin by done; done.
  - exists addrs. split; [apply FusionFacts.sort_desc_Permutation|].
    split; [done|]. split; [done|]. split; [|done].
    eapply Forall_impl; [exact Hfree|]. intros a Ha. cbn in Ha.
    rewrite scale_all_dom in Ha. by apply not_elem_of_dom.
Qed.

Lemma with_score_same r : with_score r (score r) = r.
Proof. by destruct r. Qed.

Lemma iter_scale_shift vw n s :
  Nat.iter n (fun q => (q * vw)%Q) (s * vw)%Q
  = (Nat.iter n (fun q => (q * vw)%Q) s * vw)%Q.
Proof.
  induction n as [|n IH]; [done|]. rewrite !Nat.iter_succ. by rewrite IH.
Qed.

Lemma scale_all_count vw vr : forall (h : gmap nat ChunkResult) a,
  scale_all vw h vr !! a
  = (fun r => with_score r
       (Nat.iter (count_occ Nat.eq_dec vr a) (fun q => (q * vw)%Q)
          (score r))) <$> h !! a.
Proof.
  induction vr as [|b vr IH]; intros h a.
  - cbn. destruct (h !! a) as [r|]; cbn; [|done].
    by rewrite with_score_same.
  - rewrite scale_all_cons, IH. unfold scale_score. cbn [count_occ].
    destruct (Nat.eq_dec b a) as [->|Hne].
    + rewrite lookup_alter_eq. destruct (h !! a) as [r|]; cbn; [|done].
      f_equal. unfold with_score at 1. cbn [score cr_chunk_id cr_document_id
        content cr_metadata document_title document_source cr_chunk_index].
      unfold with_score. f_equal. apply iter_scale_shift.
    + by rewrite lookup_alter_ne.
Qed.

(** An object that occurs several times in the list of vector results is
    multiplied by the weight once for each occurrence. *)
Theorem result_listed_twice_is_weighted_twice
    str_of (h : gmap nat ChunkResult) vr gr vw gw a r :
  h !! a = Some r ->
  (InPlace._combine_search_results str_of h vr gr vw gw).1 !! a
  = Some (with_score r
            (Nat.iter (count_occ Nat.eq_dec vr a) (fun q => (q * vw)%Q)
               (score r))).
Proof.
  intros Hr. unfold InPlace._combine_search_results.
  pose proof (alloc_graph_spec str_of gw gr (scale_all vw h vr)) as Hspec.
  cbv zeta in Hspec.
  destruct (alloc_graph str_of gw (scale_all vw h vr) gr) as [h2 addrs].
  cbn [fst snd] in *. destruct Hspec as [Hkeep _].
  rewrite Hkeep; rewrite scale_all_count, Hr; [done|by eexists].
Qed.

Lemma result_listed_twice_is_weighted_twice_witness :
  (InPlace._combine_search_results Fixtures.plain_str
     Fixtures.one_hit_store [0; 0] [] 0.5 0.3).1 !! 0
  = Some (with_score (Fixtures.hit "text" 1) (1 * 0.5 * 0.5)%Q).
Proof.
  apply (result_listed_twice_is_weighted_twice Fixtures.plain_str
           Fixtures.one_hit_store [0; 0] [] 0.5 0.3 0
           (Fixtures.hit "text" 1)).
  reflexivity.
Defined.
End SharedObjectFacts.

Module SearchFacts.
Import PyStr Tools SearchTools.
Import FusionFacts.


Lemma graph_search_tool_returns env query :
  exists results,
    graph_search_tool env query = Returns results
    /\ (raised (knowledge_graph_search env query) = true -> results = []).
Proof.
  unfold graph_search_tool.
  destruct (knowledge_graph_search env query) as [l|err]; cbn;
    eexists; (split; [reflexivity|done]).
Qed.

(** What [hybrid_search_tool] returns, from what its two searches
    return. *)
Lemma hybrid_search_tool_eq env query limit vw gw vector_results
    graph_results :
  vector_search_tool env query limit None = Returns vector_results ->
  graph_search_tool env query = Returns graph_results ->
  hybrid_search_tool env query limit vw gw
  = Returns (list_slice_to
               (_combine_search_results (str_of env) vector_results
                  graph_results vw gw) limit).
Proof. intros Hv Hg. unfold hybrid_search_tool. by rewrite Hv, Hg. Qed.





(** The scores of that example: 0.9 and 1.0 weighted are 0.63 and 0.3;
    the result of score 0.14 is left out. *)
Example hybrid_search_of_the_example :
  exists out,
    hybrid_search_tool
      (SearchSamples.services (Returns [1%Q])
         (Returns [Fixtures.hit "a" 0.2; Fixtures.hit "b" 0.9])
         (Returns [Fixtures.entity "Ada" (Some 1%Q)]))
      "query" 2 0.7 0.3 = Returns out
    /\ score <$> out = [(0.9 * 0.7)%Q; (1 * 0.3)%Q].
Proof. by eexists. Qed.

(** A negative limit does not fail and does not return nothing: it cuts
    that many results off the end of the fused list. *)
Example hybrid_search_negative_limit :
  exists out,
    hybrid_search_tool
      (SearchSamples.services (Returns [1%Q])
         (Returns [Fixtures.hit "a" 0.2; Fixtures.hit "b" 0.9])
         (Returns [Fixtures.entity "Ada" (Some 1%Q)]))
      "query" (-1) 0.7 0.3 = Returns out
    /\ score <$> out = [(0.9 * 0.7)%Q; (1 * 0.3)%Q].
Proof. by eexists. Qed.

Lemma sort_desc_elem {A} (key : A -> Q) (l : list A) x :
  x ∈ sort_desc key l <-> x ∈ l.
Proof. by rewrite (sort_desc_Permutation key l). Qed.

(** A search that raises counts as a search without results. When the
    embedding of the query or the vector store fails, the hybrid search
    returns graph entities only; when the graph fails as well it returns
    the empty list. It never raises. *)
Theorem failed_vector_search_leaves_graph_results env query limit vw gw :
  raised (query_embedding ← generate_embedding env query;
          vector_store_search env query_embedding limit None) = true ->
  exists graph_results,
    graph_search_tool env query = Returns graph_results
    /\ hybrid_search_tool env query limit vw gw
       = Returns (list_slice_to
                    (sort_desc score
                       (graph_to_chunk (str_of env) gw <$> graph_results))
                    limit)
    /\ (raised (knowledge_graph_search env query) = true ->
          hybrid_search_tool env query limit vw gw = Returns []).
Proof.
  intros Hfail.
  destruct (graph_search_tool_returns env query)
    as (graph_results & Hg & Hnone).
  exists graph_results. split; [done|].
  assert (Hv : vector_search_tool env query limit None = Returns []).
  { unfold vector_search_tool.
    destruct (_ ← generate_embedding env query; _) as [l|err];
      [discriminate|done]. }
  rewrite (hybrid_search_tool_eq env query limit vw gw [] graph_results Hv Hg).
  split; [done|].
  intros Hgraph. rewrite (Hnone Hgraph). cbn.
  unfold list_slice_to. by rewrite take_nil.
Qed.

Lemma failed_vector_search_leaves_graph_results_witness :
  exists graph_results,
    graph_search_tool
      (SearchSamples.services (Raises "no embedding")
         (Returns [Fixtures.hit "a" 0.2])
         (Returns [Fixtures.entity "Ada" (Some 1%Q)]))
      "query" = Returns graph_results
    /\ hybrid_search_tool
         (SearchSamples.services (Raises "no embedding")
            (Returns [Fixtures.hit "a" 0.2])
            (Returns [Fixtures.entity "Ada" (Some 1%Q)]))
         "query" 2 0.7 0.3
       = Returns (list_slice_to
                    (sort_desc score
                       (graph_to_chunk Fixtures.plain_str 0.3
                          <$> graph_results))
                    2)
    /\ (raised (Returns [Fixtures.entity "Ada" (Some 1%Q)]
                  : Outcome (list GraphResult)) = true ->
          hybrid_search_tool
            (SearchSamples.services (Raises "no embedding")
               (Returns [Fixtures.hit "a" 0.2])
               (Returns [Fixtures.entity "Ada" (Some 1%Q)]))
            "query" 2 0.7 0.3
          = Returns []).
Proof.
  apply (failed_vector_search_leaves_graph_results
           (SearchSamples.services (Raises "no embedding")
              (Returns [Fixtures.hit "a" 0.2])
              (Returns [Fixtures.entity "Ada" (Some 1%Q)]))
           "query" 2 0.7 0.3).
  reflexivity.
Defined.

(** ** Retrieval of a document *)

Section Sorted.
Context {A : Type} (key : A -> Z).

Lemma insert_asc_Permutation x l : insert_asc key x l ≡ₚ x :: l.
Proof.
  induction l as [|y l IH]; cbn; [done|].
  destruct (key y <? key x)%Z; [|done].
  rewrite IH. apply Permutation_swap.
Qed.

Lemma sorted_Permutation l : sorted key l ≡ₚ l.
Proof.
  induction l as [|x l IH]; cbn; [done|].
  fold (sorted key l). by rewrite insert_asc_Permutation, IH.
Qed.

Lemma insert_asc_sorted x l :
  StronglySorted (fun a b => (key a <= key b)%Z) l ->
  StronglySorted (fun a b => (key a <= key b)%Z) (insert_asc key x l).
Proof.
  induction 1 as [|y l Hs IH Hy]; cbn; [repeat constructor|].
  destruct (Z.ltb_spec (key y) (key x)) as [Hlt|Hge].
  - constructor; [done|].
    rewrite insert_asc_Permutation. constructor; [lia|done].
  - constructor; [by constructor|].
    constructor; [done|]. eapply Forall_impl; [exact Hy|]. cbn. lia.
Qed.

Lemma sorted_ascending l :
  StronglySorted (fun a b => (key a <= key b)%Z) (sorted key l).
Proof.
  induction l as [|x l IH]; cbn; [constructor|].
  by apply insert_asc_sorted.
Qed.

Lemma insert_asc_stable k x l :
  List.filter (fun y => (key y =? k)%Z) (insert_asc key x l)
  = List.filter (fun y => (key y =? k)%Z) (x :: l).
Proof.
  induction l as [|y l IH]; [done|].
  cbn [insert_asc]. destruct (Z.ltb_spec (key y) (key x)) as [Hlt|Hge];
    [|done].
  cbn [List.filter] in *.
  destruct (Z.eqb_spec (key y) k) as [Hy|Hy].
  - destruct (Z.eqb_spec (key x) k) as [Hx|Hx]; [lia|]. by rewrite IH.
  - exact IH.
Qed.

Lemma sorted_stable k l :
  List.filter (fun y => (key y =? k)%Z) (sorted key l)
  = List.filter (fun y => (key y =? k)%Z) l.
Proof.
  induction l as [|x l IH]; [done|].
  cbn [sorted foldr]. fold (sorted key l).
  rewrite insert_asc_stable. cbn. by rewrite IH.
Qed.
End Sorted.

(** When the vector store answers, [document_retrieval_tool] returns all
    the chunks the store found, by ascending chunk index, a chunk without
    index counting as index 0 and chunks of one index staying in the order
    of the store; the content is the chunks' contents in that order, two
    line ends between them, and the count is the number of chunks. *)
Theorem retrieved_document_in_chunk_order env document_id all_chunks :
  vector_store_search env (replicate (Z.to_nat (embedding_dim env)) 0%Q)
    1000 (Some [("document_id", PyStr document_id)])
  = Returns all_chunks ->
  let d := document_retrieval_tool env document_id true in
  rd_chunks d ≡ₚ all_chunks
  /\ StronglySorted (fun a b => (index_or_zero a <= index_or_zero b)%Z)
       (rd_chunks d)
  /\ (forall k,
        List.filter (fun c => (index_or_zero c =? k)%Z) (rd_chunks d)
        = List.filter (fun c => (index_or_zero c =? k)%Z) all_chunks)
  /\ rd_content d = join (newline +:+ newline) (content <$> rd_chunks d)
  /\ rd_chunk_count d = length all_chunks
  /\ rd_metadata d = default [] (cr_metadata <$> head (rd_chunks d))
  /\ rd_error d = None.
Proof.
  intros Hsearch. cbv zeta. unfold document_retrieval_tool.
  rewrite Hsearch. cbn [mbind Outcome_bind mret rd_chunks rd_content
    rd_chunk_count rd_metadata rd_error].
  split; [apply sorted_Permutation|].
  split; [apply sorted_ascending|].
  split; [intros k; apply sorted_stable|].
  split; [done|].
  split; [by rewrite (sorted_Permutation index_or_zero all_chunks)|].
  split; [|done]. by destruct (sorted index_or_zero all_chunks).
Qed.

Lemma retrieved_document_in_chunk_order_witness :
  let d :=
    document_retrieval_tool
      (SearchSamples.services (Returns [])
         (Returns [SearchSamples.indexed "third" (Some 2%Z);
                   SearchSamples.indexed "first" None;
                   SearchSamples.indexed "second" (Some 0%Z)])
         (Returns []))
      "doc-1" true in
  rd_chunks d
  ≡ₚ [SearchSamples.indexed "third" (Some 2%Z);
      SearchSamples.indexed "first" None;
      SearchSamples.indexed "second" (Some 0%Z)]
  /\ StronglySorted (fun a b => (index_or_zero a <= index_or_zero b)%Z)
       (rd_chunks d)
  /\ (forall k,
        List.filter (fun c => (index_or_zero c =? k)%Z) (rd_chunks d)
        = List.filter (fun c => (index_or_zero c =? k)%Z)
            [SearchSamples.indexed "third" (Some 2%Z);
             SearchSamples.indexed "first" None;
             SearchSamples.indexed "second" (Some 0%Z)])
  /\ rd_content d = join (newline +:+ newline) (content <$> rd_chunks d)
  /\ rd_chunk_count d = 3
  /\ rd_metadata d = default [] (cr_metadata <$> head (rd_chunks d))
  /\ rd_error d = None.
Proof.
  apply (retrieved_document_in_chunk_order
           (SearchSamples.services (Returns [])
              (Returns [SearchSamples.indexed "third" (Some 2%Z);
                        SearchSamples.indexed "first" None;
                        SearchSamples.indexed "second" (Some 0%Z)])
              (Returns []))
           "doc-1").
  reflexivity.
Defined.

(** The retrieval of that example: the chunk without index first. *)
Example retrieval_of_the_example :
  content <$> rd_chunks
    (document_retrieval_tool
       (SearchSamples.services (Returns [])
          (Returns [SearchSamples.indexed "third" (Some 2%Z);
                    SearchSamples.indexed "first" None;
                    SearchSamples.indexed "second" (Some 0%Z)])
          (Returns []))
       "doc-1" true)
  = ["first"; "second"; "third"].
Proof. reflexivity. Qed.

(** A store that raises gives the dictionary of the handler: no content,
    no chunk, the message under "error". *)
Example retrieval_from_failing_store :
  document_retrieval_tool
    (SearchSamples.services (Returns []) (Raises "store is down")
       (Returns []))
    "doc-1" true
  = {| rd_document_id := "doc-1"; rd_content := ""; rd_chunks := [];
       rd_metadata := []; rd_chunk_count := 0;
       rd_error := Some "store is down" |}.
Proof. reflexivity. Qed.

(** Without [include_chunks] the store is not asked: whatever the
    services are, the document comes back empty and without error. *)
Example retrieval_without_store env document_id :
  document_retrieval_tool env document_id false
  = {| rd_document_id := document_id; rd_content := ""; rd_chunks := [];
       rd_metadata := []; rd_chunk_count := 0; rd_error := None |}.
Proof. reflexivity. Qed.
End SearchFacts.


(* ===================================================================== *)
(** * Batches of documents *)
(* ===================================================================== *)

Module BatchFacts.
Import PyStr Pipeline BatchProcessing.

(** What one turn of the loop adds to the results. *)
Lemma process_file_result self cb total i file_info st :
  exists r,
    results (process_file self cb total i file_info st) = results st ++ [r]
    /\ match missing file_info with
       | Some key =>
           r = error_result i ("'" +:+ key +:+ "'")
           /\ batch_stats (process_file self cb total i file_info st)
              = batch_stats st
           /\ overall (process_file self cb total i file_info st)
              = overall st
       | None =>
           exists file_path_ filename_ original_name_,
             fi_file_path file_info = Some file_path_
             /\ fi_filename file_info = Some filename_
             /\ fi_original_name file_info = Some original_name_
             /\ (process_document self (batch_stats st) file_path_
                   filename_ original_name_ (fi_metadata file_info)
                   (returning true)).2
                = Returns r
       end.
Proof.
  unfold process_file, missing.
  destruct (fi_file_path file_info) as [fp|]; [|by eexists].
  destruct (fi_filename file_info) as [fn|]; [|by eexists].
  destruct (fi_original_name file_info) as [on|]; [|by eexists].
  cbn [item mbind Outcome_bind].
  destruct (FailureFacts.process_document_returns self (batch_stats st)
              fp fn on (fi_metadata file_info) true) as (r & Hr).
  destruct (process_document self (batch_stats st) fp fn on
              (fi_metadata file_info) (returning true)) as [run outcome] eqn:Hrun.
  cbn [snd] in Hr. subst outcome. exists r. split; [done|].
  exists fp, fn, on. by rewrite Hrun.
Qed.

Lemma process_loop_results self_of cb total infos : forall i st,
  let out := process_loop self_of cb total i infos st in
  exists new,
    results out = results st ++ new
    /\ length new = length infos
    /\ forall k file_info, infos !! k = Some file_info ->
         exists r,
           new !! k = Some r
           /\ match missing file_info with
              | Some key => r = error_result (i + k) ("'" +:+ key +:+ "'")
              | None =>
                  exists s_k file_path_ filename_ original_name_,
                    fi_file_path file_info = Some file_path_
                    /\ fi_filename file_info = Some filename_
                    /\ fi_original_name file_info = Some original_name_
                    /\ (process_document (self_of (i + k)) s_k file_path_
                          filename_ original_name_ (fi_metadata file_info)
                          (returning true)).2
                       = Returns r
              end.
Proof.
  induction infos as [|file_info infos IH]; intros i st; cbv zeta.
  - exists []. rewrite app_nil_r. split; [done|]. split; [done|].
    intros k fi Hk. by rewrite lookup_nil in Hk.
  - cbn [process_loop].
    destruct (process_file_result (self_of i) cb total i file_info st)
      as (r & Hr & Hcase).
    destruct (IH (S i)
                (process_file (self_of i) cb total i file_info st))
      as (new & Hnew & Hlen & Hall).
    exists (r :: new). split; [|split].
    + rewrite Hnew, Hr, <- app_assoc. done.
    + cbn. by rewrite Hlen.
    + intros [|k] fi Hk.
      * injection Hk as <-. exists r. split; [done|].
        rewrite Nat.add_0_r.
        destruct (missing file_info) as [key|]; [by destruct Hcase|].
        destruct Hcase as (fp & fn & on & H1 & H2 & H3 & H4).
        by exists (batch_stats st), fp, fn, on.
      * cbn in Hk. destruct (Hall k fi Hk) as (r' & Hr' & Hcase').
        exists r'. split; [done|].
        by replace (i + S k) with (S i + k) by lia.
Qed.

(** [process_multiple_documents] returns one result for each entry of the
    list, in the order of the list. An entry without one of the keys
    "file_path", "filename", "original_name" is not processed: its result
    is a failed one with the job identifier [batch_job_i] and the first
    absent key as message. Every other result is the one
    [process_document] returned for the entry. *)
Theorem batch_gives_one_result_per_entry self_of s infos cb :
  let out := process_multiple_documents self_of s infos cb in
  length (results out) = length infos
  /\ forall i file_info, infos !! i = Some file_info ->
       exists r,
         results out !! i = Some r
         /\ match missing file_info with
            | Some key => r = error_result i ("'" +:+ key +:+ "'")
            | None =>
                exists s_i file_path_ filename_ original_name_,
                  fi_file_path file_info = Some file_path_
                  /\ fi_filename file_info = Some filename_
                  /\ fi_original_name file_info = Some original_name_
                  /\ (process_document (self_of i) s_i file_path_
                        filename_ original_name_ (fi_metadata file_info)
                        (returning true)).2
                     = Returns r
            end.
Proof.
  cbv zeta. unfold process_multiple_documents.
  destruct (process_loop_results self_of cb (length infos) infos 0
              {| batch_stats := s; results := []; overall := [] |})
    as (new & Hnew & Hlen & Hall).
  cbn [results app] in Hnew. rewrite Hnew. split; [done|].
  intros i fi Hi. destruct (Hall i fi Hi) as (r & Hr & Hcase).
  exists r. split; [done|]. exact Hcase.
Qed.

(** Three entries, the second without "filename". *)
Example batch_with_an_incomplete_entry :
  (fun r => (job_id r, success r, pr_error_message r))
    <$> results
          (process_multiple_documents BatchSamples.a_pipeline
             Fixtures.no_stats
             [BatchSamples.file_info "/tmp/a.pdf";
              BatchSamples.nameless "/tmp/b.pdf";
              BatchSamples.file_info "/tmp/c.pdf"]
             false)
  = [("job_1704067200", true, None);
     ("batch_job_1", false, Some "'filename'");
     ("job_1704067200", true, None)].
Proof. vm_compute. reflexivity. Qed.

(** ** The overall progress *)

Lemma bind_doc_progress i total (calls : list (string * Q)) :
  (fun call : OverallCall => call.1.1.2)
    <$> (calls ≫= doc_progress true i total)
  = overall_progress i total <$> calls.*2.
Proof.
  induction calls as [|[m v] calls IH]; [done|].
  cbn. f_equal. exact IH.
Qed.

Lemma overall_progress_mono i total v1 v2 :
  0 < total -> (v1 <= v2)%Q ->
  (overall_progress i total v1 <= overall_progress i total v2)%Q.
Proof.
  intros Htotal Hle. unfold overall_progress.
  apply Qmult_le_compat_r; [|discriminate].
  unfold Qdiv at 1 3. apply Qmult_le_compat_r.
  - apply Qplus_le_r. apply Qmult_le_compat_r; [done|discriminate].
  - apply Qinv_le_0_compat. change 0%Q with (inject_Z 0).
    rewrite <- Zle_Qle. lia.
Qed.

Lemma total_not_zero total :
  0 < total -> ~ (inject_Z (Z.of_nat total) == 0)%Q.
Proof.
  intros Htotal H. unfold Qeq in H. cbn in H. lia.
Qed.

Lemma overall_progress_next i total :
  0 < total ->
  (overall_progress i total 100 == overall_progress (S i) total 0)%Q.
Proof.
  intros Htotal. unfold overall_progress.
  rewrite Nat2Z.inj_succ. unfold Z.succ. rewrite inject_Z_plus.
  field. by apply total_not_zero.
Qed.

Lemma overall_progress_floor i total :
  0 < total -> (0 <= overall_progress i total 0)%Q.
Proof.
  intros Htotal. unfold overall_progress.
  apply Qmult_le_0_compat; [|discriminate].
  apply Qle_shift_div_l.
  - change 0%Q with (inject_Z 0). rewrite <- Zlt_Qlt. lia.
  - rewrite Qmult_0_l. unfold Qdiv. rewrite Qmult_0_l, Qplus_0_r.
    change 0%Q with (inject_Z 0). rewrite <- Zle_Qle. lia.
Qed.

Lemma overall_progress_end total :
  0 < total -> (overall_progress total total 0 == 100)%Q.
Proof.
  intros Htotal. unfold overall_progress. field. by apply total_not_zero.
Qed.

(** One turn of the loop keeps the overall values in order. *)
Lemma process_file_overall self total i file_info st :
  0 < total ->
  StronglySorted Qle (overall_values st) ->
  Forall (fun v => (0 <= v <= overall_progress i total 0)%Q)
    (overall_values st) ->
  let st' := process_file self true total i file_info st in
  StronglySorted Qle (overall_values st')
  /\ Forall (fun v => (0 <= v <= overall_progress (S i) total 0)%Q)
       (overall_values st').
Proof.
  intros Htotal Hsorted Hbound. cbv zeta.
  assert (Hstep : (overall_progress i total 0
                   <= overall_progress (S i) total 0)%Q).
  { rewrite <- overall_progress_next by done.
    apply overall_progress_mono; [done|discriminate]. }
  assert (Hweak : Forall
            (fun v => (0 <= v <= overall_progress (S i) total 0)%Q)
            (overall_values st)).
  { eapply Forall_impl; [exact Hbound|]. cbn. intros v [H1 H2].
    split; [done|]. by apply (Qle_trans _ (overall_progress i total 0)). }
  unfold process_file.
  destruct (_ ← item "file_path" _; _) as [[[fp fn] on]|error];
    [|by split].
  pose proof (RunFacts.run_values_sorted self (batch_stats st) fp fn on
                (fi_metadata file_info)) as Hrun.
  cbv zeta in Hrun.
  destruct (process_document self (batch_stats st) fp fn on
              (fi_metadata file_info) (returning true)) as [run outcome].
  cbn [fst] in Hrun. destruct Hrun as (Hrs & Hrb).
  unfold overall_values. cbn [overall].
  rewrite fmap_app, bind_doc_progress. fold (overall_values st).
  unfold progress_values in Hrs, Hrb.
  assert (Hnew : Forall
            (fun v => (overall_progress i total 0 <= v
                       <= overall_progress (S i) total 0)%Q)
            (overall_progress i total <$> (progress run).*2)).
  { apply Forall_fmap. eapply Forall_impl; [exact Hrb|]. cbn.
    intros v [H1 H2]. split; [by apply overall_progress_mono|].
    rewrite <- overall_progress_next by done.
    by apply overall_progress_mono. }
  split.
  - apply StronglySorted_app_2; [|done|].
    + intros x y Hx Hy.
      rewrite Forall_forall in Hbound, Hnew.
      destruct (Hbound x Hx) as [_ H1]. destruct (Hnew y Hy) as [H2 _].
      by apply (Qle_trans _ (overall_progress i total 0)).
    + clear Hnew Hrb. induction Hrs as [|v vs Hvs IH Hv]; [constructor|].
      cbn. constructor; [exact IH|].
      apply Forall_fmap. eapply Forall_impl; [exact Hv|]. cbn.
      intros w Hw. by apply overall_progress_mono.
  - apply Forall_app. split; [done|].
    eapply Forall_impl; [exact Hnew|]. cbn. intros v [H1 H2].
    split; [|done].
    apply (Qle_trans _ (overall_progress i total 0)); [|done].
    by apply overall_progress_floor.
Qed.

Lemma process_loop_overall self_of total infos : forall i st,
  i + length infos = total ->
  StronglySorted Qle (overall_values st) ->
  Forall (fun v => (0 <= v <= overall_progress i total 0)%Q)
    (overall_values st) ->
  let out := process_loop self_of true total i infos st in
  StronglySorted Qle (overall_values out)
  /\ Forall (fun v => (0 <= v <= overall_progress total total 0)%Q)
       (overall_values out).
Proof.
  induction infos as [|file_info infos IH]; intros i st Hlen Hs Hb; cbv zeta.
  - cbn [process_loop length] in *. rewrite Nat.add_0_r in Hlen.
    subst total. by split.
  - cbn [process_loop]. cbn [length] in Hlen.
    destruct (process_file_overall (self_of i) total i file_info st)
      as [Hs' Hb']; [lia|done|done|].
    apply IH; [lia|done|done].
Qed.

(** The overall progress a batch reports never decreases and stays
    between 0 and 100, whatever happens to the single documents. *)
Theorem overall_progress_never_decreases self_of s infos :
  let values :=
    overall_values (process_multiple_documents self_of s infos true) in
  StronglySorted Qle values
  /\ Forall (fun v => (0 <= v <= 100)%Q) values.
Proof.
  cbv zeta. unfold process_multiple_documents.
  destruct infos as [|file_info infos]; [split; constructor|].
  set (l := file_info :: infos).
  destruct (process_loop_overall self_of (length l) l 0
              {| batch_stats := s; results := []; overall := [] |})
    as [Hs Hb]; [done|constructor|constructor|].
  split; [done|].
  eapply Forall_impl; [exact Hb|]. cbn. intros v [H1 H2].
  split; [done|].
  rewrite overall_progress_end in H2; [done|cbn; lia].
Qed.

(** Two documents of which the first has no text: its values end at 50,
    where the values of the second begin. *)
Example overall_progress_of_two :
  Qred <$> overall_values
    (process_multiple_documents
       (fun i =>
          Fixtures.pipeline
            (Fixtures.chunker_of_pieces Fixtures.three_pieces)
            (Fixtures.generator [])
            (if Nat.eqb i 0 then PyStr "   "
             else PyStr "some extracted text"))
       Fixtures.no_stats
       [BatchSamples.file_info "/tmp/a.pdf";
        BatchSamples.file_info "/tmp/b.pdf"]
       true)
  = Qred <$> [0; 5; 10; 12.5; 50; 50; 55; 60; 62.5; 70; 72.5; 80; 80;
              82.5; 85; 87.5; 95; 97.5; 100]%Q.
Proof. vm_compute. reflexivity. Qed.
End BatchFacts.

(* ===================================================================== *)
(** * Text extraction *)
(* ===================================================================== *)

Module PdfFacts.
Import PyStr Pipeline PdfProcessor.
Import ProgressFacts.

Lemma page_loop_app marker pdf_pages : forall page_num text_content,
  page_loop marker page_num pdf_pages text_content
  = text_content ++ page_loop marker page_num pdf_pages [].
Proof.
  induction pdf_pages as [|page rest IH]; intros n acc; cbn.
  - by rewrite app_nil_r.
  - destruct page as [t|e]; [|apply IH].
    destruct (truthy (strip t)); [|apply IH].
    rewrite (IH _ (acc ++ _)), (IH _ [_]). by rewrite <- app_assoc.
Qed.

Lemma page_loop_no_text marker pdf_pages : forall page_num,
  Forall no_text pdf_pages -> page_loop marker page_num pdf_pages [] = [].
Proof.
  induction pdf_pages as [|page rest IH]; intros n Hall; [done|].
  apply Forall_cons in Hall as [Hpage Hall]. cbn.
  destruct page as [t|e]; [|by apply IH].
  cbn in Hpage. rewrite Hpage. by apply IH.
Qed.

Lemma page_loop_some_text marker pdf_pages : forall page_num,
  Forall no_text pdf_pages
  \/ exists k page_text more,
       page_loop marker page_num pdf_pages []
       = (marker k +:+ page_text) :: more.
Proof.
  induction pdf_pages as [|page rest IH]; intros n; [by left|].
  cbn. destruct page as [t|e].
  - destruct (truthy (strip t)) eqn:Ht.
    + right. rewrite page_loop_app. cbn. by eexists _, _, _.
    + destruct (IH (S n)) as [Hall|Hsome]; [left|by right].
      by constructor.
  - destruct (IH (S n)) as [Hall|Hsome]; [left|by right].
    by constructor.
Qed.

Lemma join_starts sep c s more :
  exists rest, join sep (String c s :: more) = String c rest.
Proof. destruct more; cbn; eauto. Qed.

Lemma not_blank_dash s : truthy (strip (String "-" s)) = true.
Proof. rewrite CleanTextFacts.truthy_strip. reflexivity. Qed.

(** The text [_extract_text_pypdf2] returns is blank exactly when no page
    of the file has text: a file that cannot be opened counts as a file
    without pages, and one page with text is enough for a text that is
    not blank. *)
Theorem extracted_text_blank_without_pages self file_path_ :
  truthy (strip (_extract_text_pypdf2 self file_path_)) = false
  <-> forall pdf_pages,
        pages self file_path_ = Returns pdf_pages ->
        Forall no_text pdf_pages.
Proof.
  unfold _extract_text_pypdf2.
  destruct (pages self file_path_) as [pdf_pages|e]; [|by split].
  split.
  - intros Hblank ? [= <-].
    destruct (page_loop_some_text
                (fun page_num =>
                   "--- Page " +:+ pretty (page_num + 1) +:+ " ---"
                     +:+ Tools.newline)
                pdf_pages 0) as [H|(k & t & more & E)]; [done|].
    rewrite E in Hblank.
    assert (Hhead : exists s,
              ("--- Page " +:+ pretty (k + 1) +:+ " ---" +:+ Tools.newline)
                +:+ t = String "-" s) by (eexists; reflexivity).
    destruct Hhead as (s & Hhead). rewrite Hhead in Hblank.
    destruct (join_starts (Tools.newline +:+ Tools.newline) "-" s more)
      as (rest & Hj).
    rewrite Hj, not_blank_dash in Hblank. discriminate.
  - intros Hall. rewrite page_loop_no_text by by apply Hall. reflexivity.
Qed.

(** A file whose pages have no text, processed without OCR: the document
    carries the empty text, the chunker is given nothing to cut, and the
    run fails with "No chunks created from document" under the identifier
    of the new document. Metadata of the caller change nothing unless
    they bring a text of their own. *)
Theorem pdf_without_text_fails_the_run
    self base s fp fn on md cb document_metadata :
  enable_ocr self = false ->
  path_exists self fp = true ->
  _extract_metadata self fp on = Returns document_metadata ->
  (forall pdf_pages,
      pages self fp = Returns pdf_pages -> Forall no_text pdf_pages) ->
  (forall fields, md = Some fields -> "extracted_text" ∉ fields.*1) ->
  exists result,
    (process_document (pipeline_of self base) s fp fn on md
       (returning cb)).2
    = Returns result
    /\ success result = false
    /\ pr_document_id result = new_document_id self
    /\ pr_error_message result = Some "No chunks created from document".
Proof.
  intros Hocr Hexists Hmeta Hpages Hmd.
  assert (Htext : _extract_text_pypdf2 self fp = "").
  { unfold _extract_text_pypdf2.
    destruct (pages self fp) as [pdf_pages|e]; [|done].
    by rewrite page_loop_no_text by by apply Hpages. }
  assert (Hpdf : exists d,
    PdfProcessor.process_pdf self fp fn on = Returns d
    /\ document_id d = new_document_id self
    /\ dict_get (custom_fields (metadata d)) "extracted_text" (PyStr "")
       = PyStr "").
  { unfold PdfProcessor.process_pdf, _extract_text.
    rewrite Hexists, Hmeta, Htext, Hocr. cbn.
    eexists. split; [reflexivity|]. split; [done|]. cbn.
    rewrite MetadataFacts.dict_get_set_ne by done.
    apply MetadataFacts.dict_get_set_eq. }
  destruct Hpdf as (d & Hpdf & Hid & Hget).
  assert (Hchunks :
    Chunker.chunk_document (chunker (pipeline_of self base))
      (started_document (pipeline_of self base) md d) = Returns []).
  { unfold Chunker.chunk_document, Chunker.chunk_document_body.
    assert (E : dict_get
              (custom_fields
                 (metadata (started_document (pipeline_of self base) md d)))
              "extracted_text" (PyStr "") = PyStr "").
    { unfold started_document. destruct md as [[|kv more]|]; try exact Hget.
      cbn [with_started with_custom_fields metadata custom_fields].
      rewrite MetadataFacts.dict_update_other; [exact Hget|].
      by apply Hmd. }
    rewrite E. reflexivity. }
  unfold process_document, process_document_body.
  rewrite !FailureFacts.run_report_any, run_lift.
  change (Pipeline.process_pdf (pipeline_of self base) fp fn on)
    with (PdfProcessor.process_pdf self fp fn on).
  rewrite Hpdf. cbv zeta.
  rewrite run_bind_document, !FailureFacts.run_report_any, run_lift, Hchunks.
  unfold raise.
  match goal with
  | |- context [process_document_handler ?p (returning ?c) ?e ?st] =>
      destruct (handler_result p c e st) as (? & -> & _)
  end.
  eexists. split; [reflexivity|]. cbn.
  split; [done|]. split; [|done].
  rewrite <- Hid. destruct cb; cbn; unfold started_document;
    by destruct md as [[|? ?]|].
Qed.

Lemma pdf_without_text_fails_the_run_witness :
  exists result,
    (process_document
       (pipeline_of
          (PdfSamples.processor true [Returns "  "; Raises "unreadable"])
          (Fixtures.pipeline
             (Fixtures.chunker_of_pieces Fixtures.three_pieces)
             (Fixtures.generator []) (PyStr "unused")))
       Fixtures.no_stats "/tmp/a.pdf" "a.pdf" "a.pdf" None (returning true)).2
    = Returns result
    /\ success result = false
    /\ pr_document_id result = "doc-7"
    /\ pr_error_message result = Some "No chunks created from document".
Proof.
  apply (pdf_without_text_fails_the_run
           (PdfSamples.processor true [Returns "  "; Raises "unreadable"])
           (Fixtures.pipeline
              (Fixtures.chunker_of_pieces Fixtures.three_pieces)
              (Fixtures.generator []) (PyStr "unused"))
           Fixtures.no_stats "/tmp/a.pdf" "a.pdf" "a.pdf" None true
           (PdfSamples.basic_metadata "a.pdf")).
  - reflexivity.
  - reflexivity.
  - reflexivity.
  - intros pdf_pages [= <-]. repeat constructor.
  - discriminate.
Defined.

(** The page markers carry the numbers of the pages in the file: a page
    without text is left out and the page after it keeps its number. *)
Example text_of_three_pages :
  _extract_text_pypdf2
    (PdfSamples.processor true [Returns "one"; Returns " "; Returns "three"])
    "/tmp/a.pdf"
  = "--- Page 1 ---" +:+ Tools.newline +:+ "one"
      +:+ Tools.newline +:+ Tools.newline
      +:+ "--- Page 3 ---" +:+ Tools.newline +:+ "three".
Proof. reflexivity. Qed.

(** A path that does not exist: the run fails before any document is
    made, under the identifier "unknown". *)
Example missing_file_run :
  (process_document
     (pipeline_of (PdfSamples.processor false [])
        (Fixtures.pipeline
           (Fixtures.chunker_of_pieces Fixtures.three_pieces)
           (Fixtures.generator []) (PyStr "unused")))
     Fixtures.no_stats "/tmp/a.pdf" "a.pdf" "a.pdf" None (returning false)).2
  = Returns {|
      job_id := "job_1704067200";
      pr_document_id := "unknown";
      chunks_created := 0;
      entities_extracted := 0;
      relationships_created := 0;
      processing_time_ms := 2000;
      success := false;
      pr_error_message :=
        Some "Failed to process PDF: File not found: /tmp/a.pdf" |}.
Proof. reflexivity. Qed.
End PdfFacts.
